(** * Hardcover integration of autocaliweb: progress sync and metadata search

    A shallow embedding of [cps/services/hardcover.py] (class
    [HardcoverClient]) and [cps/metadata_provider/hardcover.py] (class
    [Hardcover]).  Python values decoded from JSON are kept as an untyped
    tree, every builtin that can raise returns in an error type, and the
    remote GraphQL endpoint is an arbitrary transition function on an
    abstract world; every request handed to [requests.post] is logged in
    the order it is sent. *)

From Stdlib Require Import ZArith List String Ascii Bool Lia.
From Stdlib Require Import Floats.SpecFloat.
Import ListNotations.

Local Open Scope string_scope.
Local Open Scope Z_scope.

(** ** Python values *)

(** What [json] decoding produces, plus [None].  A [dict] keeps insertion
    order, so it is an association list; JSON keys are strings.  A [str]
    is held as its UTF-8 encoding, one [ascii] per byte. *)
#[warnings="-register-all"]
Inductive pyval : Type :=
| PNone
| PBool (b : bool)
| PInt (z : Z)
| PFloat (f : spec_float)
| PStr (s : string)
| PList (l : list pyval)
| PDict (d : list (string * pyval)).

(** The exception classes the two modules can meet. *)
Inductive exn : Type :=
| AttributeError
| TypeError
| KeyError
| IndexError
| ValueError
| OverflowError
| ZeroDivisionError
| RequestException
| HTTPError
| JSONDecodeError
| Exception (msg : string).

Inductive res (A : Type) : Type :=
| Ok (a : A)
| Raise (e : exn).
Arguments Ok {A} a.
Arguments Raise {A} e.

Definition rbind {A B} (c : res A) (k : A -> res B) : res B :=
  match c with
  | Ok a => k a
  | Raise e => Raise e
  end.

Notation "x <~ c ;; k" := (rbind c (fun x => k))
  (at level 61, c at next level, right associativity).

(** [try: c except Exception: h] *)
Definition rcatch {A} (c : res A) (h : exn -> res A) : res A :=
  match c with
  | Ok a => Ok a
  | Raise e => h e
  end.

(** ** Dictionaries *)

Fixpoint lookup {A} (k : string) (d : list (string * A)) : option A :=
  match d with
  | [] => None
  | (k', v) :: d' => if String.eqb k k' then Some v else lookup k d'
  end.

Definition has_key {A} (k : string) (d : list (string * A)) : bool :=
  match lookup k d with Some _ => true | None => false end.

(** [d[k] = v]: an existing key keeps its place, a new one goes last. *)
Fixpoint dict_set {A} (k : string) (v : A) (d : list (string * A))
  : list (string * A) :=
  match d with
  | [] => [(k, v)]
  | (k', v') :: d' =>
      if String.eqb k k' then (k', v) :: d' else (k', v') :: dict_set k v d'
  end.

(** ** Builtins *)

(** [bool(v)] *)
Definition py_truthy (v : pyval) : bool :=
  match v with
  | PNone => false
  | PBool b => b
  | PInt z => negb (z =? 0)
  | PFloat (S754_zero _) => false
  | PFloat _ => true
  | PStr s => negb (String.eqb s "")
  | PList l => match l with [] => false | _ => true end
  | PDict d => match d with [] => false | _ => true end
  end.

Definition is_None (v : pyval) : bool :=
  match v with PNone => true | _ => false end.

(** [isinstance(v, dict)] *)
Definition is_dict (v : pyval) : bool :=
  match v with PDict _ => true | _ => false end.

(** [isinstance(v, list)] *)
Definition is_list (v : pyval) : bool :=
  match v with PList _ => true | _ => false end.

(** [isinstance(v, str)] *)
Definition is_str (v : pyval) : bool :=
  match v with PStr _ => true | _ => false end.

(** [v.get(k, default)]: only a dict has [get]. *)
Definition py_get (v : pyval) (k : string) (default : pyval) : res pyval :=
  match v with
  | PDict d => Ok (match lookup k d with Some x => x | None => default end)
  | _ => Raise AttributeError
  end.

(** A byte [10xxxxxx], which continues a character of several bytes. *)
Definition is_continuation (c : ascii) : bool :=
  match c with
  | Ascii _ _ _ _ _ _ b6 b7 => b7 && negb b6
  end.

(** Does the string begin inside a character? *)
Definition begins_inside (s : string) : bool :=
  match s with
  | String c _ => is_continuation c
  | EmptyString => false
  end.

(** The characters (code points) of a [str], each with all its bytes. *)
Fixpoint code_points (s : string) : list string :=
  match s with
  | EmptyString => []
  | String c s' =>
      match code_points s' with
      | p :: ps =>
          if begins_inside s' then String c p :: ps
          else String c EmptyString :: p :: ps
      | [] => [String c EmptyString]
      end
  end.

(** [len(s)] for a [str]: the number of its characters. *)
Definition str_len (s : string) : Z :=
  Z.of_nat (List.length (code_points s)).

Definition chars (s : string) : list pyval :=
  map PStr (code_points s).

(** What [iter(v)] yields: elements of a list, keys of a dict, characters
    of a string. *)
Definition py_iter (v : pyval) : res (list pyval) :=
  match v with
  | PList l => Ok l
  | PDict d => Ok (map (fun kv => PStr (fst kv)) d)
  | PStr s => Ok (chars s)
  | _ => Raise TypeError
  end.

(** [next(iter(v), None)] *)
Definition py_next_iter (v : pyval) : res pyval :=
  l <~ py_iter v ;;
  Ok (match l with [] => PNone | x :: _ => x end).

(** [v[0]] *)
Definition py_index0 (v : pyval) : res pyval :=
  match v with
  | PList l => match l with [] => Raise IndexError | x :: _ => Ok x end
  | PStr s => match chars s with [] => Raise IndexError | x :: _ => Ok x end
  | PDict _ => Raise KeyError
  | _ => Raise TypeError
  end.

(** [v[k]] for a string key *)
Definition py_getitem (v : pyval) (k : string) : res pyval :=
  match v with
  | PDict d => match lookup k d with Some x => Ok x | None => Raise KeyError end
  | _ => Raise TypeError
  end.

(** [len(v)] *)
Definition py_len (v : pyval) : res Z :=
  match v with
  | PStr s => Ok (str_len s)
  | PList l => Ok (Z.of_nat (List.length l))
  | PDict d => Ok (Z.of_nat (List.length d))
  | _ => Raise TypeError
  end.

Fixpoint substring_of (needle s : string) : bool :=
  String.prefix needle s
  || match s with
     | EmptyString => false
     | String _ s' => substring_of needle s'
     end.

Definition is_the_str (k : string) (v : pyval) : bool :=
  match v with PStr s => String.eqb s k | _ => false end.

(** [k in v] for a string [k] *)
Definition py_in (k : string) (v : pyval) : res bool :=
  match v with
  | PDict d => Ok (has_key k d)
  | PList l => Ok (existsb (is_the_str k) l)
  | PStr s => Ok (substring_of k s)
  | _ => Raise TypeError
  end.

(** ** Numbers

    A Python [float] is an IEEE 754 binary64, taken from the standard
    library's specification of floating point ([prec = 53],
    [emax = 1024]); arithmetic rounds to nearest, ties to even. *)

Definition prec : Z := 53.
Definition emax : Z := 1024.

(** [float(z)] for an [int]: correctly rounded, [OverflowError] past the
    largest double. *)
Definition float_of_Z (z : Z) : res spec_float :=
  match binary_normalize prec emax z 0 false with
  | S754_infinity _ => Raise OverflowError
  | f => Ok f
  end.

(** An integer as an unrounded mantissa with exponent zero. *)
Definition exact_of_Z (z : Z) : spec_float :=
  match z with
  | Z0 => S754_zero false
  | Zpos p => S754_finite false p 0
  | Zneg p => S754_finite true p 0
  end.

Definition is_float_zero (f : spec_float) : bool :=
  match f with S754_zero _ => true | _ => false end.

(** The number a value stands for in arithmetic; [bool] is a subclass of
    [int]. *)
Inductive number : Type :=
| NInt (z : Z)
| NFloat (f : spec_float).

Definition as_number (v : pyval) : option number :=
  match v with
  | PBool b => Some (NInt (if b then 1 else 0))
  | PInt z => Some (NInt z)
  | PFloat f => Some (NFloat f)
  | _ => None
  end.

(** [a / b], true division.  Between two ints the exact quotient is
    rounded once; a float operand converts the other one first. *)
Definition py_truediv (a b : pyval) : res spec_float :=
  match as_number a, as_number b with
  | Some (NInt x), Some (NInt y) =>
      if y =? 0 then Raise ZeroDivisionError
      else match SFdiv prec emax (exact_of_Z x) (exact_of_Z y) with
           | S754_infinity _ => Raise OverflowError
           | q => Ok q
           end
  | Some (NFloat x), Some (NInt y) =>
      fy <~ float_of_Z y ;;
      if is_float_zero fy then Raise ZeroDivisionError
      else Ok (SFdiv prec emax x fy)
  | Some (NInt x), Some (NFloat y) =>
      fx <~ float_of_Z x ;;
      if is_float_zero y then Raise ZeroDivisionError
      else Ok (SFdiv prec emax fx y)
  | Some (NFloat x), Some (NFloat y) =>
      if is_float_zero y then Raise ZeroDivisionError
      else Ok (SFdiv prec emax x y)
  | _, _ => Raise TypeError
  end.

(** [a * f] where the right operand is a float: a number on the left is
    multiplied as a float, anything else cannot be multiplied by a float. *)
Definition py_mul_float (a : pyval) (f : spec_float) : res spec_float :=
  match as_number a with
  | Some (NInt x) => fx <~ float_of_Z x ;; Ok (SFmul prec emax fx f)
  | Some (NFloat x) => Ok (SFmul prec emax x f)
  | None => Raise TypeError
  end.

Definition apply_sign (s : bool) (z : Z) : Z := if s then - z else z.

(** [round(f)]: the nearest integer, ties to even. *)
Definition py_round (f : spec_float) : res Z :=
  match f with
  | S754_nan => Raise ValueError
  | S754_infinity _ => Raise OverflowError
  | S754_zero _ => Ok 0
  | S754_finite s m e =>
      if 0 <=? e then Ok (apply_sign s (Z.pos m * 2 ^ e))
      else
        let d := 2 ^ (- e) in
        let q := Z.pos m / d in
        let r := Z.pos m mod d in
        Ok (apply_sign s
              (match 2 * r ?= d with
               | Lt => q
               | Gt => q + 1
               | Eq => if Z.even q then q else q + 1
               end))
  end.

(** Does the float hold exactly the integer [n]? *)
Definition float_is_int (f : spec_float) (n : Z) : bool :=
  match f with
  | S754_zero _ => n =? 0
  | S754_finite s m e =>
      if 0 <=? e then apply_sign s (Z.pos m * 2 ^ e) =? n
      else (Z.pos m mod 2 ^ (- e) =? 0)
           && (apply_sign s (Z.pos m / 2 ^ (- e)) =? n)
  | _ => false
  end.

(** [v == n] for an int literal [n]: numbers compare by value, everything
    else differs from a number. *)
Definition py_eq_int (v : pyval) (n : Z) : bool :=
  match as_number v with
  | Some (NInt z) => z =? n
  | Some (NFloat f) => float_is_int f n
  | None => false
  end.

(** [round(pages * (progress_percent / 100))] *)
Definition pages_read_of (pages progress_percent : pyval) : res Z :=
  q <~ py_truediv progress_percent (PInt 100) ;;
  x <~ py_mul_float pages q ;;
  py_round x.

(** The double [1.0]. *)
Definition float_one : spec_float := S754_finite false 4503599627370496 (-52).

(** The double [100.0]. *)
Definition float_100 : spec_float := S754_finite false 7036874417766400 (-46).

(** [int(v)].  How a string is read as a number is left to
    [int_of_string] ([None] when Python raises [ValueError]). *)
Definition py_int (int_of_string : string -> option Z) (v : pyval) : res Z :=
  match v with
  | PBool b => Ok (if b then 1 else 0)
  | PInt z => Ok z
  | PFloat f =>
      match f with
      | S754_nan => Raise ValueError
      | S754_infinity _ => Raise OverflowError
      | S754_zero _ => Ok 0
      | S754_finite s m e =>
          if 0 <=? e then Ok (apply_sign s (Z.pos m * 2 ^ e))
          else Ok (apply_sign s (Z.pos m / 2 ^ (- e)))
      end
  | PStr s =>
      match int_of_string s with
      | Some z => Ok z
      | None => Raise ValueError
      end
  | _ => Raise TypeError
  end.

(** [s.split(":")] *)
Fixpoint split_colon (s : string) : list string :=
  match s with
  | EmptyString => [EmptyString]
  | String c s' =>
      if Ascii.eqb c ":" then EmptyString :: split_colon s'
      else match split_colon s' with
           | [] => [String c EmptyString]
           | h :: t => String c h :: t
           end
  end.

(** [s.replace(old, new)] for a non-empty [old]: occurrences are replaced
    from the left, without overlap.  [skip] counts the characters of a
    match that are still to be dropped. *)
Fixpoint replace_from (old new : string) (skip : nat) (s : string) : string :=
  match s with
  | EmptyString => EmptyString
  | String c s' =>
      match skip with
      | S k => replace_from old new k s'
      | O =>
          if String.prefix old s
          then new ++ replace_from old new (String.length old - 1) s'
          else String c (replace_from old new 0 s')
      end
  end.

Definition str_replace (old new s : string) : string :=
  replace_from old new 0 s.

(** ** The remote endpoint *)

(** The GraphQL documents the two modules send.  [UserBookFragmentOnly] is
    what [get_user_book] sends when no branch chose a query: the empty
    string followed by [USER_BOOK_FRAGMENT]. *)
Inductive document : Type :=
| GetPrivacy              (* { me { account_privacy_setting_id } } *)
| UserBookByEdition       (* me.user_books where edition_id = $query *)
| UserBookByBookId        (* me.user_books where book.id = $query *)
| UserBookBySlug          (* me.user_books where book.slug = $slug *)
| UserBookFragmentOnly    (* USER_BOOK_FRAGMENT alone *)
| UpdateUserBookRead      (* mutation update_user_book_read *)
| UpdateUserBook          (* mutation update_user_book: status_id *)
| InsertUserBook          (* mutation insert_user_book *)
| InsertUserBookRead      (* mutation insert_user_book_read *)
| BooksBySlugIsbn         (* books by slug, editions by isbn_13 *)
| BooksBySlug             (* books by slug *)
| SEARCH_QUERY            (* Hardcover.SEARCH_QUERY *)
| EDITION_QUERY.          (* Hardcover.EDITION_QUERY *)

Definition is_mutation (q : document) : bool :=
  match q with
  | UpdateUserBookRead | UpdateUserBook | InsertUserBook | InsertUserBookRead =>
      true
  | _ => false
  end.

Definition GRAPHQL_ENDPOINT : string := "https://api.hardcover.app/v1/graphql".

(** The arguments of one [requests.post]: the URL, the [Authorization]
    header and the [json] payload. *)
Record request : Type := {
  rq_url : string;
  rq_authorization : string;
  rq_query : document;
  rq_variables : pyval
}.

(** What comes back: [requests.post] raises, or there is a response whose
    status is a success or not and whose body decodes as JSON or not. *)
Inductive reply : Type :=
| ConnectionFailed
| Response (status_ok : bool) (body : option pyval).

(** A computation over a state [S] that may raise; the state reached when
    an exception is raised is kept. *)
Definition M (S A : Type) : Type := S -> res A * S.

Definition ret {S A} (a : A) : M S A := fun s => (Ok a, s).

Definition bind {S A B} (c : M S A) (k : A -> M S B) : M S B :=
  fun s =>
    match c s with
    | (Ok a, s') => k a s'
    | (Raise e, s') => (Raise e, s')
    end.

Definition lift {S A} (r : res A) : M S A := fun s => (r, s).

Definition raise {S A} (e : exn) : M S A := fun s => (Raise e, s).

(** [try: c except Exception as e: h e] *)
Definition catch {S A} (c : M S A) (h : exn -> M S A) : M S A :=
  fun s =>
    match c s with
    | (Ok a, s') => (Ok a, s')
    | (Raise e, s') => h e s'
    end.

Notation "x <- c ;; k" := (bind c (fun x => k))
  (at level 61, c at next level, right associativity).

(** ** Data of the two components *)

(** The process's view of the network: the world outside, and the requests
    sent so far, oldest first. *)
Record net (World : Type) : Type := {
  world : World;
  sent : list request
}.
Arguments world {World} n.
Arguments sent {World} n.

(** The fields of a [HardcoverClient] object. *)
Record HardcoverClient : Type := {
  endpoint : string;
  authorization : string;
  privacy : pyval
}.

(** An entry of [book.identifiers]. *)
Record Identifier : Type := {
  id_type : string;
  id_val : pyval
}.

(** The [identifiers] argument: a dict, or an iterable of objects with
    [type] and [val]. *)
Inductive identifiers_arg : Type :=
| IdsDict (d : list (string * pyval))
| IdsSeq (l : list Identifier).

Record MetaSourceInfo : Type := {
  source_id : string;
  source_description : string;
  source_link : string
}.

Record MetaRecord : Type := {
  mr_id : pyval;
  mr_title : pyval;
  mr_authors : pyval;
  mr_url : string;
  mr_source : MetaSourceInfo;
  mr_series : pyval;
  mr_cover : pyval;
  mr_description : pyval;
  mr_series_index : pyval;
  mr_identifiers : list (string * pyval);
  mr_publisher : pyval;
  mr_publishedDate : pyval;
  mr_rating : pyval;
  mr_languages : pyval;
  mr_tags : pyval;
  mr_format : pyval
}.

(** The state of the provider object and of the network. *)
Record provider (World : Type) : Type := {
  active : bool;
  pnet : net World
}.
Arguments active {World} p.
Arguments pnet {World} p.

(** How the first [try] block of [search] ends when nothing is raised:
    it returns from [search], or falls through to the second block. *)
Inductive flow : Type :=
| Returned (val : list MetaRecord)
| Continue (edition_search : bool) (response_data : pyval).

(** ** Remote entities, as the GraphQL schema types them

    [userBookFragment] selects these fields; the JSON the client receives
    for a user-book is the encoding below. *)

Record ReadSession : Type := {
  read_id : Z;
  read_started_at : option string;
  read_finished_at : option string;
  read_edition_id : option Z;
  read_progress_pages : option Z
}.

Record UserBook : Type := {
  ub_id : Z;
  ub_status_id : Z;
  ub_book_id : Z;
  ub_slug : string;
  ub_title : string;
  ub_edition_id : Z;
  ub_pages : option Z;
  ub_reads : list ReadSession
}.

Definition json_opt_str (o : option string) : pyval :=
  match o with Some x => PStr x | None => PNone end.

Definition json_opt_int (o : option Z) : pyval :=
  match o with Some x => PInt x | None => PNone end.

Definition json_of_read (r : ReadSession) : pyval :=
  PDict [("id", PInt (read_id r));
         ("started_at", json_opt_str (read_started_at r));
         ("finished_at", json_opt_str (read_finished_at r));
         ("edition_id", json_opt_int (read_edition_id r));
         ("progress_pages", json_opt_int (read_progress_pages r))].

Definition json_of_user_book (b : UserBook) : pyval :=
  PDict [("id", PInt (ub_id b));
         ("status_id", PInt (ub_status_id b));
         ("book_id", PInt (ub_book_id b));
         ("book", PDict [("slug", PStr (ub_slug b));
                         ("title", PStr (ub_title b))]);
         ("edition", PDict [("id", PInt (ub_edition_id b));
                            ("pages", json_opt_int (ub_pages b))]);
         ("user_book_reads", PList (map json_of_read (ub_reads b)))].

(** The body of a response to a user-book lookup. *)
Definition json_of_user_books (l : list UserBook) : pyval :=
  PDict [("data",
          PDict [("me",
                  PList [PDict [("user_books",
                                 PList (map json_of_user_book l))]])])].

(** The body of a response to the slug lookup of [get_book_id]: the book's
    id, and the ids of the editions with the ISBN when the query asked for
    them. *)
Definition json_of_book_match (book_id : Z) (editions : option (list Z))
    : pyval :=
  PDict [("data",
          PDict [("books",
                  PList [PDict (("id", PInt book_id)
                                :: match editions with
                                   | Some l =>
                                       [("editions",
                                         PList (map (fun e =>
                                                       PDict [("id", PInt e)])
                                                    l))]
                                   | None => []
                                   end)])])].

(** [progress_percent == 100], for the integer and for the float. *)
Definition is_hundred (progress_percent : pyval) : Prop :=
  progress_percent = PInt 100 \/ progress_percent = PFloat float_100.

(** The format table in the words of the specification: index 1 is
    "Physical Book", index 4 is "E-Book", every other index is empty. *)
Definition format_table (index : Z) : string :=
  if index =? 1 then "Physical Book"
  else if index =? 4 then "E-Book"
  else "".

(** A reply that is a transport error, a non-success status, a body that
    is not JSON, or a body with a GraphQL [errors] entry. *)
Definition bad_reply (r : reply) : Prop :=
  match r with
  | ConnectionFailed => True
  | Response status_ok body =>
      status_ok = false
      \/ body = None
      \/ exists d, body = Some (PDict d) /\ has_key "errors" d = true
  end.

(** A token setting that holds no token: [None] or the empty string. *)
Definition no_token_in (setting : option string) : Prop :=
  setting = None \/ setting = Some "".

(** The body of a response to the title search, with what is found under
    [data.search.results.hits]. *)
Definition json_of_search (hits : pyval) : pyval :=
  PDict [("data",
          PDict [("search",
                  PDict [("results", PDict [("hits", hits)])])])].

(** ** A scripted remote, for running the model

    The world is the list of replies still to come; a request takes the
    next one, and the connection fails once the script is used up. *)
Definition script : Type := list reply.

Definition scripted_post (w : script) (rq : request) : script * reply :=
  match w with
  | [] => ([], ConnectionFailed)
  | r :: w' => (w', r)
  end.

Definition fixed_today (w : script) : string := "2026-11-03".

Definition no_int_of_string (s : string) : option Z := None.

Definition no_token (w : script) : option string := None.

Definition a_token (w : script) : option string := Some "Bearer abc".

Definition no_json_loads (s : string) : option pyval := None.

Definition no_repr (v : pyval) : string := "".

Definition no_language_name (locale : string) (code3 : pyval) : res pyval :=
  Ok code3.

Definition start (w : script) : net script := {| world := w; sent := [] |}.

Definition a_client : HardcoverClient :=
  {| endpoint := GRAPHQL_ENDPOINT;
     authorization := "Bearer abc";
     privacy := PInt 1 |}.

Definition ok_body (body : pyval) : reply := Response true (Some body).

Definition by_book_id : identifiers_arg :=
  IdsDict [("hardcover-id", PInt 312460)].

Definition by_edition : identifiers_arg :=
  IdsSeq [{| id_type := "hardcover-edition"; id_val := PStr "391" |};
          {| id_type := "amazon"; id_val := PStr "B00B7NPRY8" |}].

Definition by_isbn : identifiers_arg :=
  IdsSeq [{| id_type := "isbn"; id_val := PStr "9780441013593" |}].

Definition by_slug : identifiers_arg :=
  IdsSeq [{| id_type := "hardcover"; id_val := PStr "dune" |};
          {| id_type := "isbn"; id_val := PStr "9780441013593" |};
          {| id_type := "amazon"; id_val := PStr "B00B7NPRY8" |}].

Definition foreign_only : identifiers_arg :=
  IdsSeq [{| id_type := "amazon"; id_val := PStr "B00B7NPRY8" |};
          {| id_type := "goodreads"; id_val := PStr "44767458" |}].

(** A reply that accepts a mutation and says nothing more. *)
Definition accepted : reply := ok_body (PDict [("data", PDict [])]).

(** The reply to a creation that failed: an error and no user-book. *)
Definition creation_failed : reply :=
  ok_body (PDict [("data",
                   PDict [("insert_user_book",
                           PDict [("error", PStr "Book not found");
                                  ("user_book", PNone)])])]).

(** The book of an edition search, with four editions. *)
Definition dune_book : pyval :=
  PDict [("id", PInt 312460);
         ("slug", PStr "dune");
         ("title", PStr "Dune");
         ("editions",
          PList [PDict [("id", PInt 391); ("reading_format_id", PInt 1)];
                 PDict [("id", PInt 392); ("reading_format_id", PInt 4);
                        ("isbn_13", PStr "9780441013593")];
                 PDict [("id", PInt 393); ("reading_format_id", PInt 2)];
                 PDict [("id", PInt 394)]])].

Definition dune_hit : pyval :=
  PDict [("document",
          PDict [("id", PStr "312460");
                 ("title", PStr "Dune");
                 ("slug", PStr "dune");
                 ("author_names", PList [PStr "Frank Herbert"])])].

Definition searching (w : script) : provider script :=
  {| active := true; pnet := start w |}.

Definition dune_reading : UserBook :=
  {| ub_id := 7; ub_status_id := 2; ub_book_id := 312460;
     ub_slug := "dune"; ub_title := "Dune";
     ub_edition_id := 391; ub_pages := Some 200;
     ub_reads := [{| read_id := 11; read_started_at := Some "2026-10-01";
                     read_finished_at := None; read_edition_id := Some 391;
                     read_progress_pages := Some 40 |}] |}.

Definition dune_read : UserBook :=
  {| ub_id := 7; ub_status_id := 3; ub_book_id := 312460;
     ub_slug := "dune"; ub_title := "Dune";
     ub_edition_id := 391; ub_pages := Some 200;
     ub_reads := ub_reads dune_reading |}.

Definition dune_no_session : UserBook :=
  {| ub_id := 7; ub_status_id := 2; ub_book_id := 312460;
     ub_slug := "dune"; ub_title := "Dune";
     ub_edition_id := 391; ub_pages := Some 200;
     ub_reads := [] |}.

(** ** Author lookups and the library

    [get_author_info] and [get_other_author_books] post the two author
    documents and keep what they find in the module-level dicts
    [_AUTHORS_CACHE] and [_AUTHORS_BOOKS_CACHE]. *)

Inductive author_document : Type :=
| GetAuthorInfo            (* query GetAuthorInfo($author: String!) *)
| OtherBooksFromAuthor.    (* query otherBooksFromAuthor($author: String!) *)

(** The arguments of one [requests.post] for an author document. *)
Record author_request : Type := {
  ar_url : string;
  ar_authorization : string;
  ar_query : author_document;
  ar_variables : pyval
}.

(** A cache entry, [{"data": ..., "_timestamp": ...}]. *)
Record cache_entry : Type := {
  ce_data : pyval;
  ce_timestamp : spec_float
}.

(** The state the author lookups work on: the world, the author requests
    posted so far, and the two caches. *)
Record authors (World : Type) : Type := {
  aworld : World;
  asked : list author_request;
  _AUTHORS_CACHE : list (string * cache_entry);
  _AUTHORS_BOOKS_CACHE : list (string * cache_entry)
}.
Arguments aworld {World} a.
Arguments asked {World} a.
Arguments _AUTHORS_CACHE {World} a.
Arguments _AUTHORS_BOOKS_CACHE {World} a.

(** 167 hours (in seconds) *)
Definition _CACHE_TIMEOUT : Z := 167 * 60 * 60.

(** [del d[k]] *)
Fixpoint dict_del {A} (k : string) (d : list (string * A))
  : list (string * A) :=
  match d with
  | [] => []
  | (k', v) :: d' =>
      if String.eqb k k' then dict_del k d' else (k', v) :: dict_del k d'
  end.

(** [time.time() < timestamp + _CACHE_TIMEOUT] *)
Definition still_fresh (now timestamp : spec_float) : res bool :=
  timeout <~ float_of_Z _CACHE_TIMEOUT ;;
  Ok (SFltb now (SFadd prec emax timestamp timeout)).

(** A book of the library: [identifiers] is [None] for an object without
    that attribute. *)
Record LibraryBook : Type := {
  book_identifiers : option (list Identifier)
}.

(** An entry handed to [get_existing_slugs]: a row with a [Books]
    attribute, or the book itself. *)
Inductive library_entry : Type :=
| WithBooks (Books : LibraryBook)
| Plain (book : LibraryBook).

(** [entry.Books if hasattr(entry, "Books") else entry] *)
Definition book_of (entry : library_entry) : LibraryBook :=
  match entry with
  | WithBooks b => b
  | Plain b => b
  end.

(** [HardcoverClient.get_existing_slugs] *)
Definition get_existing_slugs (entries : list library_entry) : list pyval :=
  flat_map
    (fun entry =>
       flat_map
         (fun identifier =>
            if String.eqb (id_type identifier) "hardcover"
            then [id_val identifier]
            else [])
         (match book_identifiers (book_of entry) with
          | Some l => l
          | None => []
          end))
    entries.

(** The loop of [get_other_author_books]: the books of the contributions
    that have a slug the library does not hold. *)
Fixpoint other_books (library_books : list string)
    (contributions : list pyval) : res (list pyval) :=
  match contributions with
  | [] => Ok []
  | contribution :: contributions' =>
      book <~ py_get contribution "book" (PDict []) ;;
      slug <~ py_get book "slug" PNone ;;
      rest <~ other_books library_books contributions' ;;
      Ok (if py_truthy slug
             && negb (existsb (fun owned => is_the_str owned slug)
                              library_books)
          then book :: rest
          else rest)
  end.

(** The body of a response to [GetAuthorInfo]. *)
Definition json_of_authors (found : list pyval) : pyval :=
  PDict [("data", PDict [("authors", PList found)])].

(** ** More scripted data *)

Definition scripted_post_author (w : script) (rq : author_request)
    : script * reply :=
  match w with
  | [] => ([], ConnectionFailed)
  | r :: w' => (w', r)
  end.

(** A clock that stands still, at 2025-11-04 00:00:00 UTC. *)
Definition fixed_clock (w : script) : spec_float :=
  match float_of_Z 1762214400 with
  | Ok f => f
  | Raise _ => S754_nan
  end.

(** The time [0.0], long before the clock's. *)
Definition long_ago : spec_float := S754_zero false.

Definition no_caches (w : script) : authors script :=
  {| aworld := w; asked := [];
     _AUTHORS_CACHE := []; _AUTHORS_BOOKS_CACHE := [] |}.

Definition herbert : pyval :=
  PDict [("bio", PStr "American science-fiction author");
         ("name", PStr "Frank Herbert");
         ("cached_image", PNone);
         ("slug", PStr "frank-herbert")].

Definition book_dune : pyval :=
  PDict [("title", PStr "Dune"); ("slug", PStr "dune");
         ("image", PNone)].

Definition book_messiah : pyval :=
  PDict [("title", PStr "Dune Messiah"); ("slug", PStr "dune-messiah");
         ("image", PNone)].

(** The body of a response to [otherBooksFromAuthor]. *)
Definition json_of_author_books (books : list pyval) : pyval :=
  PDict [("data",
          PDict [("authors",
                  PList [PDict [("contributions",
                                 PList (map (fun b => PDict [("book", b)])
                                            books))]])])].

(** A library with one book, known to Hardcover as ["dune"]. *)
Definition one_book_library : list library_entry :=
  [WithBooks {| book_identifiers :=
                  Some [{| id_type := "isbn"; id_val := PStr "9780441013593" |};
                        {| id_type := "hardcover"; id_val := PStr "dune" |}] |};
   Plain {| book_identifiers := None |}].

Definition dune_wanted : UserBook :=
  {| ub_id := 7; ub_status_id := 1; ub_book_id := 312460;
     ub_slug := "dune"; ub_title := "Dune";
     ub_edition_id := 391; ub_pages := Some 200;
     ub_reads := [] |}.

Definition dune_unpaged : UserBook :=
  {| ub_id := 7; ub_status_id := 1; ub_book_id := 312460;
     ub_slug := "dune"; ub_title := "Dune";
     ub_edition_id := 391; ub_pages := None;
     ub_reads := [] |}.

(** The reply to a status change: the user-book as it is afterwards. *)
Definition status_changed (b : UserBook) : reply :=
  ok_body (PDict [("data",
                   PDict [("update_user_book",
                           PDict [("error", PNone);
                                  ("user_book", json_of_user_book b)])])]).

Definition junk_hit : pyval := PDict [("document", PStr "not a document")].

(** A decoder that knows one document only. *)
Definition canned_json_loads (s : string) : option pyval :=
  if String.eqb s "one hit"
  then Some (PDict [("hits", PList [dune_hit])])
  else None.

(** A shelf whose entry for Frank Herbert was stored at time [0.0]. *)
Definition stale_shelf (w : script) : authors script :=
  {| aworld := w; asked := [];
     _AUTHORS_CACHE :=
       [("Frank Herbert",
         {| ce_data := PDict [("name", PStr "F. Herbert")];
            ce_timestamp := long_ago |})];
     _AUTHORS_BOOKS_CACHE := [] |}.

(** The shelf after Frank Herbert has been looked up and stored. *)
Definition herbert_stored : authors script :=
  {| aworld := [];
     asked := [{| ar_url := GRAPHQL_ENDPOINT;
                  ar_authorization := "Bearer abc";
                  ar_query := GetAuthorInfo;
                  ar_variables := PDict [("author", PStr "Frank Herbert")] |}];
     _AUTHORS_CACHE :=
       [("Frank Herbert",
         {| ce_data := herbert; ce_timestamp := fixed_clock [] |})];
     _AUTHORS_BOOKS_CACHE := [] |}.

(** A shelf whose books for Frank Herbert were stored at time [0.0]. *)
Definition stale_books_shelf (w : script) : authors script :=
  {| aworld := w; asked := [];
     _AUTHORS_CACHE := [];
     _AUTHORS_BOOKS_CACHE :=
       [("Frank Herbert",
         {| ce_data := PList [book_dune]; ce_timestamp := long_ago |})] |}.

(** The reply to a creation that was refused, with no user-book in it. *)
Definition creation_without_user_book : reply :=
  ok_body (PDict [("data",
                   PDict [("insert_user_book",
                           PDict [("error", PStr "Book not found")])])]).

(** An ISBN of 13 characters whose last digit is U+0663, ARABIC-INDIC
    DIGIT THREE, which takes the two bytes D9 A3. *)
Definition isbn_with_an_arabic_digit : string :=
  "978044101359"
  ++ String (ascii_of_nat 217) (String (ascii_of_nat 163) EmptyString).

Section Remote.

(** Everything outside the process: the remote service, the clock, the
    host's token settings. *)
Variable World : Type.
Variable post : World -> request -> World * reply.
(** [datetime.now().strftime("%Y-%m-%d")] *)
Variable today : World -> string.
Variable int_of_string : string -> option Z.

(** [requests.post(url, json=..., headers=...)]: the request is on the
    wire whether or not an answer comes back. *)
Definition requests_post (rq : request) : M (net World) (bool * option pyval) :=
  fun s =>
    let (w, r) := post (world s) rq in
    (match r with
     | ConnectionFailed => Raise RequestException
     | Response status_ok body => Ok (status_ok, body)
     end,
     {| world := w; sent := sent s ++ [rq] |}).

Definition date_today : M (net World) string :=
  fun s => (Ok (today (world s)), s).

(** *** [HardcoverClient] *)

(** The request a client sends for a document and its variables.
    [execute] sends [variables or {}]. *)
Definition request_of (self : HardcoverClient) (query : document)
    (variables : pyval) : request :=
  {| rq_url := endpoint self;
     rq_authorization := authorization self;
     rq_query := query;
     rq_variables := if py_truthy variables then variables else PDict [] |}.

(** What [execute] makes of the response: [raise_for_status], then
    [response.json()], then the check for GraphQL errors, whose message
    reads [result['errors']]. *)
Definition data_of_response (response : bool * option pyval) : res pyval :=
  let '(status_ok, body) := response in
  if negb status_ok then Raise (Exception "HTTP error occurred")
  else
    match body with
    | None => Raise JSONDecodeError
    | Some result =>
        has_errors <~ py_in "errors" result ;;
        if has_errors
        then errors <~ py_getitem result "errors" ;;
             Raise (Exception "GraphQL error")
        else py_get result "data" (PDict [])
    end.

(** [HardcoverClient.execute] *)
Definition execute (self : HardcoverClient) (query : document)
    (variables : pyval) : M (net World) pyval :=
  response <- requests_post (request_of self query variables) ;;
  lift (data_of_response response).

(** [HardcoverClient.get_privacy] *)
Definition get_privacy (self : HardcoverClient) : M (net World) pyval :=
  response <- execute self GetPrivacy PNone ;;
  lift (me <~ py_get response "me" PNone ;;
        me0 <~ py_index0 me ;;
        py_get (if py_truthy me0 then me0 else PList [PDict []])
               "account_privacy_setting_id" (PInt 1)).

(** [HardcoverClient.__init__] *)
Definition __init__ (token : string) : M (net World) HardcoverClient :=
  let self := {| endpoint := GRAPHQL_ENDPOINT;
                 authorization := "Bearer " ++ token;
                 privacy := PNone |} in
  p <- get_privacy self ;;
  ret {| endpoint := endpoint self;
         authorization := authorization self;
         privacy := p |}.

Definition lookup_or_none (k : string) (d : list (string * pyval)) : pyval :=
  match lookup k d with Some v => v | None => PNone end.

(** The [if]/[elif] chain of [get_user_book]: the query and its variables.
    With none of the three kinds the query stays the empty string, to
    which the fragment is appended. *)
Definition user_book_query (ids : list (string * pyval))
    : document * pyval :=
  match lookup "hardcover-edition" ids with
  | Some v => (UserBookByEdition, PDict [("query", v)])
  | None =>
      match lookup "hardcover-id" ids with
      | Some v => (UserBookByBookId, PDict [("query", v)])
      | None =>
          match lookup "hardcover" ids with
          | Some v => (UserBookBySlug, PDict [("slug", v)])
          | None => (UserBookFragmentOnly, PDict [])
          end
      end
  end.

(** The request [get_user_book] sends for an identifier set. *)
Definition user_book_request (self : HardcoverClient)
    (ids : list (string * pyval)) : request :=
  request_of self (fst (user_book_query ids)) (snd (user_book_query ids)).

(** [HardcoverClient.get_user_book] *)
Definition get_user_book (self : HardcoverClient)
    (ids : list (string * pyval)) : M (net World) pyval :=
  let '(query, variables) := user_book_query ids in
  response <- execute self query variables ;;
  lift (me <~ py_get response "me" PNone ;;
        me0 <~ py_index0 me ;;
        user_books <~ py_get me0 "user_books" PNone ;;
        py_next_iter user_books).

(** The [if]/[else] at the head of [get_book_id]: the query and its
    variables; [len(isbn)] can raise. *)
Definition book_id_query (slug isbn : pyval) : res (document * pyval) :=
  with_isbn <~ (if py_truthy isbn
                then n <~ py_len isbn ;; Ok (n =? 13)
                else Ok false) ;;
  if with_isbn : bool
  then Ok (BooksBySlugIsbn, PDict [("slug", slug); ("isbn", isbn)])
  else Ok (BooksBySlug, PDict [("slug", slug)]).

(** What [get_book_id] reads in the response. *)
Definition book_id_of_response (response : pyval) : res (pyval * pyval) :=
  books <~ py_get response "books" (PList []) ;;
  if negb (py_truthy books) then Raise ValueError
  else
    book <~ py_index0 books ;;
    book_id <~ py_get book "id" PNone ;;
    editions_list <~ py_get book "editions" (PList []) ;;
    edition_id <~ (if py_truthy editions_list
                   then e0 <~ py_index0 editions_list ;;
                        py_getitem e0 "id"
                   else Ok PNone) ;;
    Ok (book_id, edition_id).

(** The request [get_book_id] sends for a slug and an ISBN that is a
    string or is missing: the edition is asked for only with an ISBN of
    13 characters. *)
Definition slug_request (self : HardcoverClient) (slug : string)
    (isbn : option string) : request :=
  match isbn with
  | Some i =>
      if str_len i =? 13
      then request_of self BooksBySlugIsbn
             (PDict [("slug", PStr slug); ("isbn", PStr i)])
      else request_of self BooksBySlug (PDict [("slug", PStr slug)])
  | None => request_of self BooksBySlug (PDict [("slug", PStr slug)])
  end.

(** [HardcoverClient.get_book_id] *)
Definition get_book_id (self : HardcoverClient) (slug isbn : pyval)
    : M (net World) (pyval * pyval) :=
  qv <- lift (book_id_query slug isbn) ;;
  let '(query, variables) := qv in
  response <- execute self query variables ;;
  lift (book_id_of_response response).

(** [t.startswith("hardcover") or t == "isbn"] *)
Definition kept_kind (t : string) : bool :=
  String.prefix "hardcover" t || String.eqb t "isbn".

(** The two comprehensions at the head of [parse_identifiers]. *)
Definition filter_identifiers (identifiers : identifiers_arg)
    : list (string * pyval) :=
  match identifiers with
  | IdsSeq l =>
      fold_left (fun d i => if kept_kind (id_type i)
                            then dict_set (id_type i) (id_val i) d else d)
                l []
  | IdsDict d0 =>
      fold_left (fun d tv => if kept_kind (fst tv)
                             then dict_set (fst tv) (snd tv) d else d)
                d0 []
  end.

(** [HardcoverClient.parse_identifiers] *)
Definition parse_identifiers (self : HardcoverClient)
    (identifiers : identifiers_arg) : M (net World) (list (string * pyval)) :=
  let identifiers := filter_identifiers identifiers in
  if negb (has_key "hardcover-id" identifiers) then
    let slug := lookup_or_none "hardcover" identifiers in
    let isbn := lookup_or_none "isbn" identifiers in
    if negb (py_truthy slug) then ret identifiers
    else
      ids <- get_book_id self slug isbn ;;
      let '(book_id, edition_id) := ids in
      let identifiers := dict_set "hardcover-id" book_id identifiers in
      if negb (is_None edition_id)
      then ret (dict_set "hardcover-edition" edition_id identifiers)
      else ret identifiers
  else ret identifiers.

(** The documents that act on an existing user-book: the status change,
    and the insertion and the update of a read-session. *)
Definition touches_user_book (q : document) : bool :=
  match q with
  | UpdateUserBook | UpdateUserBookRead | InsertUserBookRead => true
  | _ => false
  end.

(** [HardcoverClient.change_book_status] *)
Definition change_book_status (self : HardcoverClient) (book : pyval)
    (status : Z) : M (net World) pyval :=
  id <- lift (py_get book "id" PNone) ;;
  let variables := PDict [("id", id); ("status_id", PInt status)] in
  response <- execute self UpdateUserBook variables ;;
  lift (r <~ py_get response "update_user_book" (PDict []) ;;
        py_get r "user_book" (PDict [])).

(** [HardcoverClient.add_book] *)
Definition add_book (self : HardcoverClient)
    (identifiers : identifiers_arg) (status : Z) : M (net World) pyval :=
  ids <- parse_identifiers self identifiers ;;
  book_id <- lift (py_int int_of_string (lookup_or_none "hardcover-id" ids)) ;;
  edition_id <- lift (if py_truthy (lookup_or_none "hardcover-edition" ids)
                      then e <~ py_int int_of_string
                                  (lookup_or_none "hardcover-edition" ids) ;;
                           Ok (PInt e)
                      else Ok PNone) ;;
  let variables :=
    PDict [("object",
            PDict [("book_id", PInt book_id);
                   ("edition_id", edition_id);
                   ("status_id", PInt status);
                   ("privacy_setting_id", privacy self)])] in
  response <- execute self InsertUserBook variables ;;
  lift (r <~ py_get response "insert_user_book" (PDict []) ;;
        py_get r "user_book" (PDict [])).

(** [HardcoverClient.add_read] *)
Definition add_read (self : HardcoverClient) (book : pyval) (pages : pyval)
    : M (net World) pyval :=
  id <- lift (b <~ py_get book "id" PNone ;; py_int int_of_string b) ;;
  editionId <- lift (ed <~ py_get book "edition" PNone ;;
                     eid <~ py_get ed "id" PNone ;;
                     if py_truthy eid
                     then e <~ py_int int_of_string eid ;; Ok (PInt e)
                     else Ok PNone) ;;
  startedAt <- date_today ;;
  let variables :=
    PDict [("id", PInt id);
           ("editionId", editionId);
           ("pages", pages);
           ("startedAt", PStr startedAt)] in
  response <- execute self InsertUserBookRead variables ;;
  lift (r <~ py_get response "insert_user_book_read" PNone ;;
        py_get r "user_book_read" PNone).

(** The argument [book.get("book", {}).get("title")] of the [log.info]
    calls: it is evaluated before the call, and raises when the value
    under ["book"] is not a dict. *)
Definition log_title (book : pyval) : res unit :=
  b <~ py_get book "book" (PDict []) ;;
  _ <~ py_get b "title" PNone ;;
  Ok tt.

(** The read-session update of [update_reading_progress], lines 140-162:
    the variables are built first, then the status is changed when the
    book is finished, then the mutation is sent. *)
Definition update_read (self : HardcoverClient) (book read : pyval)
    (pages_read : Z) (progress_percent : pyval) : M (net World) unit :=
  readId <- lift (r <~ py_get read "id" PNone ;;
                  py_int int_of_string r) ;;
  editionId <- lift (ed <~ py_get book "edition" PNone ;;
                     eid <~ py_get ed "id" PNone ;;
                     py_int int_of_string eid) ;;
  now <- date_today ;;
  startedAt <- lift (py_get read "started_at" (PStr now)) ;;
  now' <- date_today ;;
  let finishedAt :=
    if py_eq_int progress_percent 100 then PStr now' else PNone in
  let variables :=
    PDict [("readId", PInt readId);
           ("pages", PInt pages_read);
           ("editionId", PInt editionId);
           ("startedAt", startedAt);
           ("finishedAt", finishedAt)] in
  _ <- (if py_eq_int progress_percent 100
        then _ <- change_book_status self book 3 ;;
             lift (log_title book)
        else ret tt) ;;
  _ <- execute self UpdateUserBookRead variables ;;
  _ <- lift (log_title book) ;;
  ret tt.

(** [update_reading_progress] from line 125 on: what is done with the
    user-book once there is one. *)
Definition sync_user_book (self : HardcoverClient) (book : pyval)
    (progress_percent : pyval) : M (net World) unit :=
  (* Book is either WTR or Read, and we aren't finished reading *)
  status_id <- lift (py_get book "status_id" PNone) ;;
  book <- (if negb (py_eq_int status_id 2)
              && negb (py_eq_int progress_percent 100)
           then b <- change_book_status self book 2 ;;
                _ <- lift (log_title b) ;;
                ret b
           else ret book) ;;
  (* Book is already marked as read, and we are also done *)
  status_id <- lift (py_get book "status_id" PNone) ;;
  if py_eq_int status_id 3 && py_eq_int progress_percent 100
  then _ <- lift (log_title book) ;; ret tt
  else
    pages <- lift (ed <~ py_get book "edition" (PDict []) ;;
                   py_get ed "pages" (PInt 0)) ;;
    if py_truthy pages then
      pages_read <- lift (pages_read_of pages progress_percent) ;;
      read <- lift (reads <~ py_get book "user_book_reads" PNone ;;
                    py_next_iter reads) ;;
      if negb (py_truthy read)
      then _ <- add_read self book (PInt pages_read) ;; ret tt
      else update_read self book read pages_read progress_percent
    else ret tt.

(** [HardcoverClient.update_reading_progress] *)
Definition update_reading_progress (self : HardcoverClient)
    (identifiers : identifiers_arg) (progress_percent : pyval)
    : M (net World) unit :=
  ids <- parse_identifiers self identifiers ;;
  if negb (Z.of_nat (List.length ids) =? 0) then
    book <- get_user_book self ids ;;
    (* Book doesn't exist, add it in Reading status *)
    book <- (if negb (py_truthy book)
             then b <- add_book self (IdsDict ids) 2 ;;
                  _ <- lift (log_title b) ;;
                  ret b
             else ret book) ;;
    (* Edge case: if book doesn't exist and add_book failed to add it *)
    if is_None book then ret tt
    else sync_user_book self book progress_percent
  else ret tt.

(** *** [Hardcover], the metadata provider *)

(** [current_user.hardcover_token], [config.config_hardcover_api_token]
    and [getenv("HARDCOVER_TOKEN")]: each is [None] or a string. *)
Variable user_token : World -> option string.
Variable global_token : World -> option string.
Variable env_token : World -> option string.
(** [json.loads]; [None] when it raises. *)
Variable json_loads : string -> option pyval.
(** [str(v)] for a value that is not a string, as an f-string does. *)
Variable py_repr : pyval -> string.
(** [cps.isoLanguages.get_language_name(locale, code3)] *)
Variable get_language_name : string -> pyval -> res pyval.

Definition DESCRIPTION : string := "Hardcover Books".
Definition META_URL : string := "https://hardcover.app".
Definition BASE_URL : string := "https://api.hardcover.app/v1/graphql".

(** Map reading_format_id to text equivalent. *)
Definition FORMATS : list string :=
  [""; "Physical Book"; ""; ""; "E-Book"].

Definition hardcover_source : MetaSourceInfo :=
  {| source_id := "hardcover";
     source_description := DESCRIPTION;
     source_link := META_URL |}.

(** [Metadata.set_status] *)
Definition set_status (state : bool) : M (provider World) unit :=
  fun s => (Ok tt, {| active := state; pnet := pnet s |}).

Definition on_net {A} (c : M (net World) A) : M (provider World) A :=
  fun s => let (r, n) := c (pnet s) in
           (r, {| active := active s; pnet := n |}).

(** [Hardcover._safe_get]: safely get nested dictionary values. *)
Fixpoint _safe_get (data : pyval) (keys : list string) (default : pyval)
  : pyval :=
  match keys with
  | [] => data
  | key :: keys' =>
      match data with
      | PDict d =>
          match lookup key d with
          | Some v => _safe_get v keys' default
          | None => default
          end
      | _ => default
      end
  end.

Definition py_str (v : pyval) : string :=
  match v with PStr s => s | _ => py_repr v end.

(** [Hardcover._parse_title_url] *)
Definition _parse_title_url (result : pyval) (url : string) : res string :=
  document <~ py_get result "document" (PDict []) ;;
  hardcover_slug <~ py_get document "slug" (PStr "") ;;
  if py_truthy hardcover_slug
  then Ok ("https://hardcover.app/books/" ++ py_str hardcover_slug)
  else Ok url.

(** [Hardcover._parse_title_result]; [None] is Python's [None]. *)
Definition _parse_title_result (result generic_cover : pyval)
    (locale : string) : option MetaRecord :=
  let body : res (option MetaRecord) :=
    let document := _safe_get result ["document"] (PDict []) in
    if negb (py_truthy document) then Ok None
    else
      let series_info := _safe_get document ["featured_series"] (PDict []) in
      let series := _safe_get series_info ["series_name"] (PStr "") in
      let series_index := _safe_get series_info ["position"] (PStr "") in
      url <~ _parse_title_url result "" ;;
      let image_data := _safe_get document ["image"] (PDict []) in
      let id := _safe_get document ["id"] (PStr "") in
      Ok (Some
        {| mr_id := id;
           mr_title := _safe_get document ["title"] (PStr "");
           mr_authors := _safe_get document ["author_names"] (PList []);
           mr_url := url;
           mr_source := hardcover_source;
           mr_series := series;
           mr_cover := _safe_get image_data ["url"] generic_cover;
           mr_description := _safe_get document ["description"] (PStr "");
           mr_series_index := series_index;
           mr_identifiers :=
             [("hardcover-id", id);
              ("hardcover", _safe_get document ["slug"] (PStr ""))];
           mr_publisher := PStr "";
           mr_publishedDate := _safe_get document ["release_date"] (PStr "");
           mr_rating := PInt 0;
           mr_languages := PList [];
           mr_tags := _safe_get document ["genres"] (PList []);
           mr_format := PNone |}) in
  match body with
  | Ok m => m
  | Raise _ => None
  end.

(** [Hardcover._parse_edition_url] *)
Definition _parse_edition_url (result edition : pyval) (url : string)
    : res string :=
  edition <~ py_get edition "id" (PStr "") ;;
  slug <~ py_get result "slug" (PStr "") ;;
  if py_truthy edition
  then Ok ("https://hardcover.app/books/" ++ py_str slug
           ++ "/editions/" ++ py_str edition)
  else Ok url.

(** [Hardcover._parse_edition_authors] *)
Definition _parse_edition_authors (edition authors : pyval) : pyval :=
  match py_get edition "contributions" (PList []) with
  | Ok (PList contributions) =>
      let result :=
        flat_map
          (fun contrib =>
             match contrib with
             | PDict c =>
                 match lookup "author" c with
                 | Some (PDict author_data) =>
                     match lookup "name" author_data with
                     | Some name => [name]
                     | None => []
                     end
                 | _ => []
                 end
             | _ => []
             end)
          contributions in
      match result with [] => authors | _ => PList result end
  | _ => authors
  end.

(** [Hardcover._parse_tags] *)
Definition _parse_tags (result tags : pyval) : pyval :=
  match py_get result "cached_tags" (PList []) with
  | Ok (PList cached_tags) =>
      let result_tags :=
        flat_map
          (fun item =>
             match item with
             | PDict i =>
                 match lookup "tag" i with
                 | Some tag => if py_truthy tag then [tag] else []
                 | None => []
                 end
             | _ => []
             end)
          cached_tags in
      match result_tags with [] => tags | _ => PList result_tags end
  | _ => tags
  end.

(** [x or y] *)
Definition py_or (x y : pyval) : pyval := if py_truthy x then x else y.

(** [Hardcover._parse_languages] *)
Definition _parse_languages (edition : pyval) (locale : string)
    : res pyval :=
  language <~ py_get edition "language" PNone ;;
  language_iso <~ py_get (py_or language (PDict [])) "code3" (PStr "") ;;
  if py_truthy language_iso
  then name <~ get_language_name locale language_iso ;; Ok (PList [name])
  else Ok (PList []).

(** [isinstance(v, int)]: the integer a value is, a [bool] included. *)
Definition as_int (v : pyval) : option Z :=
  match v with
  | PBool b => Some (if b then 1 else 0)
  | PInt z => Some z
  | _ => None
  end.

(** The last lines of the loop body of [_parse_edition_results]. *)
Definition format_of (rf_id : pyval) : string :=
  match as_int rf_id with
  | Some i =>
      if (0 <=? i) && (i <? Z.of_nat (List.length FORMATS))
      then nth (Z.to_nat i) FORMATS ""
      else ""
  | None => ""
  end.

(** [(result.get("book_series") or [{}])[0]] *)
Definition first_book_series (result : pyval) : res pyval :=
  book_series <~ py_get result "book_series" PNone ;;
  py_index0 (py_or book_series (PList [PDict []])).

(** The body of the loop of [_parse_edition_results], for one edition. *)
Definition parse_edition (result id generic_cover : pyval)
    (locale : string) (edition : pyval) : res MetaRecord :=
  title <~ py_get edition "title" (PStr "") ;;
  let authors := _parse_edition_authors edition (PList []) in
  url <~ _parse_edition_url result edition "" ;;
  series <~ (bs <~ first_book_series result ;;
             sr <~ py_get bs "series" (PDict []) ;;
             py_get sr "name" (PStr "")) ;;
  cover <~ (image <~ py_get edition "image" PNone ;;
            py_get (py_or image (PDict [])) "url" generic_cover) ;;
  description <~ py_get result "description" (PStr "") ;;
  publisher <~ (pb <~ py_get edition "publisher" PNone ;;
                py_get (py_or pb (PDict [])) "name" (PStr "")) ;;
  publishedDate <~ py_get edition "release_date" (PStr "") ;;
  series_index <~ (bs <~ first_book_series result ;;
                   py_get bs "position" (PStr "")) ;;
  let tags := _parse_tags result (PList []) in
  languages <~ _parse_languages edition locale ;;
  slug <~ py_get result "slug" (PStr "") ;;
  edition_id <~ py_get edition "id" (PStr "") ;;
  isbn_10 <~ py_get edition "isbn_10" PNone ;;
  isbn <~ py_get edition "isbn_13" isbn_10 ;;
  let identifiers :=
    [("hardcover-id", id);
     ("hardcover", slug);
     ("hardcover-edition", edition_id);
     ("isbn", py_or isbn (PStr ""))] in
  let identifiers :=
    if py_truthy isbn then dict_set "isbn" isbn identifiers
    else identifiers in
  rf_id <~ py_get edition "reading_format_id" PNone ;;
  Ok {| mr_id := id;
        mr_title := title;
        mr_authors := authors;
        mr_url := url;
        mr_source := hardcover_source;
        mr_series := series;
        mr_cover := cover;
        mr_description := description;
        mr_series_index := series_index;
        mr_identifiers := identifiers;
        mr_publisher := publisher;
        mr_publishedDate := publishedDate;
        mr_rating := PInt 0;
        mr_languages := languages;
        mr_tags := tags;
        mr_format := PStr (format_of rf_id) |}.

(** [for x in xs: acc.append(f x)], stopping at the first exception. *)
Fixpoint for_each {A B} (f : A -> res B) (xs : list A) : res (list B) :=
  match xs with
  | [] => Ok []
  | x :: xs' => y <~ f x ;; ys <~ for_each f xs' ;; Ok (y :: ys)
  end.

(** [Hardcover._parse_edition_results] *)
Definition _parse_edition_results (result generic_cover : pyval)
    (locale : string) : res (list MetaRecord) :=
  id <~ py_get result "id" (PStr "") ;;
  editions <~ (es <~ py_getitem result "editions" ;; py_iter es) ;;
  for_each (parse_edition result id generic_cover locale) editions.

(** [x or y] on values that are [None] or a string. *)
Definition or_token (x y : option string) : option string :=
  match x with
  | Some t => if String.eqb t "" then y else x
  | None => y
  end.

(** [current_user.hardcover_token or config.config_hardcover_api_token
    or getenv("HARDCOVER_TOKEN")] *)
Definition resolve_token (w : World) : option string :=
  or_token (or_token (user_token w) (global_token w)) (env_token w).

Definition current_token : M (provider World) (option string) :=
  fun s => (Ok (resolve_token (world (pnet s))), s).

Definition is_active : M (provider World) bool :=
  fun s => (Ok (active s), s).

(** The first [try] block of [search]. *)
Definition request_results (query : string) : M (provider World) flow :=
  token <- current_token ;;
  match token with
  | None =>
      _ <- set_status false ;;
      raise (Exception "Hardcover token not set for user, and no global token provided.")
  | Some token =>
      if String.eqb token "" then
        _ <- set_status false ;;
        raise (Exception "Hardcover token not set for user, and no global token provided.")
      else
        let parts := split_colon query in
        let edition_search := String.eqb (hd "" parts) "hardcover-id" in
        let authorization := "Bearer " ++ str_replace "Bearer " "" token in
        variable <- lift (if edition_search
                          then match nth_error parts 1 with
                               | Some x => Ok x
                               | None => Raise IndexError
                               end
                          else Ok query) ;;
        result <- on_net (requests_post
                    {| rq_url := BASE_URL;
                       rq_authorization := authorization;
                       rq_query := if edition_search then EDITION_QUERY
                                   else SEARCH_QUERY;
                       rq_variables := PDict [("query", PStr variable)] |}) ;;
        let '(status_ok, body) := result in
        if negb status_ok then raise HTTPError
        else
          match body with
          | None => raise JSONDecodeError
          | Some response_data =>
              (* Check for GraphQL errors *)
              has_errors <- lift (py_in "errors" response_data) ;;
              if has_errors then ret (Returned [])
              else
                (* Validate response structure *)
                has_data <- lift (py_in "data" response_data) ;;
                if negb has_data then ret (Returned [])
                else ret (Continue edition_search response_data)
          end
  end.

(** The second [try] block of [search]: process results. *)
Definition process_results (edition_search : bool)
    (response_data generic_cover : pyval) (locale : string)
    : res (list MetaRecord) :=
  if edition_search then
    let books_data := _safe_get response_data ["data"; "books"] (PList []) in
    if py_truthy books_data then
      result <~ py_index0 books_data ;;
      _parse_edition_results result generic_cover locale
    else Ok []
  else
    let raw_results :=
      _safe_get response_data ["data"; "search"; "results"; "hits"]
                (PList []) in
    let parsed :=
      match raw_results with
      | PStr raw =>
          match json_loads raw with
          | Some v => v
          | None => PList []
          end
      | _ => raw_results
      end in
    let search_hits := _safe_get parsed ["hits"] (PList []) in
    hits <~ py_iter search_hits ;;
    Ok (flat_map
          (fun result =>
             match _parse_title_result result generic_cover locale with
             | Some m => [m]   (* Only add valid results *)
             | None => []
             end)
          hits).

(** [Hardcover.search].  The three [except] clauses of the first block
    (RequestException, ValueError, Exception) and the one of the second
    each log and return an empty list; [except Exception] takes whatever
    the first two do not. *)
Definition search (query : string) (generic_cover : pyval)
    (locale : string) : M (provider World) (list MetaRecord) :=
  a <- is_active ;;
  if a : bool then
    f <- catch (request_results query) (fun _ => ret (Returned [])) ;;
    match f with
    | Returned val => ret val
    | Continue edition_search response_data =>
        lift (rcatch (process_results edition_search response_data
                                      generic_cover locale)
                     (fun _ => Ok []))
    end
  else ret [].

(** Later calls to [search] on the same object: before each one the world
    may have changed in any way (a token may have been set). *)
Fixpoint later_searches
    (calls : list ((World -> World) * string * pyval * string))
    (s : provider World) : list (res (list MetaRecord)) * provider World :=
  match calls with
  | [] => ([], s)
  | (meanwhile, query, generic_cover, locale) :: calls' =>
      let s0 := {| active := active s;
                   pnet := {| world := meanwhile (world (pnet s));
                              sent := sent (pnet s) |} |} in
      let (r, s1) := search query generic_cover locale s0 in
      let (rs, s2) := later_searches calls' s1 in
      (r :: rs, s2)
  end.

(** What holds of every identifier set [parse_identifiers] works on: each
    kind occurs once, and every kind starts with ["hardcover"] or is
    ["isbn"]. *)
Definition resolved_shape (ids : list (string * pyval)) : Prop :=
  NoDup (map fst ids) /\ Forall (fun kv => kept_kind (fst kv) = true) ids.

(** A search hit that [_parse_title_result] can map: a dict whose
    ["document"] is a non-empty dict. *)
Definition well_formed_hit (hit : pyval) : bool :=
  match hit with
  | PDict h =>
      match lookup "document" h with
      | Some (PDict (_ :: _)) => true
      | _ => false
      end
  | _ => false
  end.

(** A contribution as the edition query selects it. *)
Definition json_of_contribution (name : pyval) : pyval :=
  PDict [("author", PDict [("name", name)])].


(** The body of a response to the edition search. *)
Definition json_of_books (books : list pyval) : pyval :=
  PDict [("data", PDict [("books", PList books)])].

(** A computation that leaves the requests sent so far in place and at
    most adds to them. *)
Definition appends {A} (c : M (net World) A) : Prop :=
  forall s, exists l, sent (snd (c s)) = (sent s ++ l)%list.

(** A computation whose next request, in any state, is [rq]. *)
Definition sends_first {A} (c : M (net World) A) (rq : request) : Prop :=
  forall s, exists rest, sent (snd (c s)) = (sent s ++ rq :: rest)%list.

(** Is there a token: a setting that is neither [None] nor empty. *)
Definition token_given (t : option string) : bool :=
  match t with
  | Some x => negb (String.eqb x "")
  | None => false
  end.

(** The request [search] posts for a token, a kind of search and the
    value of the ["query"] variable. *)
Definition search_request (token : string) (edition_search : bool)
    (variable : string) : request :=
  {| rq_url := BASE_URL;
     rq_authorization := "Bearer " ++ str_replace "Bearer " "" token;
     rq_query := if edition_search then EDITION_QUERY else SEARCH_QUERY;
     rq_variables := PDict [("query", PStr variable)] |}.

(** *** The author lookups of [HardcoverClient] *)

(** [requests.post], for the author documents. *)
Variable post_author : World -> author_request -> World * reply.
(** [time.time()] *)
Variable clock : World -> spec_float.

Definition author_request_of (self : HardcoverClient)
    (query : author_document) (author : string) : author_request :=
  {| ar_url := endpoint self;
     ar_authorization := authorization self;
     ar_query := query;
     ar_variables := PDict [("author", PStr author)] |}.

(** [HardcoverClient.execute], posting an author document with the
    variables [{"author": author}]. *)
Definition execute_author (self : HardcoverClient) (query : author_document)
    (author : string) : M (authors World) pyval :=
  fun s =>
    let rq := author_request_of self query author in
    let (w, r) := post_author (aworld s) rq in
    (match r with
     | ConnectionFailed => Raise RequestException
     | Response status_ok body => data_of_response (status_ok, body)
     end,
     {| aworld := w;
        asked := asked s ++ [rq];
        _AUTHORS_CACHE := _AUTHORS_CACHE s;
        _AUTHORS_BOOKS_CACHE := _AUTHORS_BOOKS_CACHE s |}).

Definition time_time : M (authors World) spec_float :=
  fun s => (Ok (clock (aworld s)), s).

Definition set_authors_cache (c : list (string * cache_entry))
    : M (authors World) unit :=
  fun s => (Ok tt, {| aworld := aworld s;
                      asked := asked s;
                      _AUTHORS_CACHE := c;
                      _AUTHORS_BOOKS_CACHE := _AUTHORS_BOOKS_CACHE s |}).

Definition set_books_cache (c : list (string * cache_entry))
    : M (authors World) unit :=
  fun s => (Ok tt, {| aworld := aworld s;
                      asked := asked s;
                      _AUTHORS_CACHE := _AUTHORS_CACHE s;
                      _AUTHORS_BOOKS_CACHE := c |}).

(** The head of both lookups: a cached entry is returned while it is
    fresh and deleted once it is not. *)
Definition cached_or_evicted (cache : list (string * cache_entry))
    (set_cache : list (string * cache_entry) -> M (authors World) unit)
    (author : string) : M (authors World) (option pyval) :=
  match lookup author cache with
  | Some entry =>
      now <- time_time ;;
      fresh <- lift (still_fresh now (ce_timestamp entry)) ;;
      if fresh : bool then ret (Some (ce_data entry))
      else _ <- set_cache (dict_del author cache) ;; ret None
  | None => ret None
  end.

(** [HardcoverClient.get_author_info] *)
Definition get_author_info (self : HardcoverClient) (author : string)
    : M (authors World) pyval :=
  cached <- (fun s => cached_or_evicted (_AUTHORS_CACHE s) set_authors_cache
                                        author s) ;;
  match cached with
  | Some data => ret data
  | None =>
      response <- execute_author self GetAuthorInfo author ;;
      author_info <- lift (found <~ py_get response "authors" PNone ;;
                           py_next_iter found) ;;
      _ <- (if py_truthy author_info
            then now <- time_time ;;
                 fun s => set_authors_cache
                            (dict_set author
                               {| ce_data := author_info;
                                  ce_timestamp := now |}
                               (_AUTHORS_CACHE s)) s
            else ret tt) ;;
      ret author_info
  end.

(** [HardcoverClient.get_other_author_books] *)
Definition get_other_author_books (self : HardcoverClient) (author : string)
    (library_books : list string) : M (authors World) pyval :=
  cached <- (fun s => cached_or_evicted (_AUTHORS_BOOKS_CACHE s)
                                        set_books_cache author s) ;;
  match cached with
  | Some data => ret data
  | None =>
      response <- execute_author self OtherBooksFromAuthor author ;;
      author_res <- lift (py_get response "authors" (PList [])) ;;
      if negb (py_truthy author_res) then ret (PList [])
      else
        books <- lift (first <~ py_index0 author_res ;;
                       contributions <~ py_get first "contributions"
                                               (PList []) ;;
                       l <~ py_iter contributions ;;
                       other_books library_books l) ;;
        now <- time_time ;;
        _ <- (fun s => set_books_cache
                         (dict_set author
                            {| ce_data := PList books; ce_timestamp := now |}
                            (_AUTHORS_BOOKS_CACHE s)) s) ;;
        ret (PList books)
  end.

(** * Properties *)

(** ** Doubles that hold small integers *)

Lemma digits2_lower p : 2 ^ (Z.pos (digits2_pos p) - 1) <= Z.pos p.
Proof.
  induction p as [p IH | p IH |]; simpl digits2_pos.
  - rewrite Pos2Z.inj_succ.
    replace (Z.succ (Z.pos (digits2_pos p)) - 1)
      with (Z.succ (Z.pos (digits2_pos p) - 1)) by lia.
    rewrite Z.pow_succ_r by lia. lia.
  - rewrite Pos2Z.inj_succ.
    replace (Z.succ (Z.pos (digits2_pos p)) - 1)
      with (Z.succ (Z.pos (digits2_pos p) - 1)) by lia.
    rewrite Z.pow_succ_r by lia. lia.
  - simpl. lia.
Qed.

Lemma digits2_bound p : Z.pos p < 2 ^ 53 -> Z.pos (digits2_pos p) <= 53.
Proof.
  intros H. pose proof (digits2_lower p) as L.
  destruct (Z_le_gt_dec (Z.pos (digits2_pos p)) 53) as [|G]; [assumption|].
  exfalso. assert (2 ^ 53 <= 2 ^ (Z.pos (digits2_pos p) - 1)).
  { apply Z.pow_le_mono_r; lia. }
  lia.
Qed.

Lemma digits2_iter_xO p k :
  digits2_pos (Pos.iter xO p k) = (digits2_pos p + k)%positive.
Proof.
  induction k as [|k IH] using Pos.peano_ind.
  - simpl. lia.
  - rewrite Pos.iter_succ. simpl. rewrite IH. lia.
Qed.

Lemma iter_xO_value p k : Z.pos (Pos.iter xO p k) = Z.pos p * 2 ^ Z.pos k.
Proof.
  induction k as [|k IH] using Pos.peano_ind.
  - simpl. lia.
  - rewrite Pos.iter_succ, Pos2Z.inj_succ, Z.pow_succ_r by lia.
    rewrite Pos2Z.inj_xO, IH. lia.
Qed.

(** A 53-bit mantissa in range needs no shift. *)
Lemma shr_fexp_canonical m e :
  Z.pos (digits2_pos m) = 53 -> -1074 <= e ->
  shr_fexp prec emax (Z.pos m) e loc_Exact =
  ({| shr_m := Z.pos m; shr_r := false; shr_s := false |}, e).
Proof.
  intros D E.
  assert (F : fexp prec emax (Zdigits2 (Z.pos m) + e) - e = 0).
  { unfold fexp, emin, prec, emax, Zdigits2. rewrite D. lia. }
  unfold shr_fexp. rewrite F. reflexivity.
Qed.

Lemma leb_emax e : e <= 971 -> (e <=? emax - prec) = true.
Proof. intros H. apply Z.leb_le. unfold emax, prec. lia. Qed.

Lemma binary_round_aux_canonical s m e :
  Z.pos (digits2_pos m) = 53 -> -1074 <= e <= 971 ->
  binary_round_aux prec emax s (Z.pos m) e loc_Exact = S754_finite s m e.
Proof.
  intros D [E1 E2]. unfold binary_round_aux.
  rewrite (shr_fexp_canonical m e D E1).
  cbn [shr_m loc_of_shr_record round_nearest_even].
  rewrite (shr_fexp_canonical m e D E1). cbn [shr_m].
  rewrite (leb_emax e E2). reflexivity.
Qed.

(** Multiplying by [1.0] changes nothing. *)
Lemma SFmul_one m e :
  Z.pos (digits2_pos m) = 53 -> -1022 <= e <= 971 ->
  SFmul prec emax (S754_finite false m e) float_one = S754_finite false m e.
Proof.
  intros D [E1 E2]. unfold float_one, SFmul. rewrite Pos.mul_comm.
  cbn [xorb Pos.mul].
  unfold binary_round_aux.
  match goal with
  | |- context [shr_fexp prec emax (Z.pos ?big) ?e' loc_Exact] =>
      assert (F : fexp prec emax (Zdigits2 (Z.pos big) + e') - e' = 52)
  end.
  { unfold fexp, emin, prec, emax, Zdigits2. cbn [digits2_pos].
    rewrite !Pos2Z.inj_succ. rewrite D. lia. }
  unfold shr_fexp at 1. rewrite F.
  cbn [shr shr_record_of_loc iter_pos shr_1 orb].
  cbn [loc_of_shr_record shr_m round_nearest_even].
  replace (e + -52 + 52) with e by lia.
  rewrite (shr_fexp_canonical m e D) by lia. cbn [shr_m].
  rewrite (leb_emax e E2). reflexivity.
Qed.

(** [float(n)] is exact for an integer of at most 53 bits. *)
Lemma float_of_Z_small p :
  Z.pos p < 2 ^ 53 ->
  exists m e, float_of_Z (Z.pos p) = Ok (S754_finite false m e)
    /\ Z.pos (digits2_pos m) = 53 /\ -52 <= e <= 0
    /\ Z.pos m = Z.pos p * 2 ^ (- e).
Proof.
  intros B. pose proof (digits2_bound p B) as D.
  unfold float_of_Z, binary_normalize, binary_round.
  destruct (Z.eq_dec (Z.pos (digits2_pos p)) 53) as [E | N].
  - exists p, 0.
    assert (F : fexp prec emax (Z.pos (digits2_pos p) + 0) = 0).
    { unfold fexp, emin, prec, emax. lia. }
    rewrite F. cbn [shl_align Z.sub Z.add Z.opp].
    rewrite binary_round_aux_canonical by (assumption || lia).
    repeat split; try assumption; try lia.
  - set (k := (53 - digits2_pos p)%positive).
    assert (K : Z.pos k = 53 - Z.pos (digits2_pos p)).
    { unfold k. rewrite Pos2Z.inj_sub; lia. }
    exists (Pos.iter xO p k), (Z.neg k).
    assert (F : fexp prec emax (Z.pos (digits2_pos p) + 0) = Z.neg k).
    { unfold fexp, emin, prec, emax. lia. }
    rewrite F. cbn [shl_align Z.sub Z.add Z.opp].
    assert (D' : Z.pos (digits2_pos (Pos.iter xO p k)) = 53).
    { rewrite digits2_iter_xO, Pos2Z.inj_add. lia. }
    rewrite binary_round_aux_canonical by (assumption || lia).
    repeat split; try assumption; try lia.
    rewrite iter_xO_value. reflexivity.
Qed.

Lemma py_round_exact m e n :
  e <= 0 -> Z.pos m = n * 2 ^ (- e) -> py_round (S754_finite false m e) = Ok n.
Proof.
  intros E V. unfold py_round.
  destruct (Z.leb_spec 0 e) as [L | L].
  - assert (e = 0) by lia. subst e. simpl in V. cbn [apply_sign].
    f_equal. simpl. lia.
  - assert (P : 0 < 2 ^ (- e)) by (apply Z.pow_pos_nonneg; lia).
    rewrite V. rewrite Z.div_mul by lia. rewrite Z.mod_mul by lia.
    assert (C : (2 * 0 ?= 2 ^ (- e)) = Lt) by (apply Z.compare_lt_iff; lia).
    rewrite C. reflexivity.
Qed.

(** At 100 percent the pages read are the page count, for any count a
    double holds exactly. *)
Lemma pages_read_full pages progress_percent :
  is_hundred progress_percent -> 0 < pages < 2 ^ 53 ->
  pages_read_of (PInt pages) progress_percent = Ok pages.
Proof.
  intros H [P B]. destruct pages as [|p|p]; try lia.
  destruct (float_of_Z_small p B) as (m & e & F & D & E & V).
  unfold pages_read_of.
  assert (Q : py_truediv progress_percent (PInt 100) = Ok float_one).
  { destruct H as [-> | ->]; reflexivity. }
  rewrite Q. cbn [rbind]. unfold py_mul_float. cbn [as_number].
  rewrite F. cbn [rbind].
  rewrite SFmul_one by (assumption || lia).
  apply py_round_exact; [lia | assumption].
Qed.

Lemma hundred_eq progress_percent :
  is_hundred progress_percent -> py_eq_int progress_percent 100 = true.
Proof. intros [-> | ->]; reflexivity. Qed.

(** ** Running the monad *)

Lemma bind_run {S A B} (c : M S A) (k : A -> M S B) (s : S) :
  bind c k s =
  match c s with
  | (Ok a, s') => k a s'
  | (Raise e, s') => (Raise e, s')
  end.
Proof. reflexivity. Qed.

Lemma lift_run {S A} (r : res A) (s : S) : lift r s = (r, s).
Proof. reflexivity. Qed.

Lemma ret_run {S A} (a : A) (s : S) : ret a s = (Ok a, s).
Proof. reflexivity. Qed.

(** One [execute] puts exactly one request on the wire, whatever comes
    back. *)
Lemma execute_sent self query variables s :
  sent (snd (execute self query variables s))
  = (sent s ++ [request_of self query variables])%list.
Proof.
  unfold execute, requests_post. rewrite bind_run.
  destruct (post (world s) (request_of self query variables)) as [w r].
  destruct r as [| status_ok body]; [reflexivity|].
  rewrite lift_run. reflexivity.
Qed.

(** ** The user-book is there: what [update_reading_progress] goes on to *)

Lemma json_of_user_book_truthy b : py_truthy (json_of_user_book b) = true.
Proof. reflexivity. Qed.

Lemma update_with_existing_book self identifiers progress_percent s ids s1 b s2 :
  parse_identifiers self identifiers s = (Ok ids, s1) ->
  ids <> [] ->
  get_user_book self ids s1 = (Ok (json_of_user_book b), s2) ->
  update_reading_progress self identifiers progress_percent s
  = sync_user_book self (json_of_user_book b) progress_percent s2.
Proof.
  intros Hp Hne Hg. unfold update_reading_progress.
  rewrite bind_run, Hp.
  destruct ids as [|kv ids]; [congruence|].
  cbn [List.length]. rewrite Nat2Z.inj_succ.
  replace (Z.succ (Z.of_nat (List.length ids)) =? 0) with false
    by (symmetry; apply Z.eqb_neq; lia).
  cbn [negb]. rewrite bind_run, Hg. reflexivity.
Qed.

Lemma get_user_book_sent self ids s :
  sent (snd (get_user_book self ids s))
  = (sent s ++ [user_book_request self ids])%list.
Proof.
  unfold get_user_book, user_book_request.
  destruct (user_book_query ids) as [query variables]. cbn [fst snd].
  rewrite bind_run.
  pose proof (execute_sent self query variables s) as E.
  destruct (execute self query variables s) as [[response | e] s'];
    cbn [snd] in E |- *; [rewrite lift_run|]; exact E.
Qed.

Lemma user_book_query_reads ids :
  is_mutation (fst (user_book_query ids)) = false.
Proof.
  unfold user_book_query.
  destruct (lookup "hardcover-edition" ids); [reflexivity|].
  destruct (lookup "hardcover-id" ids); [reflexivity|].
  destruct (lookup "hardcover" ids); reflexivity.
Qed.

Lemma get_book_id_sent self slug isbn s :
  let s' := snd (get_book_id self slug isbn s) in
  sent s' = sent s
  \/ exists rq, sent s' = (sent s ++ [rq])%list
                /\ (rq_query rq = BooksBySlug \/ rq_query rq = BooksBySlugIsbn).
Proof.
  unfold get_book_id. rewrite bind_run, lift_run.
  destruct (book_id_query slug isbn) as [[query variables] | e] eqn:Q;
    [|left; reflexivity].
  right. exists (request_of self query variables). split.
  - rewrite bind_run.
    pose proof (execute_sent self query variables s) as E.
    destruct (execute self query variables s) as [[response | e] s'];
      cbn [snd] in E |- *; [rewrite lift_run|]; exact E.
  - unfold book_id_query in Q.
    destruct (if py_truthy isbn then _ else _) as [[|] | e];
      cbn [rbind] in Q; inversion Q; subst; cbn; auto.
Qed.

(** Resolution sends at most one request, and it is a query. *)
Lemma parse_identifiers_sent self identifiers s :
  let s' := snd (parse_identifiers self identifiers s) in
  sent s' = sent s
  \/ exists rq, sent s' = (sent s ++ [rq])%list
                /\ (rq_query rq = BooksBySlug \/ rq_query rq = BooksBySlugIsbn).
Proof.
  unfold parse_identifiers.
  destruct (negb (has_key "hardcover-id" (filter_identifiers identifiers)));
    [|left; reflexivity].
  destruct (negb (py_truthy _)); [left; reflexivity|].
  rewrite bind_run.
  pose proof (get_book_id_sent self
    (lookup_or_none "hardcover" (filter_identifiers identifiers))
    (lookup_or_none "isbn" (filter_identifiers identifiers)) s) as G.
  cbv zeta in G.
  destruct (get_book_id self _ _ s) as [[[book_id edition_id] | e] s'];
    cbn [snd] in G |- *; [|exact G].
  destruct (negb (is_None edition_id)); exact G.
Qed.

(** ** Book already read, progress 100 *)

Lemma sync_read_book_done self b progress_percent s :
  is_hundred progress_percent -> ub_status_id b = 3 ->
  sync_user_book self (json_of_user_book b) progress_percent s = (Ok tt, s).
Proof.
  intros H St. unfold sync_user_book, json_of_user_book.
  rewrite bind_run, lift_run. cbn [py_get lookup String.eqb Ascii.eqb Bool.eqb].
  rewrite (hundred_eq _ H), St. reflexivity.
Qed.

(** C4.  When the user-book fetched for the resolved identifiers has
    status Read (3) and the progress is 100, [update_reading_progress]
    returns in the state reached by the lookup: the requests of the call
    are at most one identifier-resolution query followed by the single
    user-book lookup, and none of them is a mutation. *)
Theorem read_book_at_100_issues_no_mutation
    self identifiers progress_percent s ids s1 b s2 :
  is_hundred progress_percent ->
  parse_identifiers self identifiers s = (Ok ids, s1) ->
  ids <> [] ->
  get_user_book self ids s1 = (Ok (json_of_user_book b), s2) ->
  ub_status_id b = 3 ->
  update_reading_progress self identifiers progress_percent s = (Ok tt, s2)
  /\ exists resolution,
       sent s2 = (sent s ++ resolution ++ [user_book_request self ids])%list
       /\ (List.length resolution <= 1)%nat
       /\ filter (fun rq => is_mutation (rq_query rq))
                 (resolution ++ [user_book_request self ids]) = [].
Proof.
  intros H Hp Hne Hg St. split.
  - rewrite (update_with_existing_book _ _ _ _ _ _ _ _ Hp Hne Hg).
    apply sync_read_book_done; assumption.
  - pose proof (get_user_book_sent self ids s1) as G. rewrite Hg in G.
    cbn [snd] in G.
    pose proof (parse_identifiers_sent self identifiers s) as P.
    rewrite Hp in P. cbn [snd] in P.
    assert (U : is_mutation (rq_query (user_book_request self ids)) = false)
      by apply user_book_query_reads.
    destruct P as [P | (rq & P & Q)].
    + exists []. rewrite G, P. cbn [app List.length filter].
      rewrite U. auto.
    + exists [rq]. rewrite G, P, <- app_assoc. cbn [app List.length filter].
      rewrite U. destruct Q as [-> | ->]; cbn; auto.
Qed.

(** ** Book not yet read, progress 100 *)

Lemma change_book_status_sent self b status s :
  sent (snd (change_book_status self (json_of_user_book b) status s))
  = (sent s ++ [request_of self UpdateUserBook
                  (PDict [("id", PInt (ub_id b));
                          ("status_id", PInt status)])])%list.
Proof.
  unfold change_book_status. rewrite bind_run, lift_run.
  cbn [json_of_user_book py_get lookup String.eqb Ascii.eqb Bool.eqb].
  rewrite bind_run.
  match goal with
  | |- context [execute self ?q ?v s] =>
      pose proof (execute_sent self q v s) as E;
      destruct (execute self q v s) as [[response | e] s']
  end; cbn [snd] in E |- *; [rewrite lift_run|]; exact E.
Qed.

Ltac mrun :=
  repeat first [ rewrite bind_run | rewrite lift_run | rewrite ret_run
               | progress cbv beta iota ].

Ltac pyrun :=
  cbn [bind lift ret rbind py_get lookup String.eqb Ascii.eqb Bool.eqb
       negb andb fst snd].

(** The part of [sync_user_book] shared by the two cases below: nothing
    is sent before the pages are known. *)
Lemma sync_unfinished_book self b progress_percent pages s :
  is_hundred progress_percent ->
  ub_status_id b <> 3 ->
  ub_pages b = Some pages ->
  0 < pages < 2 ^ 53 ->
  sync_user_book self (json_of_user_book b) progress_percent s
  = match ub_reads b with
    | [] => (_ <- add_read self (json_of_user_book b) (PInt pages) ;; ret tt) s
    | r :: _ => update_read self (json_of_user_book b) (json_of_read r)
                            pages progress_percent s
    end.
Proof.
  intros H St Pg Bd. unfold sync_user_book, json_of_user_book.
  pyrun. rewrite (hundred_eq _ H). pyrun.
  rewrite Bool.andb_false_r. pyrun.
  cbn [py_eq_int as_number].
  replace (ub_status_id b =? 3) with false
    by (symmetry; apply Z.eqb_neq; exact St).
  pyrun. rewrite Pg. cbn [json_opt_int py_truthy].
  replace (pages =? 0) with false by (symmetry; apply Z.eqb_neq; lia).
  pyrun. rewrite (pages_read_full pages progress_percent H Bd).
  pyrun. cbn [py_next_iter py_iter]. pyrun.
  destruct (ub_reads b) as [|r reads]; reflexivity.
Qed.

(** C3, amended.  With progress 100, a user-book whose status is not Read
    (3), whose edition has a page count above zero and which has an open
    read-session: the status change to Read (3) is sent first; when it
    comes back without error the read-session update follows, and its
    finish date is today's date. *)
Theorem finishing_sends_status_change_then_session_update
    self identifiers progress_percent s ids s1 b pages r reads s2 :
  is_hundred progress_percent ->
  parse_identifiers self identifiers s = (Ok ids, s1) ->
  ids <> [] ->
  get_user_book self ids s1 = (Ok (json_of_user_book b), s2) ->
  ub_status_id b <> 3 ->
  ub_pages b = Some pages ->
  0 < pages < 2 ^ 53 ->
  ub_reads b = r :: reads ->
  let to_read :=
    request_of self UpdateUserBook
      (PDict [("id", PInt (ub_id b)); ("status_id", PInt 3)]) in
  let session_update :=
    request_of self UpdateUserBookRead
      (PDict [("readId", PInt (read_id r));
              ("pages", PInt pages);
              ("editionId", PInt (ub_edition_id b));
              ("startedAt", json_opt_str (read_started_at r));
              ("finishedAt", PStr (today (world s2)))]) in
  match change_book_status self (json_of_user_book b) 3 s2 with
  | (Ok _, _) =>
      sent (snd (update_reading_progress self identifiers progress_percent s))
      = (sent s2 ++ [to_read; session_update])%list
  | (Raise e, s3) =>
      update_reading_progress self identifiers progress_percent s
      = (Raise e, s3)
      /\ sent s3 = (sent s2 ++ [to_read])%list
  end.
Proof.
  intros H Hp Hne Hg St Pg Bd Rd to_read session_update.
  rewrite (update_with_existing_book _ _ _ _ _ _ _ _ Hp Hne Hg).
  rewrite (sync_unfinished_book _ _ _ _ _ H St Pg Bd), Rd.
  pose proof (change_book_status_sent self b 3 s2) as C.
  unfold update_read, date_today. rewrite (hundred_eq _ H).
  unfold json_of_read, json_of_user_book in *. pyrun. cbn [py_int]. pyrun.
  rewrite !bind_run.
  match goal with
  | |- context [change_book_status self ?bk 3 s2] =>
      destruct (change_book_status self bk 3 s2) as [[b' | e] s3]
  end; cbn [snd] in C.
  - unfold log_title. pyrun. rewrite !bind_run.
    match goal with
    | |- context [execute self ?q ?v s3] =>
        pose proof (execute_sent self q v s3) as E;
        destruct (execute self q v s3) as [[response | e] s4]
    end; cbn [snd] in E |- *; pyrun; rewrite E, C, <- app_assoc; reflexivity.
  - split; [reflexivity | exact C].
Qed.

(** C10.  With progress 100, a user-book whose status is not Read (3),
    whose edition has a page count above zero and which has no open
    read-session: after the lookup the call sends one request, the
    insertion of a read-session that starts today, has the full page count
    as pages read and carries no finish date.  No status change is sent,
    so the session stays open. *)
Theorem full_progress_without_session_only_inserts_read
    self identifiers progress_percent s ids s1 b pages s2 :
  is_hundred progress_percent ->
  parse_identifiers self identifiers s = (Ok ids, s1) ->
  ids <> [] ->
  get_user_book self ids s1 = (Ok (json_of_user_book b), s2) ->
  ub_status_id b <> 3 ->
  ub_pages b = Some pages ->
  0 < pages < 2 ^ 53 ->
  ub_reads b = [] ->
  sent (snd (update_reading_progress self identifiers progress_percent s))
  = (sent s2 ++
     [request_of self InsertUserBookRead
        (PDict [("id", PInt (ub_id b));
                ("editionId", if ub_edition_id b =? 0 then PNone
                              else PInt (ub_edition_id b));
                ("pages", PInt pages);
                ("startedAt", PStr (today (world s2)))])])%list.
Proof.
  intros H Hp Hne Hg St Pg Bd Rd.
  rewrite (update_with_existing_book _ _ _ _ _ _ _ _ Hp Hne Hg).
  rewrite (sync_unfinished_book _ _ _ _ _ H St Pg Bd), Rd.
  unfold add_read, date_today, json_of_user_book. pyrun.
  cbn [py_int py_truthy]. pyrun.
  destruct (ub_edition_id b =? 0); cbn [negb]; mrun;
    match goal with
    | |- context [execute self ?q ?v s2] =>
        pose proof (execute_sent self q v s2) as E;
        destruct (execute self q v s2) as [[response | e] s3]
    end; cbn [snd] in E; mrun; try exact E.
  all: match goal with
       | |- context [match ?r with Ok _ => _ | Raise _ => _ end] =>
           destruct r
       end; exact E.
Qed.

(** ** Creation of the user-book fails *)

Lemma add_book_sent self identifiers status s :
  exists requests,
    sent (snd (add_book self identifiers status s))
    = (sent s ++ requests)%list
    /\ forallb (fun rq => negb (touches_user_book (rq_query rq))) requests
       = true.
Proof.
  unfold add_book. rewrite bind_run.
  pose proof (parse_identifiers_sent self identifiers s) as P. cbv zeta in P.
  destruct (parse_identifiers self identifiers s) as [[ids | e] s1];
    cbn [snd] in P.
  - assert (P' : exists l, sent s1 = (sent s ++ l)%list
               /\ forallb (fun rq => negb (touches_user_book (rq_query rq))) l
                  = true).
    { destruct P as [P | (rq & P & Q)].
      - exists []. rewrite app_nil_r. auto.
      - exists [rq]. split; [exact P|]. destruct Q as [Q | Q];
          cbn; rewrite Q; reflexivity. }
    destruct P' as (l & Pl & Fl).
    rewrite bind_run, lift_run.
    destruct (py_int int_of_string (lookup_or_none "hardcover-id" ids))
      as [book_id | e]; [|exists l; auto].
    rewrite bind_run, lift_run.
    destruct (if py_truthy (lookup_or_none "hardcover-edition" ids)
              then _ else _) as [edition_id | e]; [|exists l; auto].
    rewrite bind_run.
    match goal with
    | |- context [execute self ?q ?v s1] =>
        pose proof (execute_sent self q v s1) as E;
        exists (l ++ [request_of self q v])%list;
        destruct (execute self q v s1) as [[response | e] s2]
    end; cbn [snd] in E |- *; try rewrite lift_run; cbn [snd];
      rewrite E, Pl, <- app_assoc; (split; [reflexivity|]);
      rewrite forallb_app, Fl; reflexivity.
  - destruct P as [P | (rq & P & Q)].
    + exists []. rewrite app_nil_r. auto.
    + exists [rq]. split; [exact P|]. destruct Q as [Q | Q];
        cbn; rewrite Q; reflexivity.
Qed.

(** X30.  When no user-book exists for the resolved identifiers and
    [add_book] returns [None] (the reply has a null user-book), the call
    ends with the [AttributeError] raised at line 120, when the title of
    the missing book is read for the log, before the guard of line 122 is
    reached: the state is the one the creation left, and no status change,
    read-session insertion or read-session update is among the requests
    of the call. *)
Theorem failed_creation_aborts_progress_update
    self identifiers progress_percent s ids s1 nothing s2 s3 :
  parse_identifiers self identifiers s = (Ok ids, s1) ->
  ids <> [] ->
  get_user_book self ids s1 = (Ok nothing, s2) ->
  py_truthy nothing = false ->
  add_book self (IdsDict ids) 2 s2 = (Ok PNone, s3) ->
  update_reading_progress self identifiers progress_percent s
  = (Raise AttributeError, s3)
  /\ exists requests,
       sent s3 = (sent s ++ requests)%list
       /\ forallb (fun rq => negb (touches_user_book (rq_query rq))) requests
          = true.
Proof.
  intros Hp Hne Hg Hn Ha. split.
  - unfold update_reading_progress. rewrite bind_run, Hp.
    destruct ids as [|kv ids]; [congruence|].
    cbn [List.length]. rewrite Nat2Z.inj_succ.
    replace (Z.succ (Z.of_nat (List.length ids)) =? 0) with false
      by (symmetry; apply Z.eqb_neq; lia).
    cbn [negb]. rewrite bind_run, Hg, Hn. cbn [negb].
    rewrite !bind_run, Ha. reflexivity.
  - pose proof (parse_identifiers_sent self identifiers s) as P.
    rewrite Hp in P. cbn [snd] in P.
    pose proof (get_user_book_sent self ids s1) as G.
    rewrite Hg in G. cbn [snd] in G.
    destruct (add_book_sent self (IdsDict ids) 2 s2) as (la & A & Fa).
    rewrite Ha in A. cbn [snd] in A.
    assert (U : touches_user_book (rq_query (user_book_request self ids))
                = false).
    { unfold user_book_request, user_book_query. cbn [request_of rq_query].
      destruct (lookup "hardcover-edition" ids); [reflexivity|].
      destruct (lookup "hardcover-id" ids); [reflexivity|].
      destruct (lookup "hardcover" ids); reflexivity. }
    destruct P as [P | (rq & P & Q)].
    + exists (user_book_request self ids :: la).
      rewrite A, G, P, <- app_assoc. split; [reflexivity|].
      cbn [forallb]. rewrite U, Fa. reflexivity.
    + exists (rq :: user_book_request self ids :: la).
      rewrite A, G, P, <- !app_assoc. split; [reflexivity|].
      cbn [forallb]. rewrite U, Fa.
      destruct Q as [Q | Q]; rewrite Q; reflexivity.
Qed.

(** ** Identifier resolution *)

(** C1, amended.  When the filtered identifiers hold neither
    ['hardcover-id'] nor a ['hardcover'] slug, resolution returns the
    filtered set as it is and sends nothing; when that set is empty,
    [update_reading_progress] returns at once, with no query and no
    mutation. *)
Theorem unresolved_identifiers_are_returned_without_request
    self identifiers s :
  let ids := filter_identifiers identifiers in
  has_key "hardcover-id" ids = false ->
  has_key "hardcover" ids = false ->
  parse_identifiers self identifiers s = (Ok ids, s)
  /\ (ids = [] ->
      forall progress_percent,
        update_reading_progress self identifiers progress_percent s
        = (Ok tt, s)).
Proof.
  intros ids Hid Hslug.
  assert (P : parse_identifiers self identifiers s = (Ok ids, s)).
  { unfold parse_identifiers. fold ids. rewrite Hid. cbn [negb].
    unfold lookup_or_none. unfold has_key in Hslug.
    destruct (lookup "hardcover" ids); [discriminate|]. reflexivity. }
  split; [exact P|].
  intros E progress_percent. unfold update_reading_progress.
  rewrite bind_run, P, E. reflexivity.
Qed.

(** The slug lookup, seen from the reply: what resolution returns depends
    on the reply alone. *)
Lemma slug_resolution_run self identifiers slug isbn :
  let ids := filter_identifiers identifiers in
  has_key "hardcover-id" ids = false ->
  lookup "hardcover" ids = Some (PStr slug) ->
  slug <> "" ->
  lookup_or_none "isbn" ids = json_opt_str isbn ->
  exists outcome : reply -> res (list (string * pyval)),
    (forall book_id editions,
        outcome (Response true (Some (json_of_book_match book_id editions)))
        = Ok (match editions with
              | Some (e :: _) =>
                  dict_set "hardcover-edition" (PInt e)
                    (dict_set "hardcover-id" (PInt book_id) ids)
              | _ => dict_set "hardcover-id" (PInt book_id) ids
              end))
    /\ forall s,
        parse_identifiers self identifiers s
        = (outcome (snd (post (world s) (slug_request self slug isbn))),
           {| world := fst (post (world s) (slug_request self slug isbn));
              sent := (sent s ++ [slug_request self slug isbn])%list |}).
Proof.
  intros ids Hid Hslug Hne Hisbn.
  exists (fun r =>
            match r with
            | ConnectionFailed => Raise RequestException
            | Response status_ok body =>
                response <~ data_of_response (status_ok, body) ;;
                found <~ book_id_of_response response ;;
                Ok (if negb (is_None (snd found))
                    then dict_set "hardcover-edition" (snd found)
                           (dict_set "hardcover-id" (fst found) ids)
                    else dict_set "hardcover-id" (fst found) ids)
            end).
  split.
  - intros book_id editions. destruct editions as [[|e l]|]; reflexivity.
  - intros s.
    assert (Hs : lookup_or_none "hardcover" ids = PStr slug).
    { unfold lookup_or_none. rewrite Hslug. reflexivity. }
    unfold parse_identifiers. fold ids. rewrite Hid. cbv zeta.
    rewrite Hs, Hisbn. cbn [negb py_truthy].
    replace (String.eqb slug "") with false
      by (symmetry; apply String.eqb_neq; exact Hne).
    cbn [negb]. unfold get_book_id. mrun.
    assert (Q : exists q v,
               book_id_query (PStr slug) (json_opt_str isbn) = Ok (q, v)
               /\ request_of self q v = slug_request self slug isbn).
    { unfold book_id_query, slug_request. destruct isbn as [i|].
      - cbn [json_opt_str py_truthy py_len].
        destruct (String.eqb i "") eqn:Ei.
        + apply String.eqb_eq in Ei. subst i. cbn. eauto.
        + cbn [negb rbind].
          destruct (str_len i =? 13); eauto.
      - cbn. eauto. }
    destruct Q as (q & v & Q & R). rewrite Q. mrun.
    unfold execute, requests_post. mrun. rewrite R.
    destruct (post (world s) (slug_request self slug isbn)) as [w r].
    cbn [fst snd]. destruct r as [|status_ok body]; [reflexivity|].
    mrun. destruct (data_of_response (status_ok, body)) as [response|e];
      [|reflexivity].
    mrun. cbn [rbind].
    destruct (book_id_of_response response) as [[book_id edition_id]|e];
      [|reflexivity].
    mrun. cbn [rbind fst snd].
    destruct (negb (is_None edition_id)); reflexivity.
Qed.

(** C9.  For an input with a slug and without ['hardcover-id'],
    resolution sends exactly one request, the slug lookup; from a reply
    that names a book it sets ['hardcover-id'], and ['hardcover-edition']
    when the reply lists an edition; and called again with the same input
    against a remote that answers the lookup the same way, it returns the
    same. *)
Theorem slug_resolution_is_one_idempotent_round_trip
    self identifiers slug isbn s :
  let ids := filter_identifiers identifiers in
  has_key "hardcover-id" ids = false ->
  lookup "hardcover" ids = Some (PStr slug) ->
  slug <> "" ->
  lookup_or_none "isbn" ids = json_opt_str isbn ->
  let rq := slug_request self slug isbn in
  sent (snd (parse_identifiers self identifiers s)) = (sent s ++ [rq])%list
  /\ (forall book_id editions,
         snd (post (world s) rq)
         = Response true (Some (json_of_book_match book_id editions)) ->
         fst (parse_identifiers self identifiers s)
         = Ok (match editions with
               | Some (e :: _) =>
                   dict_set "hardcover-edition" (PInt e)
                     (dict_set "hardcover-id" (PInt book_id) ids)
               | _ => dict_set "hardcover-id" (PInt book_id) ids
               end))
  /\ (forall s',
         snd (post (world s') rq) = snd (post (world s) rq) ->
         fst (parse_identifiers self identifiers s')
         = fst (parse_identifiers self identifiers s)).
Proof.
  intros ids Hid Hslug Hne Hisbn rq.
  destruct (slug_resolution_run self identifiers slug isbn Hid Hslug Hne Hisbn)
    as (outcome & Hfound & Hrun).
  fold ids in Hfound. fold rq in Hrun.
  repeat split.
  - rewrite Hrun. reflexivity.
  - intros book_id editions Hreply. rewrite Hrun. cbn [fst].
    rewrite Hreply. apply Hfound.
  - intros s' Hsame. rewrite !Hrun. cbn [fst]. rewrite Hsame. reflexivity.
Qed.

(** ** The metadata provider *)

Lemma format_of_table rf_id :
  format_of rf_id
  = match as_int rf_id with
    | Some index => format_table index
    | None => ""
    end.
Proof.
  unfold format_of. destruct (as_int rf_id) as [i|]; [|reflexivity].
  unfold format_table. cbn [FORMATS List.length Z.of_nat Pos.of_succ_nat
                            Pos.succ].
  destruct (Z.leb_spec 0 i) as [L|L], (Z.ltb_spec i 5) as [U|U]; cbn [andb].
  - assert (C : i = 0 \/ i = 1 \/ i = 2 \/ i = 3 \/ i = 4) by lia.
    destruct C as [-> | [-> | [-> | [-> | ->]]]]; reflexivity.
  - replace (i =? 1) with false by (symmetry; apply Z.eqb_neq; lia).
    replace (i =? 4) with false by (symmetry; apply Z.eqb_neq; lia).
    reflexivity.
  - replace (i =? 1) with false by (symmetry; apply Z.eqb_neq; lia).
    replace (i =? 4) with false by (symmetry; apply Z.eqb_neq; lia).
    reflexivity.
  - lia.
Qed.

Ltac step_ok H :=
  match type of H with
  | rbind ?c _ = Ok _ =>
      let E := fresh "E" in
      destruct c eqn:E; cbn [rbind] in H; [|discriminate H]
  end.

Lemma parse_edition_format result id generic_cover locale edition r :
  parse_edition result id generic_cover locale edition = Ok r ->
  exists rf_id,
    py_get edition "reading_format_id" PNone = Ok rf_id
    /\ mr_format r = PStr (format_of rf_id).
Proof.
  intros H. unfold parse_edition in H.
  repeat step_ok H.
  inversion H; subst r; clear H. cbn [mr_format]. eauto.
Qed.

(** C6.  Every record [_parse_edition_results] makes of an edition has as
    format the table entry for the edition's [reading_format_id]:
    "Physical Book" at index 1, "E-Book" at index 4, and the empty string
    at every other index and for an id that is missing or is not an
    integer. *)
Theorem edition_format_follows_table result generic_cover locale records :
  _parse_edition_results result generic_cover locale = Ok records ->
  exists editions,
    (es <~ py_getitem result "editions" ;; py_iter es) = Ok editions
    /\ Forall2
         (fun edition r =>
            exists rf_id,
              py_get edition "reading_format_id" PNone = Ok rf_id
              /\ mr_format r
                 = PStr (match as_int rf_id with
                         | Some index => format_table index
                         | None => ""
                         end))
         editions records.
Proof.
  unfold _parse_edition_results. intros H.
  step_ok H. step_ok H. rename a0 into editions.
  exists editions. split; [reflexivity|].
  match goal with
  | E0 : rbind (py_getitem _ _) _ = _ |- _ => clear E0
  end.
  revert records H. induction editions as [|edition editions IH];
    intros records H; cbn [for_each] in H.
  - inversion H. constructor.
  - destruct (parse_edition result a generic_cover locale edition)
      as [r|] eqn:Hr; cbn [rbind] in H; [|discriminate H].
    destruct (for_each (parse_edition result a generic_cover locale) editions)
      as [rs|] eqn:Hrs; cbn [rbind] in H; [|discriminate H].
    inversion H; subst records; clear H.
    constructor; [|apply IH; reflexivity].
    destruct (parse_edition_format _ _ _ _ _ _ Hr) as (rf_id & G & F).
    exists rf_id. split; [exact G|]. rewrite F, format_of_table. reflexivity.
Qed.

(** A list found under [data.search.results.hits] is never iterated: the
    second [_safe_get] asks it for the key ["hits"]. *)
Lemma hits_list_is_never_read hits generic_cover locale :
  process_results false (json_of_search (PList hits)) generic_cover locale
  = Ok [].
Proof. reflexivity. Qed.

Lemma py_in_errors d :
  has_key "errors" d = true -> py_in "errors" (PDict d) = Ok true.
Proof. intros H. cbn [py_in]. rewrite H. reflexivity. Qed.

(** With a remote that answers badly, the first block of [search] raises
    or returns the empty list. *)
Lemma request_results_bad query s f s' :
  (forall rq, bad_reply (snd (post (world (pnet s)) rq))) ->
  request_results query s = (Ok f, s') ->
  f = Returned [].
Proof.
  intros Bad. unfold request_results, current_token. mrun.
  destruct (resolve_token (world (pnet s))) as [token|];
    [|unfold set_status, raise; mrun; discriminate].
  destruct (String.eqb token "");
    [unfold set_status, raise; mrun; discriminate|].
  mrun.
  match goal with
  | |- context [match ?v with Ok _ => _ | Raise _ => _ end] =>
      destruct v as [variable|e]; [|discriminate]
  end.
  mrun. unfold on_net, requests_post.
  match goal with
  | |- context [post (world (pnet s)) ?rq] =>
      specialize (Bad rq); destruct (post (world (pnet s)) rq) as [w r]
  end.
  cbn [snd] in Bad. destruct r as [|status_ok body]; [discriminate|].
  cbv beta iota. cbn [bad_reply] in Bad.
  destruct Bad as [-> | [-> | (d & -> & K)]].
  - unfold raise. cbn [negb]. discriminate.
  - destruct status_ok; unfold raise; cbn [negb]; discriminate.
  - destruct status_ok; [|unfold raise; cbn [negb]; discriminate].
    cbn [negb]. mrun. rewrite (py_in_errors d K). mrun.
    intros E. inversion E. reflexivity.
Qed.

(** C7.  [search] always returns a list, never an exception; and when
    the remote answers every request with a transport error, a
    non-success status, a body that is not JSON or a body with GraphQL
    errors, the list is empty. *)
Theorem search_never_raises_and_degrades_to_empty
    query generic_cover locale s :
  exists val s',
    search query generic_cover locale s = (Ok val, s')
    /\ ((forall rq, bad_reply (snd (post (world (pnet s)) rq))) -> val = []).
Proof.
  unfold search, is_active. mrun.
  destruct (active s); [|mrun; exists [], s; split; reflexivity].
  mrun. unfold catch.
  destruct (request_results query s) as [[f | e] s1] eqn:R.
  - destruct f as [val | edition_search response_data].
    + mrun. exists val, s1. split; [reflexivity|].
      intros Bad. pose proof (request_results_bad _ _ _ _ Bad R) as F.
      inversion F. reflexivity.
    + mrun.
      destruct (process_results edition_search response_data generic_cover
                                locale) as [val | e] eqn:P; cbn [rcatch].
      * exists val, s1. split; [reflexivity|].
        intros Bad. pose proof (request_results_bad _ _ _ _ Bad R) as F.
        discriminate F.
      * exists [], s1. split; reflexivity.
  - mrun. exists [], s1. split; reflexivity.
Qed.

Lemma resolve_token_missing w :
  no_token_in (user_token w) ->
  no_token_in (global_token w) ->
  no_token_in (env_token w) ->
  no_token_in (resolve_token w).
Proof.
  unfold resolve_token, or_token.
  intros [-> | ->] [-> | ->] [-> | ->]; cbn; unfold no_token_in; auto.
Qed.

(** An inactive provider answers with the empty list and touches
    nothing. *)
Lemma inactive_search query generic_cover locale s :
  active s = false ->
  search query generic_cover locale s = (Ok [], s).
Proof.
  intros A. unfold search, is_active. mrun. rewrite A. reflexivity.
Qed.

Lemma later_searches_inactive calls :
  forall s,
    active s = false ->
    fst (later_searches calls s) = map (fun _ => Ok []) calls
    /\ active (snd (later_searches calls s)) = false
    /\ sent (pnet (snd (later_searches calls s))) = sent (pnet s).
Proof.
  induction calls as [|[[[meanwhile query] generic_cover] locale] calls IH];
    intros s A; cbn [later_searches].
  - auto.
  - rewrite inactive_search by exact A.
    match goal with
    | |- context [later_searches calls ?s0] =>
        specialize (IH s0 A); destruct (later_searches calls s0) as [rs s2]
    end.
    cbn [fst snd map active pnet sent] in *.
    destruct IH as (-> & -> & ->). auto.
Qed.

(** C8.  With no token in the user setting, the global configuration and
    the environment, the provider answers [search] with the empty list,
    sends nothing and is inactive afterwards; from then on every call to
    [search] answers with the empty list and sends nothing, whatever the
    settings have become. *)
Theorem missing_token_deactivates_search_for_good
    query generic_cover locale s :
  no_token_in (user_token (world (pnet s))) ->
  no_token_in (global_token (world (pnet s))) ->
  no_token_in (env_token (world (pnet s))) ->
  search query generic_cover locale s
  = (Ok [], {| active := false; pnet := pnet s |})
  /\ forall calls,
       let later :=
         later_searches calls {| active := false; pnet := pnet s |} in
       fst later = map (fun _ => Ok []) calls
       /\ active (snd later) = false
       /\ sent (pnet (snd later)) = sent (pnet s).
Proof.
  intros U G E.
  pose proof (resolve_token_missing _ U G E) as T.
  split.
  - destruct s as [[|] n]; cbn [pnet world] in T |- *.
    + unfold search, is_active. mrun. cbn [active]. mrun.
      unfold catch, request_results, current_token. mrun. cbn [pnet].
      destruct T as [-> | ->]; reflexivity.
    + apply inactive_search. reflexivity.
  - intros calls later.
    apply (later_searches_inactive calls {| active := false; pnet := pnet s |}).
    reflexivity.
Qed.

(** * More of the client *)

(** ** [execute], [__init__], [get_user_book] *)

(** X1.  [execute] hands data back only from a clean reply: when it
    returns, the reply had a success status and a JSON object without an
    ["errors"] key, the value returned is that object's ["data"] (an
    empty dict when there is none), and the request is the one thing
    added to the log. *)
Theorem execute_returns_only_from_a_clean_reply self query variables s d s' :
  execute self query variables s = (Ok d, s') ->
  exists body,
    snd (post (world s) (request_of self query variables))
    = Response true (Some (PDict body))
    /\ has_key "errors" body = false
    /\ d = match lookup "data" body with Some x => x | None => PDict [] end
    /\ s' = {| world := fst (post (world s) (request_of self query variables));
               sent := (sent s ++ [request_of self query variables])%list |}.
Proof.
  unfold execute, requests_post. mrun.
  destruct (post (world s) (request_of self query variables)) as [w r].
  destruct r as [|status_ok body]; [discriminate|].
  mrun. unfold data_of_response.
  destruct status_ok; cbn [negb]; [|discriminate].
  destruct body as [result|]; [|discriminate].
  destruct result as [| | | |str|l|body]; cbn [py_in rbind]; try discriminate.
  - destruct (substring_of "errors" str); cbn [py_get py_getitem rbind];
      discriminate.
  - destruct (existsb (is_the_str "errors") l); cbn [py_get py_getitem rbind];
      discriminate.
  - destruct (has_key "errors" body) eqn:K.
    + cbn [py_getitem]. destruct (lookup "errors" body); discriminate.
    + cbn [py_get]. intros E. inversion E; subst. exists body. auto.
Qed.

(** X2.  Building a client asks once for the privacy setting.  When the
    first [me] object of the reply is a non-empty dict, the client keeps
    its [account_privacy_setting_id], or 1 when the key is missing; when
    it is the empty dict, the fallback [[{}]] is a list, which has no
    [get], and construction raises [AttributeError]. *)
Theorem init_reads_privacy_once token d s :
  let rq :=
    request_of {| endpoint := GRAPHQL_ENDPOINT;
                  authorization := "Bearer " ++ token;
                  privacy := PNone |} GetPrivacy PNone in
  snd (post (world s) rq)
  = Response true
      (Some (PDict [("data", PDict [("me", PList [PDict d])])])) ->
  fst (__init__ token s)
  = match d with
    | [] => Raise AttributeError
    | _ :: _ =>
        Ok {| endpoint := GRAPHQL_ENDPOINT;
              authorization := "Bearer " ++ token;
              privacy := match lookup "account_privacy_setting_id" d with
                         | Some p => p
                         | None => PInt 1
                         end |}
    end
  /\ sent (snd (__init__ token s)) = (sent s ++ [rq])%list.
Proof.
  intros rq H. unfold __init__, get_privacy, execute, requests_post. mrun.
  fold rq. destruct (post (world s) rq) as [w r]. cbn [snd] in H. subst r.
  mrun. cbn [data_of_response negb py_in has_key lookup String.eqb Ascii.eqb
             Bool.eqb rbind py_get].
  mrun. cbn [rbind py_get lookup String.eqb Ascii.eqb Bool.eqb py_index0].
  destruct d as [|kv d]; cbn [py_truthy py_get]; mrun; cbn [fst snd];
    split; reflexivity.
Qed.

(** X3.  [get_user_book] sends one request and takes the first user-book
    of the reply; a reply without user-books gives [None]. *)
Theorem get_user_book_takes_the_first self ids l s :
  snd (post (world s) (user_book_request self ids))
  = Response true (Some (json_of_user_books l)) ->
  get_user_book self ids s
  = (Ok (match l with
         | [] => PNone
         | b :: _ => json_of_user_book b
         end),
     {| world := fst (post (world s) (user_book_request self ids));
        sent := (sent s ++ [user_book_request self ids])%list |}).
Proof.
  intros H. unfold get_user_book, user_book_request in *.
  destruct (user_book_query ids) as [query variables]. cbn [fst snd] in *.
  unfold execute, requests_post. mrun.
  destruct (post (world s) (request_of self query variables)) as [w r].
  cbn [snd] in H. subst r. mrun.
  unfold json_of_user_books.
  cbn [data_of_response negb py_in has_key lookup String.eqb Ascii.eqb
       Bool.eqb rbind py_get].
  mrun.
  cbn [rbind py_get lookup String.eqb Ascii.eqb Bool.eqb py_index0
       py_next_iter py_iter fst].
  destruct l; reflexivity.
Qed.

(** ** Identifier sets *)

Lemma lookup_dict_set {A} k k' (v : A) d :
  lookup k (dict_set k' v d)
  = if String.eqb k k' then Some v else lookup k d.
Proof using Type.
  clear int_of_string json_loads py_repr get_language_name.
  induction d as [|[k0 v0] d IH]; cbn [dict_set lookup].
  - destruct (String.eqb k k'); reflexivity.
  - destruct (String.eqb k' k0) eqn:E0; cbn [lookup].
    + apply String.eqb_eq in E0. subst k0.
      destruct (String.eqb k k'); reflexivity.
    + rewrite IH. destruct (String.eqb k k0) eqn:E1; [|reflexivity].
      apply String.eqb_eq in E1. subst k0.
      rewrite String.eqb_sym, E0. reflexivity.
Qed.

Lemma lookup_in_keys {A} k (d : list (string * A)) :
  lookup k d = None <-> ~ In k (map fst d).
Proof using Type.
  clear int_of_string json_loads py_repr get_language_name.
  induction d as [|[k0 v0] d IH]; cbn [lookup map fst In].
  - tauto.
  - destruct (String.eqb k k0) eqn:E.
    + apply String.eqb_eq in E. subst. split; [discriminate | tauto].
    + apply String.eqb_neq in E. rewrite IH. intuition congruence.
Qed.

Lemma dict_set_fresh {A} k (v : A) d :
  ~ In k (map fst d) -> dict_set k v d = (d ++ [(k, v)])%list.
Proof using Type.
  clear int_of_string json_loads py_repr get_language_name.
  induction d as [|[k0 v0] d IH]; cbn [dict_set map fst In app]; intros N.
  - reflexivity.
  - destruct (String.eqb k k0) eqn:E.
    + apply String.eqb_eq in E. subst. tauto.
    + rewrite IH by tauto. reflexivity.
Qed.

Lemma dict_set_keys {A} k (v : A) d :
  map fst (dict_set k v d)
  = if has_key k d then map fst d else (map fst d ++ [k])%list.
Proof using Type.
  clear int_of_string json_loads py_repr get_language_name.
  unfold has_key.
  induction d as [|[k0 v0] d IH]; cbn [dict_set lookup map fst app].
  - reflexivity.
  - destruct (String.eqb k k0) eqn:E; cbn [map fst].
    + reflexivity.
    + rewrite IH. destruct (lookup k d); reflexivity.
Qed.

Lemma dict_set_shape k v ids :
  kept_kind k = true -> resolved_shape ids ->
  resolved_shape (dict_set k v ids).
Proof using Type.
  clear int_of_string json_loads py_repr get_language_name.
  intros K [N F]. split.
  - rewrite dict_set_keys. unfold has_key.
    destruct (lookup k ids) eqn:L; [exact N|].
    apply lookup_in_keys in L.
    apply NoDup_app; [exact N | repeat constructor; tauto |].
    intros x Hx [<- | []]. contradiction.
  - induction ids as [|[k0 v0] ids IH]; cbn [dict_set].
    + repeat constructor. exact K.
    + inversion F; subst. inversion N; subst.
      destruct (String.eqb k k0); constructor; auto.
Qed.

Lemma filter_identifiers_shape identifiers :
  resolved_shape (filter_identifiers identifiers).
Proof using Type.
  clear int_of_string json_loads py_repr get_language_name.
  assert (E : resolved_shape []) by (split; constructor).
  unfold filter_identifiers. destruct identifiers as [d | l].
  - revert E. generalize (@nil (string * pyval)) as acc.
    induction d as [|[t v] d IH]; intros acc E; cbn [fold_left fst snd].
    + exact E.
    + apply IH. destruct (kept_kind t) eqn:K; [|exact E].
      apply dict_set_shape; assumption.
  - revert E. generalize (@nil (string * pyval)) as acc.
    induction l as [|i l IH]; intros acc E; cbn [fold_left].
    + exact E.
    + apply IH. destruct (kept_kind (id_type i)) eqn:K; [|exact E].
      apply dict_set_shape; assumption.
Qed.

(** Filtering a set of that shape gives it back. *)
Lemma filter_identifiers_fixed ids :
  resolved_shape ids -> filter_identifiers (IdsDict ids) = ids.
Proof using Type.
  clear int_of_string json_loads py_repr get_language_name.
  intros [N F]. unfold filter_identifiers.
  assert (G : forall (d acc : list (string * pyval)),
             NoDup (map fst (acc ++ d)) ->
             Forall (fun kv => kept_kind (fst kv) = true) d ->
             fold_left (fun a tv => if kept_kind (fst tv)
                                    then dict_set (fst tv) (snd tv) a else a)
                       d acc
             = (acc ++ d)%list).
  { induction d as [|[t v] d IH]; intros acc Nd Fd; cbn [fold_left fst snd].
    - rewrite app_nil_r. reflexivity.
    - inversion Fd as [|x y K Fd']; subst. cbn [fst] in K. rewrite K.
      rewrite map_app in Nd. cbn [map fst] in Nd.
      pose proof (NoDup_remove_2 _ _ _ Nd) as Nk.
      rewrite dict_set_fresh by (intros I; apply Nk, in_or_app; auto).
      rewrite IH.
      + rewrite <- app_assoc. reflexivity.
      + rewrite <- app_assoc, map_app. exact Nd.
      + exact Fd'. }
  apply (G ids []); assumption.
Qed.

Lemma has_key_dict_set {A} k k' (v : A) d :
  has_key k (dict_set k' v d) = String.eqb k k' || has_key k d.
Proof using Type.
  clear int_of_string json_loads py_repr get_language_name.
  unfold has_key. rewrite lookup_dict_set.
  destruct (String.eqb k k'); reflexivity.
Qed.

(** What [parse_identifiers] returns has the shape, and holds
    ['hardcover-id'] unless there was no slug to resolve. *)
Lemma parse_identifiers_result self identifiers s out s1 :
  parse_identifiers self identifiers s = (Ok out, s1) ->
  resolved_shape out
  /\ (has_key "hardcover-id" out = true
      \/ (py_truthy (lookup_or_none "hardcover" out) = false /\ s1 = s)).
Proof.
  pose proof (filter_identifiers_shape identifiers) as W.
  unfold parse_identifiers.
  destruct (has_key "hardcover-id" (filter_identifiers identifiers)) eqn:K;
    cbn [negb].
  - mrun. intros E. inversion E; subst. auto.
  - destruct (py_truthy (lookup_or_none "hardcover"
                           (filter_identifiers identifiers))) eqn:T;
      cbn [negb].
    + mrun.
      destruct (get_book_id self _ _ s) as [[[book_id edition_id] | e] s'];
        [|discriminate].
      mrun. destruct (negb (is_None edition_id)); mrun;
        intros E; inversion E; subst; split.
      * repeat apply dict_set_shape; auto.
      * left. rewrite !has_key_dict_set. reflexivity.
      * apply dict_set_shape; auto.
      * left. rewrite has_key_dict_set. reflexivity.
    + mrun. intros E. inversion E; subst. auto.
Qed.

(** X4.  Resolution is a fixed point on its own results: given back what
    it returned, as [add_book] does, [parse_identifiers] returns the same
    set and sends nothing, in any state. *)
Theorem parse_identifiers_fixes_its_result self identifiers s out s1 :
  parse_identifiers self identifiers s = (Ok out, s1) ->
  forall s', parse_identifiers self (IdsDict out) s' = (Ok out, s').
Proof.
  intros H s'.
  destruct (parse_identifiers_result _ _ _ _ _ H) as [W [K | [T _]]];
    unfold parse_identifiers; rewrite (filter_identifiers_fixed out W).
  - rewrite K. reflexivity.
  - destruct (has_key "hardcover-id" out); [reflexivity|].
    cbn [negb]. rewrite T. reflexivity.
Qed.

(** X5.  From a sequence of identifier objects the filter keeps, for each
    kind that starts with ["hardcover"] or is ["isbn"], the value of the
    last object of that kind, and nothing for any other kind. *)
Theorem filter_identifiers_keeps_the_last_value kind l :
  lookup kind (filter_identifiers (IdsSeq l))
  = if kept_kind kind
    then option_map id_val
           (find (fun i => String.eqb (id_type i) kind) (rev l))
    else None.
Proof.
  unfold filter_identifiers.
  induction l as [|x l IH] using rev_ind.
  - cbn. destruct (kept_kind kind); reflexivity.
  - rewrite fold_left_app, rev_app_distr. cbn [fold_left rev app find].
    destruct (kept_kind (id_type x)) eqn:Kx.
    + rewrite lookup_dict_set, IH.
      rewrite (String.eqb_sym kind (id_type x)).
      destruct (String.eqb (id_type x) kind) eqn:E; [|reflexivity].
      apply String.eqb_eq in E. subst kind. rewrite Kx. reflexivity.
    + rewrite IH.
      destruct (String.eqb (id_type x) kind) eqn:E; [|reflexivity].
      apply String.eqb_eq in E. subst kind. rewrite Kx. reflexivity.
Qed.

(** ** Resolution and creation that cannot succeed *)

(** The slug lookup written out: the result as a function of the reply. *)
Lemma slug_resolution_reply self identifiers slug isbn s :
  let ids := filter_identifiers identifiers in
  has_key "hardcover-id" ids = false ->
  lookup "hardcover" ids = Some (PStr slug) ->
  slug <> "" ->
  lookup_or_none "isbn" ids = json_opt_str isbn ->
  parse_identifiers self identifiers s
  = (match snd (post (world s) (slug_request self slug isbn)) with
     | ConnectionFailed => Raise RequestException
     | Response status_ok body =>
         response <~ data_of_response (status_ok, body) ;;
         found <~ book_id_of_response response ;;
         Ok (if negb (is_None (snd found))
             then dict_set "hardcover-edition" (snd found)
                    (dict_set "hardcover-id" (fst found) ids)
             else dict_set "hardcover-id" (fst found) ids)
     end,
     {| world := fst (post (world s) (slug_request self slug isbn));
        sent := (sent s ++ [slug_request self slug isbn])%list |}).
Proof.
  intros ids Hid Hslug Hne Hisbn.
  assert (Hs : lookup_or_none "hardcover" ids = PStr slug).
  { unfold lookup_or_none. rewrite Hslug. reflexivity. }
  unfold parse_identifiers. fold ids. rewrite Hid. cbv zeta.
  rewrite Hs, Hisbn. cbn [negb py_truthy].
  replace (String.eqb slug "") with false
    by (symmetry; apply String.eqb_neq; exact Hne).
  cbn [negb]. unfold get_book_id. mrun.
  assert (Q : exists q v,
             book_id_query (PStr slug) (json_opt_str isbn) = Ok (q, v)
             /\ request_of self q v = slug_request self slug isbn).
  { unfold book_id_query, slug_request. destruct isbn as [i|].
    - cbn [json_opt_str py_truthy py_len].
      destruct (String.eqb i "") eqn:Ei.
      + apply String.eqb_eq in Ei. subst i. cbn. eauto.
      + cbn [negb rbind].
        destruct (str_len i =? 13); eauto.
    - cbn. eauto. }
  destruct Q as (q & v & Q & R). rewrite Q. mrun.
  unfold execute, requests_post. mrun. rewrite R.
  destruct (post (world s) (slug_request self slug isbn)) as [w r].
  cbn [fst snd]. destruct r as [|status_ok body]; [reflexivity|].
  mrun. destruct (data_of_response (status_ok, body)) as [response|e];
    [|reflexivity].
  mrun. cbn [rbind].
  destruct (book_id_of_response response) as [[book_id edition_id]|e];
    [|reflexivity].
  mrun. cbn [rbind fst snd].
  destruct (negb (is_None edition_id)); reflexivity.
Qed.

(** X6.  A slug the remote does not know ends the progress update with
    [ValueError]: the reply to the slug lookup lists no book, and after
    that one query nothing more is sent. *)
Theorem unknown_slug_fails_the_progress_update
    self identifiers progress_percent slug isbn s :
  let ids := filter_identifiers identifiers in
  has_key "hardcover-id" ids = false ->
  lookup "hardcover" ids = Some (PStr slug) ->
  slug <> "" ->
  lookup_or_none "isbn" ids = json_opt_str isbn ->
  snd (post (world s) (slug_request self slug isbn))
  = Response true (Some (PDict [("data", PDict [("books", PList [])])])) ->
  update_reading_progress self identifiers progress_percent s
  = (Raise ValueError,
     {| world := fst (post (world s) (slug_request self slug isbn));
        sent := (sent s ++ [slug_request self slug isbn])%list |}).
Proof.
  intros ids Hid Hslug Hne Hisbn Hreply.
  unfold update_reading_progress. rewrite bind_run.
  rewrite (slug_resolution_reply self identifiers slug isbn s
             Hid Hslug Hne Hisbn), Hreply.
  reflexivity.
Qed.

(** X7.  [add_book] for identifiers with neither ['hardcover-id'] nor a
    slug raises [TypeError] from [int(None)] and sends nothing. *)
Theorem add_book_without_book_id_raises self identifiers status s :
  has_key "hardcover-id" (filter_identifiers identifiers) = false ->
  has_key "hardcover" (filter_identifiers identifiers) = false ->
  add_book self identifiers status s = (Raise TypeError, s).
Proof.
  intros Hid Hslug. unfold add_book, parse_identifiers.
  rewrite Hid. cbn [negb]. unfold lookup_or_none at 1.
  unfold has_key in Hslug.
  destruct (lookup "hardcover" (filter_identifiers identifiers));
    [discriminate|].
  cbn [py_truthy negb]. mrun. unfold lookup_or_none at 1.
  unfold has_key in Hid.
  destruct (lookup "hardcover-id" (filter_identifiers identifiers));
    [discriminate|].
  reflexivity.
Qed.

(** X8.  [add_book] for identifiers that hold an integer ['hardcover-id']
    resolves nothing: its one request is the insertion, with that book
    id, the edition id (null when there is none, or when it is 0), the
    status asked for and the client's privacy setting. *)
Theorem add_book_sends_one_insertion
    self identifiers status book_id edition s :
  let ids := filter_identifiers identifiers in
  lookup "hardcover-id" ids = Some (PInt book_id) ->
  lookup_or_none "hardcover-edition" ids = json_opt_int edition ->
  sent (snd (add_book self identifiers status s))
  = (sent s ++
     [request_of self InsertUserBook
        (PDict [("object",
                 PDict [("book_id", PInt book_id);
                        ("edition_id",
                         match edition with
                         | Some e => if e =? 0 then PNone else PInt e
                         | None => PNone
                         end);
                        ("status_id", PInt status);
                        ("privacy_setting_id", privacy self)])])])%list.
Proof.
  intros ids Hid Hed. unfold add_book, parse_identifiers. fold ids.
  unfold has_key. rewrite Hid. cbn [negb]. mrun.
  unfold lookup_or_none at 1. rewrite Hid. cbn [py_int]. mrun.
  rewrite Hed.
  assert (E : (if py_truthy (json_opt_int edition)
               then e <~ py_int int_of_string (json_opt_int edition) ;;
                    Ok (PInt e)
               else Ok PNone)
              = Ok (match edition with
                    | Some e => if e =? 0 then PNone else PInt e
                    | None => PNone
                    end)).
  { destruct edition as [e|]; cbn [json_opt_int py_truthy py_int rbind];
      [destruct (e =? 0)|]; reflexivity. }
  rewrite E. mrun.
  match goal with
  | |- context [execute self ?q ?v s] =>
      pose proof (execute_sent self q v s) as X;
      destruct (execute self q v s) as [[response | e] s']
  end; cbn [snd] in X; mrun; cbn [snd]; exact X.
Qed.

(** ** Progress below 100, and books without a page count *)

(** ** The requests of a computation *)

Lemma appends_ret {A} (a : A) : appends (ret a).
Proof. intros s. exists []. rewrite ret_run, app_nil_r. reflexivity. Qed.

Lemma appends_lift {A} (r : res A) : appends (lift r).
Proof. intros s. exists []. rewrite lift_run, app_nil_r. reflexivity. Qed.

Lemma appends_date_today : appends date_today.
Proof. intros s. exists []. cbn. rewrite app_nil_r. reflexivity. Qed.

Lemma appends_execute self query variables :
  appends (execute self query variables).
Proof. intros s. eexists. apply execute_sent. Qed.

Lemma appends_bind {A B} (c : M (net World) A) (k : A -> M (net World) B) :
  appends c -> (forall a, appends (k a)) -> appends (bind c k).
Proof.
  intros Hc Hk s. rewrite bind_run. destruct (Hc s) as [l L].
  destruct (c s) as [[a|e] s1]; cbn [snd] in L.
  - destruct (Hk a s1) as [l' L']. exists (l ++ l')%list.
    rewrite L', L, app_assoc. reflexivity.
  - exists l. exact L.
Qed.

Ltac appends :=
  repeat first
    [ apply appends_ret | apply appends_lift | apply appends_date_today
    | apply appends_execute
    | apply appends_bind; [|intros ?]
    | match goal with
      | |- appends (if ?b then _ else _) => destruct b
      end ].

Lemma change_book_status_appends self book status :
  appends (change_book_status self book status).
Proof. unfold change_book_status. appends. Qed.

Lemma add_read_appends self book pages : appends (add_read self book pages).
Proof. unfold add_read. appends. Qed.

Lemma update_read_appends self book read pages_read progress_percent :
  appends (update_read self book read pages_read progress_percent).
Proof.
  unfold update_read. appends.
Qed.

Lemma sends_first_execute self query variables :
  sends_first (execute self query variables) (request_of self query variables).
Proof. intros s. exists []. apply execute_sent. Qed.

Lemma sends_first_bind {A B} (c : M (net World) A) (k : A -> M (net World) B)
    rq :
  sends_first c rq -> (forall a, appends (k a)) -> sends_first (bind c k) rq.
Proof.
  intros Hc Hk s. rewrite bind_run. destruct (Hc s) as [l L].
  destruct (c s) as [[a|e] s1]; cbn [snd] in L.
  - destruct (Hk a s1) as [l' L']. exists (l ++ l')%list.
    rewrite L', L, <- app_assoc. reflexivity.
  - exists l. exact L.
Qed.

Lemma sends_first_after_lift {A B} (r : res A) a (k : A -> M (net World) B)
    rq :
  r = Ok a -> sends_first (k a) rq -> sends_first (bind (lift r) k) rq.
Proof. intros -> H s. rewrite bind_run, lift_run. apply H. Qed.

(** A user-book that is not in Reading, below 100 percent: whatever the
    book is, the status change comes first, with the id the book has. *)
Lemma sync_changes_the_status_first self book progress_percent status_id id :
  py_get book "status_id" PNone = Ok status_id ->
  py_eq_int status_id 2 = false ->
  py_eq_int progress_percent 100 = false ->
  py_get book "id" PNone = Ok id ->
  sends_first (sync_user_book self book progress_percent)
    (request_of self UpdateUserBook
       (PDict [("id", id); ("status_id", PInt 2)])).
Proof.
  intros Hs H2 H100 Hid. unfold sync_user_book.
  apply (sends_first_after_lift _ status_id); [exact Hs|].
  rewrite H2, H100. cbn [negb andb].
  apply sends_first_bind.
  - apply sends_first_bind; [|intros b; appends].
    unfold change_book_status.
    apply (sends_first_after_lift _ id); [exact Hid|].
    apply sends_first_bind; [|intros response; appends].
    apply sends_first_execute.
  - intros b. appends.
Qed.

(** X9.  Below 100 percent a book that is not in Reading is first moved
    to Reading (2): whatever the remote answers, the status change for
    the book's id is the next request; and when the mutation answers with
    the user-book in Reading, what follows is done with that user-book, as
    if the call had started from it. *)
Theorem unfinished_book_is_moved_to_reading_first
    self b progress_percent s :
  py_eq_int progress_percent 100 = false ->
  ub_status_id b <> 2 ->
  (exists rest,
      sent (snd (sync_user_book self (json_of_user_book b)
                   progress_percent s))
      = (sent s
         ++ request_of self UpdateUserBook
              (PDict [("id", PInt (ub_id b)); ("status_id", PInt 2)])
            :: rest)%list)
  /\ forall b' s1,
       change_book_status self (json_of_user_book b) 2 s
       = (Ok (json_of_user_book b'), s1) ->
       ub_status_id b' = 2 ->
       sync_user_book self (json_of_user_book b) progress_percent s
       = sync_user_book self (json_of_user_book b') progress_percent s1.
Proof.
  intros P St. split.
  - apply (sync_changes_the_status_first self (json_of_user_book b)
             progress_percent (PInt (ub_status_id b)) (PInt (ub_id b)));
      try reflexivity; [|exact P].
    cbn [py_eq_int as_number]. apply Z.eqb_neq. exact St.
  - intros b' s1 C St'.
    unfold sync_user_book, json_of_user_book in *.
    mrun. cbn [py_get lookup String.eqb Ascii.eqb Bool.eqb].
    mrun. cbn [py_eq_int as_number]. rewrite P, St'.
    replace (ub_status_id b =? 2) with false
      by (symmetry; apply Z.eqb_neq; exact St).
    cbn [Z.eqb Pos.eqb negb andb]. mrun. rewrite C. mrun.
    cbn [log_title rbind py_get lookup String.eqb Ascii.eqb Bool.eqb].
    mrun. cbn [py_get lookup String.eqb Ascii.eqb Bool.eqb].
    mrun. rewrite ?St'. reflexivity.
Qed.

(** X10.  Without a page count (none, or zero) nothing is sent for a book
    that is in Reading or whose progress is 100: no read-session is
    written, and a finished book is not marked Read. *)
Theorem book_without_pages_gets_no_update self b progress_percent s :
  ub_pages b = None \/ ub_pages b = Some 0 ->
  ub_status_id b = 2 \/ py_eq_int progress_percent 100 = true ->
  sync_user_book self (json_of_user_book b) progress_percent s = (Ok tt, s).
Proof.
  intros Pg Q. unfold sync_user_book, json_of_user_book.
  mrun. cbn [py_get lookup String.eqb Ascii.eqb Bool.eqb].
  mrun. cbn [py_eq_int as_number].
  assert (F : negb (ub_status_id b =? 2)
              && negb (py_eq_int progress_percent 100) = false).
  { destruct Q as [-> | ->]; [reflexivity | apply Bool.andb_false_r]. }
  rewrite F. mrun.
  cbn [py_get lookup String.eqb Ascii.eqb Bool.eqb].
  mrun. cbn [py_eq_int as_number].
  destruct ((ub_status_id b =? 3) && py_eq_int progress_percent 100).
  - mrun. cbn [log_title rbind py_get lookup String.eqb Ascii.eqb Bool.eqb].
    mrun. reflexivity.
  - mrun. cbn [rbind py_get lookup String.eqb Ascii.eqb Bool.eqb].
    destruct Pg as [-> | ->]; reflexivity.
Qed.

(** X11.  Below 100 percent, for a book in Reading with a page count, the
    one request is the read-session write with the pages computed: an
    insertion that starts today when no session is open, otherwise an
    update of the open session that keeps its start date and has a null
    finish date.  No status change is sent. *)
Theorem progress_below_100_writes_the_session_only
    self b progress_percent pages pages_read s :
  py_eq_int progress_percent 100 = false ->
  ub_status_id b = 2 ->
  ub_pages b = Some pages ->
  pages <> 0 ->
  pages_read_of (PInt pages) progress_percent = Ok pages_read ->
  sent (snd (sync_user_book self (json_of_user_book b) progress_percent s))
  = (sent s ++
     [match ub_reads b with
      | [] =>
          request_of self InsertUserBookRead
            (PDict [("id", PInt (ub_id b));
                    ("editionId", if ub_edition_id b =? 0 then PNone
                                  else PInt (ub_edition_id b));
                    ("pages", PInt pages_read);
                    ("startedAt", PStr (today (world s)))])
      | r :: _ =>
          request_of self UpdateUserBookRead
            (PDict [("readId", PInt (read_id r));
                    ("pages", PInt pages_read);
                    ("editionId", PInt (ub_edition_id b));
                    ("startedAt", json_opt_str (read_started_at r));
                    ("finishedAt", PNone)])
      end])%list.
Proof.
  intros P St Pg Nz Pr. unfold sync_user_book, json_of_user_book.
  mrun. cbn [py_get lookup String.eqb Ascii.eqb Bool.eqb].
  mrun. cbn [py_eq_int as_number]. rewrite St. cbn [Z.eqb Pos.eqb negb andb].
  mrun. cbn [py_get lookup String.eqb Ascii.eqb Bool.eqb].
  mrun. cbn [py_eq_int as_number Z.eqb Pos.eqb andb].
  mrun. cbn [rbind py_get lookup String.eqb Ascii.eqb Bool.eqb].
  rewrite Pg. cbn [json_opt_int py_truthy].
  replace (pages =? 0) with false by (symmetry; apply Z.eqb_neq; exact Nz).
  cbn [negb]. mrun. rewrite Pr. mrun.
  cbn [rbind py_get lookup String.eqb Ascii.eqb Bool.eqb py_next_iter py_iter].
  destruct (ub_reads b) as [|r reads]; cbn [map py_truthy negb].
  - unfold add_read, date_today. mrun.
    cbn [rbind py_get lookup String.eqb Ascii.eqb Bool.eqb py_int py_truthy].
    destruct (ub_edition_id b =? 0); cbn [negb]; mrun;
      match goal with
      | |- context [execute self ?q ?v s] =>
          pose proof (execute_sent self q v s) as E;
          destruct (execute self q v s) as [[response | e] s3]
      end; cbn [snd] in E; mrun; try exact E.
    all: match goal with
         | |- context [match ?x with Ok _ => _ | Raise _ => _ end] =>
             destruct x
         end; exact E.
  - unfold update_read, date_today, json_of_read. cbn [py_truthy negb]. mrun.
    cbn [rbind py_get lookup String.eqb Ascii.eqb Bool.eqb py_int].
    mrun. cbn [rbind py_get lookup String.eqb Ascii.eqb Bool.eqb py_int].
    mrun. rewrite P. mrun.
    match goal with
    | |- context [execute self ?q ?v s] =>
        pose proof (execute_sent self q v s) as E;
        destruct (execute self q v s) as [[response | e] s3]
    end; cbn [snd] in E; mrun; cbn [log_title rbind py_get lookup String.eqb
      Ascii.eqb Bool.eqb]; mrun; exact E.
Qed.

(** * More of the metadata provider *)

(** ** Title hits *)

(** [_parse_title_result] yields a record exactly for a hit that is
    a dict whose ["document"] is a non-empty dict; a missing, empty or
    otherwise typed document gives [None].  The record's identifiers are
    its id under ['hardcover-id'] and the document's slug (or the empty
    string) under ['hardcover']. *)
Lemma title_hit_cases hit generic_cover locale :
  (well_formed_hit hit = true
   <-> exists r, _parse_title_result hit generic_cover locale = Some r)
  /\ forall r,
       _parse_title_result hit generic_cover locale = Some r ->
       mr_identifiers r
       = [("hardcover-id", mr_id r);
          ("hardcover", _safe_get hit ["document"; "slug"] (PStr ""))].
Proof.
  unfold _parse_title_result, well_formed_hit.
  destruct hit as [| | | | |l|h]; cbn [_safe_get py_truthy negb];
    try (split; [split; [discriminate | intros [r E]; discriminate]
                | intros r E; discriminate]).
  destruct (lookup "document" h) as [doc|] eqn:L;
    cbn [_safe_get py_truthy negb];
    [|split; [split; [discriminate | intros [r E]; discriminate]
             | intros r E; discriminate]].
  destruct (py_truthy doc) eqn:T; cbn [negb];
    [|split; [split; [destruct doc as [| | | | | |[|]]; discriminate
                     | intros [r E]; discriminate]
             | intros r E; discriminate]].
  unfold _parse_title_url. cbn [py_get]. rewrite L. cbn [rbind].
  destruct doc as [| | | | | |d]; cbn [py_get rbind];
    try (split; [split; [discriminate | intros [r E]; discriminate]
                | intros r E; discriminate]).
  destruct d as [|kv d]; [discriminate T|].
  match goal with
  | |- context [if py_truthy ?x then Ok _ else Ok _] =>
      destruct (py_truthy x)
  end; cbn [rbind].
  all: split; [split; [intros _; eexists; reflexivity | reflexivity]
              | intros r E; inversion E; subst r; reflexivity].
Qed.

(** X12.  [_parse_title_result] yields a record exactly for a hit that is
    a dict whose ["document"] is a non-empty dict; a missing, empty or
    otherwise typed document gives [None].  The record's identifiers are
    its id under ['hardcover-id'] and the document's slug (or the empty
    string) under ['hardcover']. *)
Theorem title_hit_maps_iff_document_is_a_dict hit generic_cover locale :
  (well_formed_hit hit = true
   <-> exists r, _parse_title_result hit generic_cover locale = Some r)
  /\ forall r,
       _parse_title_result hit generic_cover locale = Some r ->
       mr_identifiers r
       = [("hardcover-id", mr_id r);
          ("hardcover", _safe_get hit ["document"; "slug"] (PStr ""))].
Proof. apply title_hit_cases. Qed.

Lemma malformed_hit_is_skipped hit generic_cover locale :
  well_formed_hit hit = false ->
  _parse_title_result hit generic_cover locale = None.
Proof.
  intros W.
  destruct (_parse_title_result hit generic_cover locale) as [r|] eqn:E;
    [|reflexivity].
  destruct (title_hit_cases hit generic_cover locale)
    as [[_ B] _].
  rewrite B in W by eauto. discriminate.
Qed.

(** X13.  When the hits are where [search] looks for them, in a list under
    a further ["hits"] key, there is one record per well-formed hit, in the
    order of the hits; the other hits are skipped and take nothing with
    them. *)
Theorem title_batch_maps_each_well_formed_hit
    response_data inner hits generic_cover locale :
  _safe_get response_data ["data"; "search"; "results"; "hits"] (PList [])
  = PDict inner ->
  lookup "hits" inner = Some (PList hits) ->
  exists records,
    process_results false response_data generic_cover locale = Ok records
    /\ Forall2 (fun hit r =>
                  _parse_title_result hit generic_cover locale = Some r)
               (filter well_formed_hit hits) records.
Proof.
  intros Hraw Hhits. unfold process_results. rewrite Hraw.
  cbn [_safe_get]. rewrite Hhits. cbn [_safe_get py_iter rbind].
  eexists. split; [reflexivity|]. clear Hhits.
  induction hits as [|hit hits IH]; cbn [flat_map filter]; [constructor|].
  destruct (well_formed_hit hit) eqn:W.
  - destruct (title_hit_cases hit generic_cover locale) as [[A _] _].
    destruct (A W) as [r E]. rewrite E. cbn [app].
    constructor; [exact E | exact IH].
  - rewrite (malformed_hit_is_skipped hit generic_cover locale W).
    cbn [app]. exact IH.
Qed.

(** X14.  Hits delivered as a quoted JSON string are decoded first: when
    the string decodes to a dict the result is the one for that dict, and
    when it does not decode the result is empty. *)
Theorem title_hits_in_a_json_string_are_decoded
    response_data raw generic_cover locale :
  _safe_get response_data ["data"; "search"; "results"; "hits"] (PList [])
  = PStr raw ->
  process_results false response_data generic_cover locale
  = match json_loads raw with
    | Some (PDict inner) =>
        process_results false (json_of_search (PDict inner))
                        generic_cover locale
    | _ => Ok []
    end.
Proof.
  intros Hraw. unfold process_results. rewrite Hraw.
  destruct (json_loads raw) as [[| | | | | |inner]|]; reflexivity.
Qed.

(** ** Editions *)

Lemma for_each_ok {A B} (f : A -> res B) xs ys :
  for_each f xs = Ok ys -> Forall2 (fun x y => f x = Ok y) xs ys.
Proof.
  revert ys. induction xs as [|x xs IH]; intros ys H; cbn [for_each] in H.
  - inversion H. constructor.
  - destruct (f x) as [y|] eqn:Fx; cbn [rbind] in H; [|discriminate H].
    destruct (for_each f xs) as [ys'|]; cbn [rbind] in H; [|discriminate H].
    inversion H; subst. constructor; [exact Fx | apply IH; reflexivity].
Qed.

Lemma parse_edition_needs_a_dict result id generic_cover locale edition :
  is_dict edition = false ->
  parse_edition result id generic_cover locale edition = Raise AttributeError.
Proof.
  intros D. unfold parse_edition.
  destruct edition; try discriminate D; reflexivity.
Qed.

(** X15.  The edition search is all or nothing: one edition that is not a
    dict makes [_parse_edition_results] raise, and [search] answers with
    the empty list, whatever the other editions are. *)
Theorem one_malformed_edition_empties_the_edition_search
    book editions edition more generic_cover locale :
  lookup "editions" book = Some (PList editions) ->
  In edition editions ->
  is_dict edition = false ->
  (exists e,
      _parse_edition_results (PDict book) generic_cover locale = Raise e)
  /\ rcatch (process_results true (json_of_books (PDict book :: more))
                             generic_cover locale)
            (fun _ => Ok [])
     = Ok [].
Proof.
  intros L I D.
  assert (R : exists e,
             _parse_edition_results (PDict book) generic_cover locale
             = Raise e).
  { destruct (_parse_edition_results (PDict book) generic_cover locale)
      as [records|e] eqn:E; [|eauto].
    exfalso. unfold _parse_edition_results in E.
    cbn [py_get py_getitem rbind] in E. rewrite L in E.
    cbn [py_iter rbind] in E.
    apply for_each_ok in E.
    assert (X : exists r, parse_edition (PDict book)
                            (match lookup "id" book with
                             | Some x => x
                             | None => PStr ""
                             end) generic_cover locale edition = Ok r).
    { clear -E I. induction E as [|x y xs ys Hx E IH]; [destruct I|].
      destruct I as [<- | I]; eauto. }
    destruct X as [r X].
    rewrite parse_edition_needs_a_dict in X by exact D. discriminate X. }
  split; [exact R|].
  destruct R as [e R]. unfold process_results, json_of_books.
  cbn [_safe_get lookup String.eqb Ascii.eqb Bool.eqb py_truthy py_index0
       rbind].
  rewrite R. reflexivity.
Qed.

Lemma parse_edition_fields result id generic_cover locale edition r :
  parse_edition result id generic_cover locale edition = Ok r ->
  mr_id r = id
  /\ py_get result "description" (PStr "") = Ok (mr_description r)
  /\ mr_tags r = _parse_tags result (PList [])
  /\ lookup "hardcover-id" (mr_identifiers r) = Some id
  /\ Ok (lookup "hardcover" (mr_identifiers r))
     = (slug <~ py_get result "slug" (PStr "") ;; Ok (Some slug))
  /\ py_get edition "title" (PStr "") = Ok (mr_title r).
Proof.
  intros H. unfold parse_edition in H.
  repeat step_ok H.
  inversion H; subst r; clear H. cbn [mr_id mr_description mr_tags mr_title
                                      mr_identifiers].
  repeat split; try assumption; try reflexivity;
    match goal with
    | |- context [if py_truthy ?x then _ else _] => destruct (py_truthy x)
    end; reflexivity.
Qed.

(** X16.  When [_parse_edition_results] succeeds there is one record per
    edition, and every record carries the book's id (also under
    ['hardcover-id']), the book's description and the book's tags, while
    the title is the edition's own. *)
Theorem edition_records_carry_the_book_fields
    result generic_cover locale records :
  _parse_edition_results result generic_cover locale = Ok records ->
  exists id editions,
    py_get result "id" (PStr "") = Ok id
    /\ (es <~ py_getitem result "editions" ;; py_iter es) = Ok editions
    /\ Forall2
         (fun edition r =>
            mr_id r = id
            /\ lookup "hardcover-id" (mr_identifiers r) = Some id
            /\ py_get result "description" (PStr "") = Ok (mr_description r)
            /\ mr_tags r = _parse_tags result (PList [])
            /\ py_get edition "title" (PStr "") = Ok (mr_title r))
         editions records.
Proof.
  unfold _parse_edition_results. intros H.
  destruct (py_get result "id" (PStr "")) as [id|] eqn:Hid;
    cbn [rbind] in H; [|discriminate H].
  destruct (es <~ py_getitem result "editions" ;; py_iter es)
    as [editions|] eqn:He; cbn [rbind] in H; [|discriminate H].
  exists id, editions. repeat split.
  apply for_each_ok in H. clear He.
  induction H as [|edition r editions records Hr H IH]; [constructor|].
  constructor; [|exact IH].
  destruct (parse_edition_fields _ _ _ _ _ _ Hr) as (A & B & C & D & _ & G).
  auto.
Qed.

(** X17.  The ['isbn'] identifier of an edition record is the value under
    ["isbn_13"] whenever the edition has that key, and the empty string
    when that value is null or empty: ["isbn_10"] is used only for an
    edition without the key ["isbn_13"]. *)
Theorem edition_isbn_prefers_the_isbn_13_key
    result id generic_cover locale fields r :
  parse_edition result id generic_cover locale (PDict fields) = Ok r ->
  lookup "isbn" (mr_identifiers r)
  = Some (match lookup "isbn_13" fields with
          | Some isbn_13 => py_or isbn_13 (PStr "")
          | None =>
              match lookup "isbn_10" fields with
              | Some isbn_10 => py_or isbn_10 (PStr "")
              | None => PStr ""
              end
          end).
Proof.
  intros H. unfold parse_edition in H.
  repeat step_ok H.
  inversion H; subst r; clear H. cbn [mr_identifiers].
  repeat match goal with
         | E : py_get (PDict fields) _ _ = Ok _ |- _ =>
             cbn [py_get] in E; inversion E; clear E
         end.
  subst. unfold py_or.
  destruct (lookup "isbn_13" fields) as [i13|];
    [|destruct (lookup "isbn_10" fields) as [i10|]].
  all: match goal with
       | |- context [py_truthy ?x] => destruct (py_truthy x) eqn:T
       end; try discriminate T; reflexivity.
Qed.

(** X18.  [_parse_edition_authors] reads one name per contribution, in
    order; with no contribution, and whenever the edition has no list of
    contributions to read, it returns the fallback it was given. *)
Theorem edition_authors_are_read_in_order authors :
  (forall fields names,
      lookup "contributions" fields
      = Some (PList (map json_of_contribution names)) ->
      _parse_edition_authors (PDict fields) authors
      = match names with
        | [] => authors
        | _ :: _ => PList names
        end)
  /\ (forall edition,
         (forall l, py_get edition "contributions" (PList []) <> Ok (PList l)) ->
         _parse_edition_authors edition authors = authors).
Proof.
  split.
  - intros fields names L. unfold _parse_edition_authors.
    cbn [py_get]. rewrite L. clear L.
    assert (F : flat_map
                  (fun contrib =>
                     match contrib with
                     | PDict c =>
                         match lookup "author" c with
                         | Some (PDict author_data) =>
                             match lookup "name" author_data with
                             | Some name => [name]
                             | None => []
                             end
                         | _ => []
                         end
                     | _ => []
                     end)
                  (map json_of_contribution names) = names).
    { induction names as [|n names IH]; [reflexivity|].
      cbn [map flat_map]. rewrite IH. reflexivity. }
    rewrite F. destruct names; reflexivity.
  - intros edition N. unfold _parse_edition_authors.
    destruct (py_get edition "contributions" (PList [])) as [v|e];
      [|reflexivity].
    destruct v; try reflexivity. exfalso. exact (N l eq_refl).
Qed.


(** ** What [search] sends *)

Lemma request_results_state query s :
  let s' := snd (request_results query s) in
  world (pnet s') = world (pnet s) /\ sent (pnet s') = sent (pnet s)
  \/ token_given (resolve_token (world (pnet s))) = true
     /\ active s' = active s
     /\ exists rq,
          sent (pnet s') = (sent (pnet s) ++ [rq])%list
          /\ rq_url rq = BASE_URL
          /\ (rq_query rq = SEARCH_QUERY \/ rq_query rq = EDITION_QUERY).
Proof.
  unfold request_results, current_token. mrun.
  destruct (resolve_token (world (pnet s))) as [token|];
    [|left; split; reflexivity].
  destruct (String.eqb token "") eqn:Et; [left; split; reflexivity|].
  mrun.
  match goal with
  | |- context [match ?v with Ok _ => _ | Raise _ => _ end] =>
      destruct v as [variable|e]; [|left; split; reflexivity]
  end.
  mrun. right. cbn [token_given]. rewrite Et. split; [reflexivity|].
  unfold on_net, requests_post.
  match goal with
  | |- context [post (world (pnet s)) ?rq] =>
      assert (Q : rq_url rq = BASE_URL
                  /\ (rq_query rq = SEARCH_QUERY
                      \/ rq_query rq = EDITION_QUERY))
        by (cbn [rq_url rq_query]; split; [reflexivity|];
            destruct (String.eqb (hd "" (split_colon query)) "hardcover-id");
            auto);
      destruct (post (world (pnet s)) rq) as [w r]
  end.
  destruct r as [|status_ok body].
  - cbn [snd active pnet sent]. split; [reflexivity|]. eexists.
    split; [reflexivity | exact Q].
  - cbv beta iota. destruct status_ok; cbn [negb].
    + destruct body as [response_data|].
      * mrun.
        destruct (py_in "errors" response_data) as [[|]|]; mrun;
          try (cbn [snd active pnet sent]; split; [reflexivity|]; eexists;
               split; [reflexivity | exact Q]).
        destruct (py_in "data" response_data) as [[|]|]; mrun;
          cbn [negb snd active pnet sent]; (split; [reflexivity|]); eexists;
          (split; [reflexivity | exact Q]).
      * cbn [snd active pnet sent raise]. split; [reflexivity|]. eexists.
        split; [reflexivity | exact Q].
    + cbn [snd active pnet sent raise]. split; [reflexivity|]. eexists.
      split; [reflexivity | exact Q].
Qed.

Lemma request_results_active query s :
  active (snd (request_results query s))
  = active s && token_given (resolve_token (world (pnet s))).
Proof.
  unfold request_results, current_token. mrun.
  destruct (resolve_token (world (pnet s))) as [token|];
    [|cbn; rewrite Bool.andb_false_r; reflexivity].
  cbn [token_given].
  destruct (String.eqb token "") eqn:Et;
    [cbn; rewrite Bool.andb_false_r; reflexivity|].
  cbn [negb]. rewrite Bool.andb_true_r. mrun.
  match goal with
  | |- context [match ?v with Ok _ => _ | Raise _ => _ end] =>
      destruct v as [variable|e]; [|reflexivity]
  end.
  mrun. unfold on_net, requests_post.
  match goal with
  | |- context [post (world (pnet s)) ?rq] =>
      destruct (post (world (pnet s)) rq) as [w r]
  end.
  destruct r as [|[|] [response_data|]]; try reflexivity.
  cbv beta iota. cbn [negb]. mrun.
  destruct (py_in "errors" response_data) as [[|]|]; mrun; try reflexivity.
  destruct (py_in "data" response_data) as [[|]|]; mrun; reflexivity.
Qed.

Lemma search_state query generic_cover locale s :
  active s = true ->
  snd (search query generic_cover locale s) = snd (request_results query s).
Proof.
  intros A. unfold search, is_active. mrun. rewrite A. mrun. unfold catch.
  destruct (request_results query s) as [[[val|es rd]|e] s1]; mrun;
    reflexivity.
Qed.

(** X20.  One call to [search] posts at most one request, to [BASE_URL]
    and with one of the provider's two documents; afterwards the provider
    is active exactly when it was active before and a token was there, so
    a search never brings an inactive provider back. *)
Theorem search_posts_at_most_once_and_never_reactivates
    query generic_cover locale s :
  (sent (pnet (snd (search query generic_cover locale s))) = sent (pnet s)
   \/ exists rq,
        sent (pnet (snd (search query generic_cover locale s)))
        = (sent (pnet s) ++ [rq])%list
        /\ rq_url rq = BASE_URL
        /\ (rq_query rq = SEARCH_QUERY \/ rq_query rq = EDITION_QUERY))
  /\ active (snd (search query generic_cover locale s))
     = active s && token_given (resolve_token (world (pnet s))).
Proof.
  destruct (active s) eqn:A.
  - rewrite (search_state _ _ _ _ A).
    pose proof (request_results_active query s) as Act. rewrite A in Act.
    split; [|exact Act].
    destruct (request_results_state query s) as [[_ S] | (_ & _ & R)];
      [left; exact S | right; exact R].
  - rewrite (inactive_search _ _ _ _ A). cbn [snd]. rewrite A. auto.
Qed.

Lemma split_colon_free s :
  ~ In ":"%char (list_ascii_of_string s) -> split_colon s = [s].
Proof using Type.
  clear int_of_string json_loads py_repr get_language_name.
  induction s as [|c s IH]; cbn [split_colon list_ascii_of_string In];
    intros N; [reflexivity|].
  destruct (Ascii.eqb c ":") eqn:E.
  - apply Ascii.eqb_eq in E. subst c. tauto.
  - rewrite IH by tauto. reflexivity.
Qed.

(** What an active provider with a token posts, once the value of the
    ["query"] variable is known. *)
Lemma search_posts token query variable generic_cover locale s :
  active s = true ->
  resolve_token (world (pnet s)) = Some token ->
  token <> "" ->
  (if String.eqb (hd "" (split_colon query)) "hardcover-id"
   then nth_error (split_colon query) 1
   else Some query) = Some variable ->
  sent (pnet (snd (search query generic_cover locale s)))
  = (sent (pnet s) ++
     [search_request token
        (String.eqb (hd "" (split_colon query)) "hardcover-id")
        variable])%list.
Proof.
  intros A T Ne V. rewrite (search_state _ _ _ _ A).
  unfold request_results, current_token. mrun. rewrite T.
  replace (String.eqb token "") with false
    by (symmetry; apply String.eqb_neq; exact Ne).
  mrun.
  assert (V' : (if String.eqb (hd "" (split_colon query)) "hardcover-id"
                then match nth_error (split_colon query) 1 with
                     | Some x => Ok x
                     | None => Raise IndexError
                     end
                else Ok query) = Ok variable).
  { destruct (String.eqb (hd "" (split_colon query)) "hardcover-id");
      [rewrite V|]; inversion V; reflexivity. }
  rewrite V'. mrun. unfold on_net, requests_post. fold BASE_URL.
  match goal with
  | |- context [post (world (pnet s)) ?rq] =>
      change rq with
        (search_request token
           (String.eqb (hd "" (split_colon query)) "hardcover-id") variable);
      destruct (post (world (pnet s))
                  (search_request token
                     (String.eqb (hd "" (split_colon query)) "hardcover-id")
                     variable)) as [w r]
  end.
  destruct r as [|[|] [response_data|]]; try reflexivity.
  cbv beta iota. cbn [negb]. mrun.
  destruct (py_in "errors" response_data) as [[|]|]; mrun; try reflexivity.
  destruct (py_in "data" response_data) as [[|]|]; mrun; reflexivity.
Qed.

(** X21.  A query ["hardcover-id:"] followed by an id without a colon is
    an edition search: the one request carries [EDITION_QUERY] and the id
    as a string, numeric or not. *)
Theorem edition_query_sends_the_id_after_the_colon
    token id generic_cover locale s :
  active s = true ->
  resolve_token (world (pnet s)) = Some token ->
  token <> "" ->
  ~ In ":"%char (list_ascii_of_string id) ->
  sent (pnet (snd (search ("hardcover-id:" ++ id) generic_cover locale s)))
  = (sent (pnet s) ++ [search_request token true id])%list.
Proof.
  intros A T Ne Free.
  assert (S : split_colon ("hardcover-id:" ++ id) = ["hardcover-id"; id]).
  { cbn [append split_colon Ascii.eqb Bool.eqb].
    rewrite (split_colon_free id Free). reflexivity. }
  rewrite (search_posts token _ id generic_cover locale s A T Ne);
    rewrite S; reflexivity.
Qed.

(** X22.  Any query whose part before the first colon is not
    ["hardcover-id"] is a title search, sent whole, colons included. *)
Theorem other_queries_are_sent_whole_as_title_search
    token query generic_cover locale s :
  active s = true ->
  resolve_token (world (pnet s)) = Some token ->
  token <> "" ->
  hd "" (split_colon query) <> "hardcover-id" ->
  sent (pnet (snd (search query generic_cover locale s)))
  = (sent (pnet s) ++ [search_request token false query])%list.
Proof.
  intros A T Ne H.
  assert (E : String.eqb (hd "" (split_colon query)) "hardcover-id" = false)
    by (apply String.eqb_neq; exact H).
  rewrite (search_posts token query query generic_cover locale s A T Ne);
    rewrite E; reflexivity.
Qed.

Lemma replace_absent old t :
  substring_of old t = false -> replace_from old "" 0 t = t.
Proof using Type.
  clear int_of_string json_loads py_repr get_language_name.
  induction t as [|c t IH]; cbn [substring_of replace_from]; [reflexivity|].
  intros H. apply Bool.orb_false_iff in H. destruct H as [P S].
  rewrite P, (IH S). reflexivity.
Qed.

Lemma bearer_header key :
  substring_of "Bearer " key = false ->
  str_replace "Bearer " "" key = key
  /\ str_replace "Bearer " "" ("Bearer " ++ key) = key.
Proof.
  intros H. unfold str_replace.
  assert (R : replace_from "Bearer " "" 0 key = key)
    by (apply replace_absent; exact H).
  split; [exact R|].
  cbn [append replace_from String.prefix Ascii.eqb Bool.eqb String.length
       Nat.sub].
  assert (P : String.prefix "" key = true) by (destruct key; reflexivity).
  rewrite P. cbn [append]. exact R.
Qed.

(** X23.  The [Authorization] header does not double the prefix: whether
    the token is stored as a key or as ["Bearer "] followed by the key,
    the request [search] posts has the header ["Bearer "] followed by the
    key. *)
Theorem bearer_prefix_is_not_doubled
    token key query variable generic_cover locale s :
  active s = true ->
  resolve_token (world (pnet s)) = Some token ->
  token = key \/ token = "Bearer " ++ key ->
  key <> "" ->
  substring_of "Bearer " key = false ->
  (if String.eqb (hd "" (split_colon query)) "hardcover-id"
   then nth_error (split_colon query) 1
   else Some query) = Some variable ->
  sent (pnet (snd (search query generic_cover locale s)))
  = (sent (pnet s) ++
     [{| rq_url := BASE_URL;
         rq_authorization := "Bearer " ++ key;
         rq_query :=
           if String.eqb (hd "" (split_colon query)) "hardcover-id"
           then EDITION_QUERY else SEARCH_QUERY;
         rq_variables := PDict [("query", PStr variable)] |}])%list.
Proof.
  intros A T Form Ne Free V.
  destruct (bearer_header key Free) as [R R'].
  assert (Nt : token <> "").
  { destruct Form as [-> | ->]; [exact Ne | discriminate]. }
  rewrite (search_posts token query variable generic_cover locale s A T Nt V).
  unfold search_request. destruct Form as [-> | ->]; [rewrite R | rewrite R'];
    reflexivity.
Qed.

(** * Author lookups *)

Lemma lookup_dict_del {A} k (d : list (string * A)) :
  lookup k (dict_del k d) = None.
Proof using Type.
  clear int_of_string json_loads py_repr get_language_name.
  induction d as [|[k0 v0] d IH]; cbn [dict_del lookup]; [reflexivity|].
  destruct (String.eqb k k0) eqn:E; [exact IH|].
  cbn [lookup]. rewrite E. exact IH.
Qed.

Lemma still_fresh_total now timestamp :
  exists fresh, still_fresh now timestamp = Ok fresh.
Proof.
  unfold still_fresh.
  assert (T : exists t, float_of_Z _CACHE_TIMEOUT = Ok t)
    by (eexists; vm_compute; reflexivity).
  destruct T as [t ->]. cbn [rbind]. eauto.
Qed.

(** The head of the lookups: a fresh entry is served and nothing changes;
    otherwise the lookup goes on without an entry for the author. *)
Lemma authors_cache_head author s :
  (exists entry,
      lookup author (_AUTHORS_CACHE s) = Some entry
      /\ still_fresh (clock (aworld s)) (ce_timestamp entry) = Ok true
      /\ cached_or_evicted (_AUTHORS_CACHE s) set_authors_cache author s
         = (Ok (Some (ce_data entry)), s))
  \/ exists s0,
       cached_or_evicted (_AUTHORS_CACHE s) set_authors_cache author s
       = (Ok None, s0)
       /\ aworld s0 = aworld s /\ asked s0 = asked s
       /\ _AUTHORS_BOOKS_CACHE s0 = _AUTHORS_BOOKS_CACHE s
       /\ lookup author (_AUTHORS_CACHE s0) = None
       /\ (lookup author (_AUTHORS_CACHE s) = None -> s0 = s)
       /\ (forall entry,
              lookup author (_AUTHORS_CACHE s) = Some entry ->
              still_fresh (clock (aworld s)) (ce_timestamp entry)
              = Ok false).
Proof.
  unfold cached_or_evicted.
  destruct (lookup author (_AUTHORS_CACHE s)) as [entry|] eqn:L.
  - unfold time_time. mrun.
    destruct (still_fresh_total (clock (aworld s)) (ce_timestamp entry))
      as [[|] F]; rewrite F; mrun.
    + left. exists entry. auto.
    + right. unfold set_authors_cache. mrun. eexists.
      split; [reflexivity|]. cbn [aworld asked _AUTHORS_CACHE
                                  _AUTHORS_BOOKS_CACHE].
      repeat split; try reflexivity.
      * apply lookup_dict_del.
      * discriminate.
      * intros e E. inversion E; subst. exact F.
  - right. exists s. mrun. repeat split; try assumption; try reflexivity.
    discriminate.
Qed.

Lemma books_cache_head author s :
  (exists entry,
      lookup author (_AUTHORS_BOOKS_CACHE s) = Some entry
      /\ still_fresh (clock (aworld s)) (ce_timestamp entry) = Ok true
      /\ cached_or_evicted (_AUTHORS_BOOKS_CACHE s) set_books_cache author s
         = (Ok (Some (ce_data entry)), s))
  \/ exists s0,
       cached_or_evicted (_AUTHORS_BOOKS_CACHE s) set_books_cache author s
       = (Ok None, s0)
       /\ aworld s0 = aworld s /\ asked s0 = asked s
       /\ _AUTHORS_CACHE s0 = _AUTHORS_CACHE s
       /\ lookup author (_AUTHORS_BOOKS_CACHE s0) = None
       /\ (lookup author (_AUTHORS_BOOKS_CACHE s) = None -> s0 = s)
       /\ (forall entry,
              lookup author (_AUTHORS_BOOKS_CACHE s) = Some entry ->
              still_fresh (clock (aworld s)) (ce_timestamp entry)
              = Ok false).
Proof.
  unfold cached_or_evicted.
  destruct (lookup author (_AUTHORS_BOOKS_CACHE s)) as [entry|] eqn:L.
  - unfold time_time. mrun.
    destruct (still_fresh_total (clock (aworld s)) (ce_timestamp entry))
      as [[|] F]; rewrite F; mrun.
    + left. exists entry. auto.
    + right. unfold set_books_cache. mrun. eexists.
      split; [reflexivity|]. cbn [aworld asked _AUTHORS_CACHE
                                  _AUTHORS_BOOKS_CACHE].
      repeat split; try reflexivity.
      * apply lookup_dict_del.
      * discriminate.
      * intros e E. inversion E; subst. exact F.
  - right. exists s. mrun. repeat split; try assumption; try reflexivity.
    discriminate.
Qed.

(** A fresh entry is served as it is. *)
Lemma get_author_info_hit self author entry s :
  lookup author (_AUTHORS_CACHE s) = Some entry ->
  still_fresh (clock (aworld s)) (ce_timestamp entry) = Ok true ->
  get_author_info self author s = (Ok (ce_data entry), s).
Proof.
  intros L F. unfold get_author_info. mrun.
  unfold cached_or_evicted, time_time. rewrite L. mrun. rewrite F. mrun.
  reflexivity.
Qed.

(** The lookup proper, once the head has found nothing to serve. *)
Lemma get_author_info_fetch self author s s0 :
  cached_or_evicted (_AUTHORS_CACHE s) set_authors_cache author s
  = (Ok None, s0) ->
  get_author_info self author s
  = (let (w, r) := post_author (aworld s0)
                     (author_request_of self GetAuthorInfo author) in
     let s1 := {| aworld := w;
                  asked := asked s0
                           ++ [author_request_of self GetAuthorInfo author];
                  _AUTHORS_CACHE := _AUTHORS_CACHE s0;
                  _AUTHORS_BOOKS_CACHE := _AUTHORS_BOOKS_CACHE s0 |} in
     match (match r with
            | ConnectionFailed => Raise RequestException
            | Response status_ok body =>
                response <~ data_of_response (status_ok, body) ;;
                found <~ py_get response "authors" PNone ;;
                py_next_iter found
            end) with
     | Ok author_info =>
         (Ok author_info,
          if py_truthy author_info
          then {| aworld := w;
                  asked := asked s1;
                  _AUTHORS_CACHE :=
                    dict_set author
                      {| ce_data := author_info; ce_timestamp := clock w |}
                      (_AUTHORS_CACHE s0);
                  _AUTHORS_BOOKS_CACHE := _AUTHORS_BOOKS_CACHE s0 |}
          else s1)
     | Raise e => (Raise e, s1)
     end).
Proof.
  intros H. unfold get_author_info. mrun. rewrite H. mrun.
  unfold execute_author.
  destruct (post_author (aworld s0)
              (author_request_of self GetAuthorInfo author)) as [w r].
  cbv beta iota zeta. destruct r as [|status_ok body]; [reflexivity|].
  destruct (data_of_response (status_ok, body)) as [response|e];
    [|reflexivity].
  mrun. cbn [rbind].
  destruct (found <~ py_get response "authors" PNone ;; py_next_iter found)
    as [author_info|e]; [|reflexivity].
  mrun. destruct (py_truthy author_info); unfold time_time,
    set_authors_cache; mrun; reflexivity.
Qed.

(** X24.  An author that was found is cached: after a call that returned
    a non-empty result the cache holds that result, and any later call
    made while the entry is fresh returns it without a request and
    without touching the state. *)
Theorem found_author_is_served_from_the_cache self author s info s1 :
  get_author_info self author s = (Ok info, s1) ->
  py_truthy info = true ->
  exists timestamp,
    lookup author (_AUTHORS_CACHE s1)
    = Some {| ce_data := info; ce_timestamp := timestamp |}
    /\ forall s2,
         lookup author (_AUTHORS_CACHE s2)
         = Some {| ce_data := info; ce_timestamp := timestamp |} ->
         still_fresh (clock (aworld s2)) timestamp = Ok true ->
         get_author_info self author s2 = (Ok info, s2).
Proof.
  intros H T.
  assert (Serve : forall timestamp s2,
             lookup author (_AUTHORS_CACHE s2)
             = Some {| ce_data := info; ce_timestamp := timestamp |} ->
             still_fresh (clock (aworld s2)) timestamp = Ok true ->
             get_author_info self author s2 = (Ok info, s2)).
  { intros timestamp s2 L F.
    exact (get_author_info_hit self author
             {| ce_data := info; ce_timestamp := timestamp |} s2 L F). }
  destruct (authors_cache_head author s)
    as [(entry & L & F & _) | (s0 & C & _)].
  - rewrite (get_author_info_hit self author entry s L F) in H.
    inversion H; subst. exists (ce_timestamp entry).
    split; [|apply Serve]. rewrite L. destruct entry; reflexivity.
  - rewrite (get_author_info_fetch self author s s0 C) in H.
    destruct (post_author (aworld s0)
                (author_request_of self GetAuthorInfo author)) as [w r].
    cbv zeta in H.
    match type of H with
    | match ?x with Ok _ => _ | Raise _ => _ end = _ =>
        destruct x as [author_info|e]; [|discriminate H]
    end.
    inversion H; subst. rewrite T. exists (clock w).
    split; [|apply Serve]. cbn [_AUTHORS_CACHE].
    rewrite lookup_dict_set, String.eqb_refl. reflexivity.
Qed.

Lemma dict_del_absent {A} k (d : list (string * A)) :
  lookup k d = None -> dict_del k d = d.
Proof using Type.
  clear int_of_string json_loads py_repr get_language_name.
  induction d as [|[k0 v0] d IH]; cbn [dict_del lookup]; [reflexivity|].
  destruct (String.eqb k k0); [discriminate|].
  intros L. rewrite (IH L). reflexivity.
Qed.

(** Without a fresh entry the head of [get_author_info] serves nothing,
    and leaves the cache without any entry for the author. *)
Lemma authors_cache_miss author s :
  (forall entry,
      lookup author (_AUTHORS_CACHE s) = Some entry ->
      still_fresh (clock (aworld s)) (ce_timestamp entry) = Ok false) ->
  cached_or_evicted (_AUTHORS_CACHE s) set_authors_cache author s
  = (Ok None,
     {| aworld := aworld s;
        asked := asked s;
        _AUTHORS_CACHE := dict_del author (_AUTHORS_CACHE s);
        _AUTHORS_BOOKS_CACHE := _AUTHORS_BOOKS_CACHE s |}).
Proof.
  intros Stale. unfold cached_or_evicted.
  destruct (lookup author (_AUTHORS_CACHE s)) as [entry|] eqn:L.
  - unfold time_time. mrun. rewrite (Stale entry eq_refl). mrun.
    unfold set_authors_cache. mrun. reflexivity.
  - rewrite (dict_del_absent _ _ L). destruct s. reflexivity.
Qed.

(** X25.  An author the remote does not know is not cached: a call that
    finds no fresh entry for the author posts its one request and returns
    [None], and afterwards the authors cache is the one before without
    the author's entry (the stale one, if there was one, is deleted); the
    books cache is as it was. *)
Theorem unknown_author_is_not_cached self author s :
  (forall entry,
      lookup author (_AUTHORS_CACHE s) = Some entry ->
      still_fresh (clock (aworld s)) (ce_timestamp entry) = Ok false) ->
  snd (post_author (aworld s) (author_request_of self GetAuthorInfo author))
  = Response true (Some (json_of_authors [])) ->
  get_author_info self author s
  = (Ok PNone,
     {| aworld := fst (post_author (aworld s)
                         (author_request_of self GetAuthorInfo author));
        asked := asked s ++ [author_request_of self GetAuthorInfo author];
        _AUTHORS_CACHE := dict_del author (_AUTHORS_CACHE s);
        _AUTHORS_BOOKS_CACHE := _AUTHORS_BOOKS_CACHE s |}).
Proof.
  intros Stale R.
  rewrite (get_author_info_fetch self author s _
             (authors_cache_miss author s Stale)).
  cbn [aworld asked _AUTHORS_CACHE _AUTHORS_BOOKS_CACHE].
  destruct (post_author (aworld s)
              (author_request_of self GetAuthorInfo author)) as [w r].
  cbn [snd] in R. subst r. reflexivity.
Qed.

(** X26.  An entry past its time is not served: the call deletes it and
    posts one request, and afterwards the cache has either no entry for
    the author or the result of this call, stamped with the time of the
    store. *)
Theorem stale_author_entry_is_replaced self author entry s :
  lookup author (_AUTHORS_CACHE s) = Some entry ->
  still_fresh (clock (aworld s)) (ce_timestamp entry) = Ok false ->
  asked (snd (get_author_info self author s))
  = (asked s ++ [author_request_of self GetAuthorInfo author])%list
  /\ (lookup author (_AUTHORS_CACHE (snd (get_author_info self author s)))
      = None
      \/ exists info,
           fst (get_author_info self author s) = Ok info
           /\ lookup author
                (_AUTHORS_CACHE (snd (get_author_info self author s)))
              = Some {| ce_data := info;
                        ce_timestamp :=
                          clock (aworld (snd (get_author_info self author
                                                s))) |}).
Proof.
  intros L F.
  destruct (authors_cache_head author s)
    as [(entry' & L' & F' & _) | (s0 & C & W & A & _ & N & _)].
  - rewrite L in L'. inversion L'; subst. rewrite F in F'. discriminate.
  - rewrite (get_author_info_fetch self author s s0 C).
    destruct (post_author (aworld s0)
                (author_request_of self GetAuthorInfo author)) as [w r].
    cbv zeta.
    match goal with
    | |- context [match ?x with Ok _ => _ | Raise _ => _ end] =>
        destruct x as [author_info|e]
    end.
    + destruct (py_truthy author_info); cbn [fst snd asked _AUTHORS_CACHE
                                             aworld]; rewrite A.
      * split; [reflexivity|]. right. exists author_info.
        split; [reflexivity|].
        rewrite lookup_dict_set, String.eqb_refl. reflexivity.
      * split; [reflexivity|]. left. exact N.
    + cbn [fst snd asked _AUTHORS_CACHE aworld]. rewrite A.
      split; [reflexivity|]. left. exact N.
Qed.

Lemma get_other_author_books_hit self author library_books entry s :
  lookup author (_AUTHORS_BOOKS_CACHE s) = Some entry ->
  still_fresh (clock (aworld s)) (ce_timestamp entry) = Ok true ->
  get_other_author_books self author library_books s
  = (Ok (ce_data entry), s).
Proof.
  intros L F. unfold get_other_author_books. mrun.
  unfold cached_or_evicted, time_time. rewrite L. mrun. rewrite F. mrun.
  reflexivity.
Qed.

(** What a lookup that reaches the remote returns: nothing is stored when
    the reply names no author, and otherwise the books kept by
    [other_books] are both stored and returned. *)
Lemma get_other_author_books_fetch self author library_books s s0 result s1 :
  cached_or_evicted (_AUTHORS_BOOKS_CACHE s) set_books_cache author s
  = (Ok None, s0) ->
  get_other_author_books self author library_books s = (Ok result, s1) ->
  (result = PList [] /\ _AUTHORS_BOOKS_CACHE s1 = _AUTHORS_BOOKS_CACHE s0)
  \/ exists contributions books,
       other_books library_books contributions = Ok books
       /\ result = PList books
       /\ _AUTHORS_BOOKS_CACHE s1
          = dict_set author
              {| ce_data := PList books;
                 ce_timestamp := clock (aworld s1) |}
              (_AUTHORS_BOOKS_CACHE s0).
Proof.
  intros C. unfold get_other_author_books. mrun. rewrite C. mrun.
  unfold execute_author.
  destruct (post_author (aworld s0)
              (author_request_of self OtherBooksFromAuthor author)) as [w r].
  cbv beta iota zeta. destruct r as [|status_ok body]; [discriminate|].
  destruct (data_of_response (status_ok, body)) as [response|e];
    [|discriminate].
  mrun.
  destruct (py_get response "authors" (PList [])) as [author_res|e];
    [|discriminate].
  mrun. destruct (py_truthy author_res); cbn [negb]; mrun.
  - destruct (py_index0 author_res) as [first|e]; cbn [rbind];
      [|discriminate].
    destruct (py_get first "contributions" (PList [])) as [cs|e];
      cbn [rbind]; [|discriminate].
    destruct (py_iter cs) as [contributions|e]; cbn [rbind]; [|discriminate].
    destruct (other_books library_books contributions) as [books|e] eqn:O;
      [|discriminate].
    unfold time_time, set_books_cache. mrun.
    intros E. inversion E; subst. right. exists contributions, books.
    cbn [_AUTHORS_BOOKS_CACHE aworld]. auto.
  - intros E. inversion E; subst. left. auto.
Qed.

Lemma other_books_kept library_books contributions books :
  other_books library_books contributions = Ok books ->
  Forall
    (fun book =>
       exists slug,
         py_get book "slug" PNone = Ok slug
         /\ py_truthy slug = true
         /\ forall owned, In owned library_books -> slug <> PStr owned)
    books.
Proof.
  revert books.
  induction contributions as [|c cs IH]; intros books H;
    cbn [other_books] in H.
  - inversion H. constructor.
  - destruct (py_get c "book" (PDict [])) as [book|]; cbn [rbind] in H;
      [|discriminate H].
    destruct (py_get book "slug" PNone) as [slug|] eqn:S; cbn [rbind] in H;
      [|discriminate H].
    destruct (other_books library_books cs) as [rest|]; cbn [rbind] in H;
      [|discriminate H].
    specialize (IH rest eq_refl).
    destruct (py_truthy slug) eqn:T; cbn [andb] in H.
    + destruct (existsb (fun owned => is_the_str owned slug) library_books)
        eqn:X; cbn [negb] in H; inversion H; subst; [exact IH|].
      constructor; [|exact IH].
      exists slug. repeat split; try assumption.
      intros owned I ->.
      assert (Y : existsb (fun owned0 => is_the_str owned0 (PStr owned))
                    library_books = true).
      { apply existsb_exists. exists owned. split; [exact I|].
        cbn [is_the_str]. apply String.eqb_refl. }
      rewrite Y in X. discriminate X.
    + inversion H; subst. exact IH.
Qed.

(** X27.  A lookup of an author's other books that is not answered from
    the cache, because there is no entry for the author or the entry is
    past its time, returns only books that have a slug, and none whose
    slug is in the caller's [library_books]. *)
Theorem other_author_books_leave_out_the_library
    self author library_books s result s1 :
  (forall entry,
      lookup author (_AUTHORS_BOOKS_CACHE s) = Some entry ->
      still_fresh (clock (aworld s)) (ce_timestamp entry) = Ok false) ->
  get_other_author_books self author library_books s = (Ok result, s1) ->
  exists books,
    result = PList books
    /\ Forall
         (fun book =>
            exists slug,
              py_get book "slug" PNone = Ok slug
              /\ py_truthy slug = true
              /\ forall owned, In owned library_books -> slug <> PStr owned)
         books.
Proof.
  intros Stale H.
  destruct (books_cache_head author s)
    as [(entry & L & F & _) | (s0 & C & _)].
  - rewrite (Stale entry L) in F. discriminate F.
  - destruct (get_other_author_books_fetch _ _ _ _ _ _ _ C H)
      as [[-> _] | (contributions & books & O & -> & _)].
    + exists []. split; [reflexivity | constructor].
    + exists books. split; [reflexivity|].
      exact (other_books_kept _ _ _ O).
Qed.

(** X28.  The books cache is keyed by the author alone: once a call has
    left an entry for the author, that entry holds what the call
    returned, and while it is fresh every call returns the same list,
    whatever [library_books] it is given. *)
Theorem other_author_books_cache_ignores_the_library
    self author library_books s result s1 entry :
  get_other_author_books self author library_books s = (Ok result, s1) ->
  lookup author (_AUTHORS_BOOKS_CACHE s1) = Some entry ->
  ce_data entry = result
  /\ forall library_books' s2,
       lookup author (_AUTHORS_BOOKS_CACHE s2) = Some entry ->
       still_fresh (clock (aworld s2)) (ce_timestamp entry) = Ok true ->
       get_other_author_books self author library_books' s2
       = (Ok result, s2).
Proof.
  intros H L.
  assert (D : ce_data entry = result).
  { destruct (books_cache_head author s)
      as [(entry' & L' & F' & _) | (s0 & C & _ & _ & _ & N & _)].
    - rewrite (get_other_author_books_hit _ _ _ entry' s L' F') in H.
      inversion H; subst. rewrite L in L'. inversion L'. reflexivity.
    - destruct (get_other_author_books_fetch _ _ _ _ _ _ _ C H)
        as [[_ E] | (contributions & books & _ & -> & E)];
        rewrite E in L.
      + rewrite N in L. discriminate L.
      + rewrite lookup_dict_set, String.eqb_refl in L.
        inversion L. reflexivity. }
  split; [exact D|].
  intros library_books' s2 L2 F2. rewrite <- D.
  exact (get_other_author_books_hit _ _ _ entry s2 L2 F2).
Qed.

Lemma get_existing_slugs_holds entries entry ids identifier :
  In entry entries ->
  book_identifiers (book_of entry) = Some ids ->
  In identifier ids ->
  id_type identifier = "hardcover" ->
  In (id_val identifier) (get_existing_slugs entries).
Proof.
  intros Ie Hb Ii Ht. unfold get_existing_slugs.
  apply in_flat_map. exists entry. split; [exact Ie|].
  rewrite Hb. apply in_flat_map. exists identifier. split; [exact Ii|].
  rewrite Ht. cbn. auto.
Qed.

(** X29.  With the library's slugs taken by [get_existing_slugs], a book
    the library holds under an identifier of type ['hardcover'] is never
    among the other books fetched for an author, be it with no entry in
    the cache or after an entry past its time. *)
Theorem owned_titles_are_not_offered
    self author library_books entries entry ids slug s result s1 :
  get_existing_slugs entries = map PStr library_books ->
  In entry entries ->
  book_identifiers (book_of entry) = Some ids ->
  In {| id_type := "hardcover"; id_val := PStr slug |} ids ->
  (forall cached,
      lookup author (_AUTHORS_BOOKS_CACHE s) = Some cached ->
      still_fresh (clock (aworld s)) (ce_timestamp cached) = Ok false) ->
  get_other_author_books self author library_books s = (Ok result, s1) ->
  exists books,
    result = PList books
    /\ forall book,
         In book books -> py_get book "slug" PNone <> Ok (PStr slug).
Proof.
  intros G Ie Hb Ii Stale H.
  assert (Own : In slug library_books).
  { pose proof (get_existing_slugs_holds entries entry ids _ Ie Hb Ii eq_refl)
      as X.
    cbn [id_val] in X. rewrite G in X. apply in_map_iff in X.
    destruct X as (owned & E & I). inversion E; subst. exact I. }
  destruct (books_cache_head author s)
    as [(cached & L & F & _) | (s0 & C & _)].
  - rewrite (Stale cached L) in F. discriminate F.
  - destruct (get_other_author_books_fetch _ _ _ _ _ _ _ C H)
      as [[-> _] | (contributions & books & O & -> & _)].
    + exists []. split; [reflexivity|]. intros book [].
    + exists books. split; [reflexivity|]. intros book Ib Hs.
      pose proof (other_books_kept _ _ _ O) as K.
      rewrite Forall_forall in K.
      destruct (K book Ib) as (slug' & S & _ & N).
      rewrite Hs in S. inversion S; subst.
      exact (N slug Own eq_refl).
Qed.

(** ** Characters of a string *)

(** Splitting a string into its characters loses and adds no byte. *)
Lemma code_points_keep_the_bytes s : String.concat "" (code_points s) = s.
Proof using Type.
  clear int_of_string json_loads py_repr get_language_name.
  induction s as [|c s IH]; [reflexivity|].
  cbn [code_points]. destruct (code_points s) as [|p ps].
  - cbn in IH. subst s. reflexivity.
  - destruct (begins_inside s).
    + destruct ps as [|q qs]; cbn in IH |- *; rewrite IH; reflexivity.
    + cbn in IH |- *. rewrite IH. reflexivity.
Qed.

(** A string of one-byte characters has as many characters as bytes. *)
Lemma str_len_of_ascii s :
  forallb (fun c => negb (is_continuation c)) (list_ascii_of_string s) = true ->
  str_len s = Z.of_nat (String.length s).
Proof using Type.
  clear int_of_string json_loads py_repr get_language_name.
  unfold str_len. intros H. f_equal.
  induction s as [|c s IH]; [reflexivity|].
  cbn [list_ascii_of_string forallb] in H.
  apply andb_prop in H. destruct H as [_ H].
  specialize (IH H). cbn [code_points String.length].
  destruct (code_points s) as [|p ps] eqn:E.
  - rewrite <- IH. reflexivity.
  - destruct s as [|c' s']; [discriminate E|].
    cbn [list_ascii_of_string forallb] in H.
    apply andb_prop in H. destruct H as [H _].
    cbn [begins_inside]. destruct (is_continuation c'); [discriminate H|].
    cbn [List.length]. rewrite <- IH. reflexivity.
Qed.

(** ** What a failed creation is followed by *)

(** C2.  The claim fails on the code.  When no user-book exists and the
    reply to the creation has no user-book at all, [add_book] returns the
    empty dict of its [get] defaults, not [None]: the guard of line 122
    lets it through, and below 100 percent the next request is a status
    change for a user-book without an id. *)
Theorem creation_without_user_book_is_followed_by_a_status_change
    self identifiers progress_percent s ids s1 nothing s2 s3 :
  parse_identifiers self identifiers s = (Ok ids, s1) ->
  ids <> [] ->
  get_user_book self ids s1 = (Ok nothing, s2) ->
  py_truthy nothing = false ->
  add_book self (IdsDict ids) 2 s2 = (Ok (PDict []), s3) ->
  py_eq_int progress_percent 100 = false ->
  exists rest,
    sent (snd (update_reading_progress self identifiers progress_percent s))
    = (sent s3
       ++ request_of self UpdateUserBook
            (PDict [("id", PNone); ("status_id", PInt 2)]) :: rest)%list.
Proof.
  intros Hp Hne Hg Hn Ha H100.
  assert (R : update_reading_progress self identifiers progress_percent s
              = sync_user_book self (PDict []) progress_percent s3).
  { unfold update_reading_progress. rewrite bind_run, Hp.
    destruct ids as [|kv ids]; [congruence|].
    cbn [List.length]. rewrite Nat2Z.inj_succ.
    replace (Z.succ (Z.of_nat (List.length ids)) =? 0) with false
      by (symmetry; apply Z.eqb_neq; lia).
    cbn [negb]. rewrite bind_run, Hg, Hn. cbn [negb].
    rewrite !bind_run, Ha. reflexivity. }
  rewrite R.
  apply (sync_changes_the_status_first self (PDict []) progress_percent
           PNone PNone); try reflexivity.
  exact H100.
Qed.

End Remote.

(** * The model at work on a scripted remote *)

(** The amended C1 at identifiers of foreign kinds only: nothing is left
    after filtering, and nothing is sent. *)
Lemma unresolved_identifiers_witness :
  parse_identifiers script scripted_post a_client foreign_only (start [accepted])
  = (Ok [], start [accepted])
  /\ update_reading_progress script scripted_post fixed_today no_int_of_string
       a_client foreign_only (PInt 50) (start [accepted])
     = (Ok tt, start [accepted]).
Proof.
  destruct (unresolved_identifiers_are_returned_without_request
              script scripted_post fixed_today no_int_of_string
              a_client foreign_only (start [accepted]) eq_refl eq_refl)
    as [P U].
  split; [exact P | exact (U eq_refl (PInt 50))].
Defined.

(** C1 as stated fails: identifiers that hold an edition id, but neither
    ['hardcover-id'] nor a slug, reach the remote.  The user-book is
    looked up by the edition and its read-session is updated. *)
Lemma edition_only_identifiers_reach_the_remote :
  has_key "hardcover-id" (filter_identifiers by_edition) = false
  /\ has_key "hardcover" (filter_identifiers by_edition) = false
  /\ map rq_query
       (sent (snd (update_reading_progress script scripted_post fixed_today
                     no_int_of_string a_client by_edition (PInt 50)
                     (start [ok_body (json_of_user_books [dune_reading]);
                             accepted]))))
     = [UserBookByEdition; UpdateUserBookRead].
Proof. repeat split; vm_compute; reflexivity. Qed.

(** With an ISBN alone, [get_user_book] has no query to send and posts the
    bare fragment. *)
Lemma isbn_only_identifiers_send_the_bare_fragment :
  map rq_query
    (sent (snd (update_reading_progress script scripted_post fixed_today
                  no_int_of_string a_client by_isbn (PInt 50)
                  (start [ok_body (PDict [("errors", PList [PStr "no operation"])])]))))
  = [UserBookFragmentOnly].
Proof. vm_compute. reflexivity. Qed.

(** A remote that knows no user-book and answers the creation with a null
    user-book. *)
Lemma failed_creation_witness :
  update_reading_progress script scripted_post fixed_today no_int_of_string
    a_client by_book_id (PInt 50)
    (start [ok_body (json_of_user_books []); creation_failed; accepted])
  = (Raise AttributeError,
     {| world := [accepted];
        sent := [user_book_request a_client [("hardcover-id", PInt 312460)];
                 request_of a_client InsertUserBook
                   (PDict [("object",
                            PDict [("book_id", PInt 312460);
                                   ("edition_id", PNone);
                                   ("status_id", PInt 2);
                                   ("privacy_setting_id", PInt 1)])])] |}).
Proof.
  refine (proj1 (failed_creation_aborts_progress_update
                   script scripted_post fixed_today no_int_of_string
                   a_client by_book_id (PInt 50)
                   (start [ok_body (json_of_user_books []); creation_failed;
                           accepted])
                   [("hardcover-id", PInt 312460)]
                   (start [ok_body (json_of_user_books []); creation_failed;
                           accepted])
                   PNone
                   {| world := [creation_failed; accepted];
                      sent := [user_book_request a_client
                                 [("hardcover-id", PInt 312460)]] |}
                   _ _ _ _ _ _));
    [reflexivity | discriminate | reflexivity | reflexivity | reflexivity].
Defined.

(** C3 as stated fails: a user-book that is already Read (3), with a page
    count and an open read-session, gets neither the status change nor
    the session update at progress 100; the lookup is all that is sent. *)
Lemma read_book_with_open_session_gets_no_update :
  ub_pages dune_read = Some 200
  /\ ub_reads dune_read <> []
  /\ update_reading_progress script scripted_post fixed_today no_int_of_string
       a_client by_book_id (PInt 100)
       (start [ok_body (json_of_user_books [dune_read]); accepted; accepted])
     = (Ok tt,
        {| world := [accepted; accepted];
           sent := [user_book_request a_client
                      [("hardcover-id", PInt 312460)]] |}).
Proof. repeat split; try discriminate; vm_compute; reflexivity. Qed.

(** The amended C3 at a book being read. *)
Lemma finishing_witness :
  sent (snd (update_reading_progress script scripted_post fixed_today
               no_int_of_string a_client by_book_id (PInt 100)
               (start [ok_body (json_of_user_books [dune_reading]);
                       accepted; accepted])))
  = [user_book_request a_client [("hardcover-id", PInt 312460)];
     request_of a_client UpdateUserBook
       (PDict [("id", PInt 7); ("status_id", PInt 3)]);
     request_of a_client UpdateUserBookRead
       (PDict [("readId", PInt 11);
               ("pages", PInt 200);
               ("editionId", PInt 391);
               ("startedAt", PStr "2026-10-01");
               ("finishedAt", PStr "2026-11-03")])].
Proof.
  refine (finishing_sends_status_change_then_session_update
            script scripted_post fixed_today no_int_of_string
            a_client by_book_id (PInt 100)
            (start [ok_body (json_of_user_books [dune_reading]);
                    accepted; accepted])
            [("hardcover-id", PInt 312460)]
            (start [ok_body (json_of_user_books [dune_reading]);
                    accepted; accepted])
            dune_reading 200
            {| read_id := 11; read_started_at := Some "2026-10-01";
               read_finished_at := None; read_edition_id := Some 391;
               read_progress_pages := Some 40 |}
            []
            {| world := [accepted; accepted];
               sent := [user_book_request a_client
                          [("hardcover-id", PInt 312460)]] |}
            _ _ _ _ _ _ _ _);
    [left; reflexivity | reflexivity | discriminate | reflexivity
    | cbn; discriminate | reflexivity | lia | reflexivity].
Defined.

(** C4 at a book already read. *)
Lemma read_book_at_100_witness :
  update_reading_progress script scripted_post fixed_today no_int_of_string
    a_client by_book_id (PFloat float_100)
    (start [ok_body (json_of_user_books [dune_read]); accepted])
  = (Ok tt,
     {| world := [accepted];
        sent := [user_book_request a_client
                   [("hardcover-id", PInt 312460)]] |}).
Proof.
  refine (proj1 (read_book_at_100_issues_no_mutation
                   script scripted_post fixed_today no_int_of_string
                   a_client by_book_id (PFloat float_100)
                   (start [ok_body (json_of_user_books [dune_read]); accepted])
                   [("hardcover-id", PInt 312460)]
                   (start [ok_body (json_of_user_books [dune_read]); accepted])
                   dune_read _ _ _ _ _ _));
    [right; reflexivity | reflexivity | discriminate | reflexivity
    | reflexivity].
Defined.

(** C10 at a book being read that has no open session. *)
Lemma full_progress_without_session_witness :
  sent (snd (update_reading_progress script scripted_post fixed_today
               no_int_of_string a_client by_book_id (PInt 100)
               (start [ok_body (json_of_user_books [dune_no_session]);
                       accepted])))
  = [user_book_request a_client [("hardcover-id", PInt 312460)];
     request_of a_client InsertUserBookRead
       (PDict [("id", PInt 7);
               ("editionId", PInt 391);
               ("pages", PInt 200);
               ("startedAt", PStr "2026-11-03")])].
Proof.
  refine (full_progress_without_session_only_inserts_read
            script scripted_post fixed_today no_int_of_string
            a_client by_book_id (PInt 100)
            (start [ok_body (json_of_user_books [dune_no_session]); accepted])
            [("hardcover-id", PInt 312460)]
            (start [ok_body (json_of_user_books [dune_no_session]); accepted])
            dune_no_session 200
            {| world := [accepted];
               sent := [user_book_request a_client
                          [("hardcover-id", PInt 312460)]] |}
            _ _ _ _ _ _ _ _);
    [left; reflexivity | reflexivity | discriminate | reflexivity
    | cbn; discriminate | reflexivity | lia | reflexivity].
Defined.

(** C9 at a slug with a 13-digit ISBN, against a remote that knows the
    book and the edition. *)
Lemma slug_resolution_witness :
  sent (snd (parse_identifiers script scripted_post a_client by_slug
               (start [ok_body (json_of_book_match 312460 (Some [391]))])))
  = [request_of a_client BooksBySlugIsbn
       (PDict [("slug", PStr "dune"); ("isbn", PStr "9780441013593")])]
  /\ fst (parse_identifiers script scripted_post a_client by_slug
            (start [ok_body (json_of_book_match 312460 (Some [391]))]))
     = Ok [("hardcover", PStr "dune");
           ("isbn", PStr "9780441013593");
           ("hardcover-id", PInt 312460);
           ("hardcover-edition", PInt 391)].
Proof.
  destruct (slug_resolution_is_one_idempotent_round_trip
              script scripted_post a_client by_slug
              "dune" (Some "9780441013593")
              (start [ok_body (json_of_book_match 312460 (Some [391]))]))
    as (Sent & Found & Again);
    [reflexivity | reflexivity | discriminate | reflexivity |].
  split; [exact Sent | exact (Found 312460 (Some [391]) eq_refl)].
Defined.

(** C5 fails on the code.  The hit is well-formed, and a response that
    carries it in the list under [data.search.results.hits] yields no
    record; the records come out only when the list sits one ["hits"]
    deeper. *)
Lemma title_hits_under_results_are_lost :
  _parse_title_result no_repr dune_hit (PStr "") "en" <> None
  /\ fst (search script scripted_post a_token no_token no_token
            no_json_loads no_repr no_language_name "dune" (PStr "") "en"
            (searching [ok_body (json_of_search (PList [dune_hit]))]))
     = Ok []
  /\ fst (search script scripted_post a_token no_token no_token
            no_json_loads no_repr no_language_name "dune" (PStr "") "en"
            (searching
               [ok_body (json_of_search
                           (PDict [("hits", PList [dune_hit])]))]))
     = Ok (match _parse_title_result no_repr dune_hit (PStr "") "en" with
           | Some m => [m]
           | None => []
           end).
Proof. repeat split; try discriminate; vm_compute; reflexivity. Qed.

(** C6 at a book with editions of format 1, 4 and 2 and one without a
    format. *)
Lemma edition_format_witness :
  map mr_format
      (match _parse_edition_results no_repr no_language_name dune_book
               (PStr "") "en" with
       | Ok l => l
       | Raise _ => []
       end)
  = [PStr "Physical Book"; PStr "E-Book"; PStr ""; PStr ""]
  /\ exists editions,
       (es <~ py_getitem dune_book "editions" ;; py_iter es) = Ok editions
       /\ Forall2
            (fun edition r =>
               exists rf_id,
                 py_get edition "reading_format_id" PNone = Ok rf_id
                 /\ mr_format r
                    = PStr (match as_int rf_id with
                            | Some index => format_table index
                            | None => ""
                            end))
            editions
            (match _parse_edition_results no_repr no_language_name dune_book
                     (PStr "") "en" with
             | Ok l => l
             | Raise _ => []
             end).
Proof.
  split; [vm_compute; reflexivity|].
  apply (edition_format_follows_table no_repr no_language_name dune_book
           (PStr "") "en").
  vm_compute. reflexivity.
Defined.

(** C7 at a remote that is down. *)
Lemma search_degrades_witness :
  exists val s',
    search script scripted_post a_token no_token no_token no_json_loads
      no_repr no_language_name "dune" (PStr "") "en" (searching [])
    = (Ok val, s')
    /\ val = [].
Proof.
  destruct (search_never_raises_and_degrades_to_empty
              script scripted_post a_token no_token no_token no_json_loads
              no_repr no_language_name "dune" (PStr "") "en" (searching []))
    as (val & s' & Run & Bad).
  exists val, s'. split; [exact Run|].
  apply Bad. intros rq. exact I.
Defined.

(** C8 at a host without any token, followed by two more searches. *)
Lemma missing_token_witness :
  search script scripted_post no_token no_token no_token no_json_loads
    no_repr no_language_name "dune" (PStr "") "en"
    (searching [ok_body (json_of_search (PList [dune_hit]))])
  = (Ok [],
     {| active := false;
        pnet := start [ok_body (json_of_search (PList [dune_hit]))] |})
  /\ fst (later_searches script scripted_post no_token no_token no_token
            no_json_loads no_repr no_language_name
            [(fun w => w, "dune", PStr "", "en");
             (fun w => accepted :: w, "hardcover-id:312460", PStr "", "en")]
            {| active := false;
               pnet := start [ok_body (json_of_search (PList [dune_hit]))] |})
     = [Ok []; Ok []].
Proof.
  destruct (missing_token_deactivates_search_for_good
              script scripted_post no_token no_token no_token no_json_loads
              no_repr no_language_name "dune" (PStr "") "en"
              (searching [ok_body (json_of_search (PList [dune_hit]))]))
    as (First & Later);
    [left; reflexivity | left; reflexivity | left; reflexivity |].
  split; [exact First|].
  exact (proj1 (Later [(fun w => w, "dune", PStr "", "en");
                       (fun w => accepted :: w, "hardcover-id:312460",
                        PStr "", "en")])).
Defined.

(** * More of the model at work *)

Lemma execute_witness :
  exists body,
    has_key "errors" body = false
    /\ PDict [] = match lookup "data" body with
                  | Some x => x
                  | None => PDict []
                  end.
Proof.
  destruct (execute_returns_only_from_a_clean_reply
              script scripted_post a_client GetPrivacy PNone
              (start [accepted]) (PDict [])
              {| world := [];
                 sent := [request_of a_client GetPrivacy PNone] |}
              eq_refl)
    as (body & _ & K & D & _).
  exists body. split; [exact K | exact D].
Defined.

Lemma init_witness :
  fst (__init__ script scripted_post "abc"
         (start [ok_body (PDict [("data",
                   PDict [("me",
                     PList [PDict [("account_privacy_setting_id",
                                    PInt 3)]])])])]))
  = Ok {| endpoint := GRAPHQL_ENDPOINT;
          authorization := "Bearer abc";
          privacy := PInt 3 |}.
Proof.
  refine (proj1 (init_reads_privacy_once script scripted_post "abc"
                   [("account_privacy_setting_id", PInt 3)] _ _)).
  reflexivity.
Defined.

Lemma get_user_book_witness :
  get_user_book script scripted_post a_client [("hardcover-id", PInt 312460)]
    (start [ok_body (json_of_user_books [dune_reading; dune_read])])
  = (Ok (json_of_user_book dune_reading),
     {| world := [];
        sent := [user_book_request a_client
                   [("hardcover-id", PInt 312460)]] |}).
Proof.
  refine (get_user_book_takes_the_first script scripted_post a_client
            [("hardcover-id", PInt 312460)] [dune_reading; dune_read]
            (start [ok_body (json_of_user_books [dune_reading; dune_read])])
            _).
  reflexivity.
Defined.

Lemma parse_identifiers_fixed_witness :
  parse_identifiers script scripted_post a_client
    (IdsDict [("hardcover", PStr "dune");
              ("isbn", PStr "9780441013593");
              ("hardcover-id", PInt 312460);
              ("hardcover-edition", PInt 391)])
    (start [])
  = (Ok [("hardcover", PStr "dune");
         ("isbn", PStr "9780441013593");
         ("hardcover-id", PInt 312460);
         ("hardcover-edition", PInt 391)],
     start []).
Proof.
  refine (parse_identifiers_fixes_its_result script scripted_post a_client
            by_slug
            (start [ok_body (json_of_book_match 312460 (Some [391]))])
            _ {| world := [];
                 sent := [slug_request a_client "dune"
                            (Some "9780441013593")] |}
            _ (start [])).
  reflexivity.
Defined.

Lemma unknown_slug_witness :
  update_reading_progress script scripted_post fixed_today no_int_of_string
    a_client by_slug (PInt 50)
    (start [ok_body (PDict [("data", PDict [("books", PList [])])]);
            accepted])
  = (Raise ValueError,
     {| world := [accepted];
        sent := [slug_request a_client "dune" (Some "9780441013593")] |}).
Proof.
  refine (unknown_slug_fails_the_progress_update
            script scripted_post fixed_today no_int_of_string
            a_client by_slug (PInt 50) "dune" (Some "9780441013593")
            (start [ok_body (PDict [("data", PDict [("books", PList [])])]);
                    accepted])
            _ _ _ _ _);
    [reflexivity | reflexivity | discriminate | reflexivity | reflexivity].
Defined.

Lemma add_book_without_book_id_witness :
  add_book script scripted_post no_int_of_string a_client by_edition 2
    (start [accepted])
  = (Raise TypeError, start [accepted]).
Proof.
  refine (add_book_without_book_id_raises script scripted_post
            no_int_of_string a_client by_edition 2 (start [accepted]) _ _);
    reflexivity.
Defined.

Lemma add_book_insertion_witness :
  sent (snd (add_book script scripted_post no_int_of_string a_client
               by_book_id 2 (start [creation_failed])))
  = [request_of a_client InsertUserBook
       (PDict [("object",
                PDict [("book_id", PInt 312460);
                       ("edition_id", PNone);
                       ("status_id", PInt 2);
                       ("privacy_setting_id", PInt 1)])])].
Proof.
  refine (add_book_sends_one_insertion script scripted_post no_int_of_string
            a_client by_book_id 2 312460 None (start [creation_failed]) _ _);
    reflexivity.
Defined.

Lemma moved_to_reading_witness :
  sync_user_book script scripted_post fixed_today no_int_of_string a_client
    (json_of_user_book dune_wanted) (PInt 50)
    (start [status_changed dune_no_session; accepted])
  = sync_user_book script scripted_post fixed_today no_int_of_string a_client
      (json_of_user_book dune_no_session) (PInt 50)
      {| world := [accepted];
         sent := [request_of a_client UpdateUserBook
                    (PDict [("id", PInt 7); ("status_id", PInt 2)])] |}.
Proof.
  refine (proj2 (unfinished_book_is_moved_to_reading_first
                   script scripted_post fixed_today no_int_of_string
                   a_client dune_wanted (PInt 50)
                   (start [status_changed dune_no_session; accepted])
                   _ _)
            dune_no_session _ _ _);
    [reflexivity | discriminate | reflexivity | reflexivity].
Defined.

Lemma book_without_pages_witness :
  sync_user_book script scripted_post fixed_today no_int_of_string a_client
    (json_of_user_book dune_unpaged) (PInt 100) (start [accepted])
  = (Ok tt, start [accepted]).
Proof.
  refine (book_without_pages_gets_no_update
            script scripted_post fixed_today no_int_of_string
            a_client dune_unpaged (PInt 100) (start [accepted]) _ _);
    [left; reflexivity | right; reflexivity].
Defined.

Lemma progress_below_100_witness :
  sent (snd (sync_user_book script scripted_post fixed_today no_int_of_string
               a_client (json_of_user_book dune_no_session) (PInt 50)
               (start [accepted])))
  = [request_of a_client InsertUserBookRead
       (PDict [("id", PInt 7);
               ("editionId", PInt 391);
               ("pages", PInt 100);
               ("startedAt", PStr "2026-11-03")])].
Proof.
  refine (progress_below_100_writes_the_session_only
            script scripted_post fixed_today no_int_of_string
            a_client dune_no_session (PInt 50) 200 100 (start [accepted])
            _ _ _ _ _);
    [reflexivity | reflexivity | reflexivity | discriminate
    | vm_compute; reflexivity].
Defined.

Lemma title_hit_witness :
  exists r, _parse_title_result no_repr dune_hit (PStr "") "en" = Some r.
Proof.
  apply (proj1 (proj1 (title_hit_maps_iff_document_is_a_dict
                         no_repr dune_hit (PStr "") "en"))).
  reflexivity.
Defined.

Lemma title_batch_witness :
  exists records,
    process_results no_json_loads no_repr no_language_name false
      (json_of_search (PDict [("hits", PList [dune_hit; junk_hit])]))
      (PStr "") "en"
    = Ok records
    /\ Forall2 (fun hit r =>
                  _parse_title_result no_repr hit (PStr "") "en" = Some r)
               [dune_hit] records.
Proof.
  refine (title_batch_maps_each_well_formed_hit
            no_json_loads no_repr no_language_name
            (json_of_search (PDict [("hits", PList [dune_hit; junk_hit])]))
            [("hits", PList [dune_hit; junk_hit])] [dune_hit; junk_hit]
            (PStr "") "en" _ _);
    reflexivity.
Defined.

Lemma title_hits_in_a_json_string_witness :
  process_results canned_json_loads no_repr no_language_name false
    (json_of_search (PStr "one hit")) (PStr "") "en"
  = process_results canned_json_loads no_repr no_language_name false
      (json_of_search (PDict [("hits", PList [dune_hit])])) (PStr "") "en".
Proof.
  refine (title_hits_in_a_json_string_are_decoded
            canned_json_loads no_repr no_language_name
            (json_of_search (PStr "one hit")) "one hit" (PStr "") "en" _).
  reflexivity.
Defined.

Lemma one_malformed_edition_witness :
  rcatch
    (process_results no_json_loads no_repr no_language_name true
       (json_of_books
          [PDict [("id", PInt 312460);
                  ("editions",
                   PList [PDict [("id", PInt 391)]; PStr "392"])]])
       (PStr "") "en")
    (fun _ => Ok [])
  = Ok [].
Proof.
  refine (proj2 (one_malformed_edition_empties_the_edition_search
                   no_json_loads no_repr no_language_name
                   [("id", PInt 312460);
                    ("editions",
                     PList [PDict [("id", PInt 391)]; PStr "392"])]
                   [PDict [("id", PInt 391)]; PStr "392"] (PStr "392") []
                   (PStr "") "en" _ _ _));
    [reflexivity | right; left; reflexivity | reflexivity].
Defined.

Lemma edition_records_witness :
  exists records id editions,
    _parse_edition_results no_repr no_language_name dune_book (PStr "") "en"
    = Ok records
    /\ py_get dune_book "id" (PStr "") = Ok id
    /\ Forall2 (fun edition r =>
                  mr_id r = id
                  /\ py_get edition "title" (PStr "") = Ok (mr_title r))
               editions records.
Proof.
  destruct (_parse_edition_results no_repr no_language_name dune_book
              (PStr "") "en") as [records|e] eqn:R;
    [|vm_compute in R; discriminate R].
  destruct (edition_records_carry_the_book_fields
              no_repr no_language_name dune_book (PStr "") "en" records R)
    as (id & editions & Hid & _ & Hall).
  exists records, id, editions. split; [reflexivity|]. split; [exact Hid|].
  clear R. revert Hall. apply Forall2_impl.
  intros edition r (H1 & _ & _ & _ & H5). split; assumption.
Defined.

Lemma edition_isbn_witness :
  exists r,
    parse_edition no_repr no_language_name dune_book (PInt 312460)
      (PStr "") "en"
      (PDict [("id", PInt 392); ("reading_format_id", PInt 4);
              ("isbn_10", PStr "0441013597");
              ("isbn_13", PStr "9780441013593")])
    = Ok r
    /\ lookup "isbn" (mr_identifiers r) = Some (PStr "9780441013593").
Proof.
  destruct (parse_edition no_repr no_language_name dune_book (PInt 312460)
              (PStr "") "en"
              (PDict [("id", PInt 392); ("reading_format_id", PInt 4);
                      ("isbn_10", PStr "0441013597");
                      ("isbn_13", PStr "9780441013593")]))
    as [r|e] eqn:R; [|vm_compute in R; discriminate R].
  exists r. split; [reflexivity|].
  exact (edition_isbn_prefers_the_isbn_13_key
           no_repr no_language_name dune_book (PInt 312460) (PStr "") "en"
           _ r R).
Defined.

Lemma edition_authors_witness :
  _parse_edition_authors
    (PDict [("contributions",
             PList [PDict [("author", PDict [("name", PStr "Frank Herbert")])];
                    PDict [("author",
                            PDict [("name", PStr "Brian Herbert")])]])])
    (PList [PStr "Unknown"])
  = PList [PStr "Frank Herbert"; PStr "Brian Herbert"].
Proof.
  refine (proj1 (edition_authors_are_read_in_order (PList [PStr "Unknown"]))
            _ [PStr "Frank Herbert"; PStr "Brian Herbert"] _).
  reflexivity.
Defined.


Lemma edition_query_witness :
  sent (pnet (snd (search script scripted_post a_token no_token no_token
                     no_json_loads no_repr no_language_name
                     "hardcover-id:312460" (PStr "") "en"
                     (searching [ok_body (json_of_books [dune_book])]))))
  = [search_request "Bearer abc" true "312460"].
Proof.
  refine (edition_query_sends_the_id_after_the_colon
            script scripted_post a_token no_token no_token
            no_json_loads no_repr no_language_name
            "Bearer abc" "312460" (PStr "") "en"
            (searching [ok_body (json_of_books [dune_book])]) _ _ _ _);
    [reflexivity | reflexivity | discriminate
    | cbn; intuition discriminate].
Defined.

Lemma title_query_witness :
  sent (pnet (snd (search script scripted_post a_token no_token no_token
                     no_json_loads no_repr no_language_name
                     "Dune: Messiah" (PStr "") "en"
                     (searching [ok_body (json_of_search (PList []))]))))
  = [search_request "Bearer abc" false "Dune: Messiah"].
Proof.
  refine (other_queries_are_sent_whole_as_title_search
            script scripted_post a_token no_token no_token
            no_json_loads no_repr no_language_name
            "Bearer abc" "Dune: Messiah" (PStr "") "en"
            (searching [ok_body (json_of_search (PList []))]) _ _ _ _);
    [reflexivity | reflexivity | discriminate
    | vm_compute; discriminate].
Defined.

Lemma bearer_prefix_witness :
  sent (pnet (snd (search script scripted_post a_token no_token no_token
                     no_json_loads no_repr no_language_name
                     "dune" (PStr "") "en"
                     (searching [ok_body (json_of_search (PList []))]))))
  = [{| rq_url := BASE_URL;
        rq_authorization := "Bearer abc";
        rq_query := SEARCH_QUERY;
        rq_variables := PDict [("query", PStr "dune")] |}].
Proof.
  refine (bearer_prefix_is_not_doubled
            script scripted_post a_token no_token no_token
            no_json_loads no_repr no_language_name
            "Bearer abc" "abc" "dune" "dune" (PStr "") "en"
            (searching [ok_body (json_of_search (PList []))]) _ _ _ _ _ _);
    [reflexivity | reflexivity | right; reflexivity | discriminate
    | reflexivity | reflexivity].
Defined.

Lemma found_author_witness :
  get_author_info script scripted_post_author fixed_clock a_client
    "Frank Herbert" herbert_stored
  = (Ok herbert, herbert_stored).
Proof.
  destruct (found_author_is_served_from_the_cache
              script scripted_post_author fixed_clock a_client
              "Frank Herbert"
              (no_caches [ok_body (json_of_authors [herbert])])
              herbert herbert_stored eq_refl eq_refl)
    as (timestamp & Stored & Again).
  apply Again; [exact Stored|].
  injection Stored as <-. vm_compute. reflexivity.
Defined.

Lemma unknown_author_witness :
  get_author_info script scripted_post_author fixed_clock a_client
    "Frank Herbert" (stale_shelf [ok_body (json_of_authors [])])
  = (Ok PNone,
     {| aworld := [];
        asked := [author_request_of a_client GetAuthorInfo "Frank Herbert"];
        _AUTHORS_CACHE := [];
        _AUTHORS_BOOKS_CACHE := [] |}).
Proof.
  refine (unknown_author_is_not_cached
            script scripted_post_author fixed_clock a_client "Frank Herbert"
            (stale_shelf [ok_body (json_of_authors [])]) _ _);
    [|reflexivity].
  intros entry L. injection L as <-. vm_compute. reflexivity.
Defined.

Lemma stale_author_witness :
  asked (snd (get_author_info script scripted_post_author fixed_clock
                a_client "Frank Herbert"
                (stale_shelf [ok_body (json_of_authors [herbert])])))
  = [author_request_of a_client GetAuthorInfo "Frank Herbert"].
Proof.
  refine (proj1 (stale_author_entry_is_replaced
                   script scripted_post_author fixed_clock a_client
                   "Frank Herbert"
                   {| ce_data := PDict [("name", PStr "F. Herbert")];
                      ce_timestamp := long_ago |}
                   (stale_shelf [ok_body (json_of_authors [herbert])])
                   _ _));
    [reflexivity | vm_compute; reflexivity].
Defined.

Lemma other_author_books_witness :
  exists books,
    PList [book_messiah] = PList books
    /\ Forall (fun book =>
                 exists slug,
                   py_get book "slug" PNone = Ok slug
                   /\ py_truthy slug = true
                   /\ forall owned, In owned ["dune"] -> slug <> PStr owned)
              books.
Proof.
  refine (other_author_books_leave_out_the_library
            script scripted_post_author fixed_clock a_client
            "Frank Herbert" ["dune"]
            (stale_books_shelf [ok_body (json_of_author_books
                                           [book_dune; book_messiah])])
            (PList [book_messiah])
            {| aworld := [];
               asked := [author_request_of a_client OtherBooksFromAuthor
                           "Frank Herbert"];
               _AUTHORS_CACHE := [];
               _AUTHORS_BOOKS_CACHE :=
                 [("Frank Herbert",
                   {| ce_data := PList [book_messiah];
                      ce_timestamp := fixed_clock [] |})] |}
            _ _);
    [|reflexivity].
  intros entry L. injection L as <-. vm_compute. reflexivity.
Defined.

Lemma books_cache_witness :
  get_other_author_books script scripted_post_author fixed_clock a_client
    "Frank Herbert" ["dune-messiah"]
    {| aworld := [];
       asked := [];
       _AUTHORS_CACHE := [];
       _AUTHORS_BOOKS_CACHE :=
         [("Frank Herbert",
           {| ce_data := PList [book_messiah];
              ce_timestamp := fixed_clock [] |})] |}
  = (Ok (PList [book_messiah]),
     {| aworld := [];
        asked := [];
        _AUTHORS_CACHE := [];
        _AUTHORS_BOOKS_CACHE :=
          [("Frank Herbert",
            {| ce_data := PList [book_messiah];
               ce_timestamp := fixed_clock [] |})] |}).
Proof.
  refine (proj2 (other_author_books_cache_ignores_the_library
                   script scripted_post_author fixed_clock a_client
                   "Frank Herbert" ["dune"]
                   (no_caches [ok_body (json_of_author_books
                                          [book_dune; book_messiah])])
                   (PList [book_messiah])
                   {| aworld := [];
                      asked := [author_request_of a_client
                                  OtherBooksFromAuthor "Frank Herbert"];
                      _AUTHORS_CACHE := [];
                      _AUTHORS_BOOKS_CACHE :=
                        [("Frank Herbert",
                          {| ce_data := PList [book_messiah];
                             ce_timestamp := fixed_clock [] |})] |}
                   {| ce_data := PList [book_messiah];
                      ce_timestamp := fixed_clock [] |}
                   _ _)
            ["dune-messiah"] _ _ _);
    [reflexivity | reflexivity | reflexivity | vm_compute; reflexivity].
Defined.

Lemma owned_titles_witness :
  exists books,
    PList [book_messiah] = PList books
    /\ forall book, In book books ->
                    py_get book "slug" PNone <> Ok (PStr "dune").
Proof.
  refine (owned_titles_are_not_offered
            script scripted_post_author fixed_clock a_client
            "Frank Herbert" ["dune"] one_book_library
            (WithBooks
               {| book_identifiers :=
                    Some [{| id_type := "isbn";
                             id_val := PStr "9780441013593" |};
                          {| id_type := "hardcover";
                             id_val := PStr "dune" |}] |})
            [{| id_type := "isbn"; id_val := PStr "9780441013593" |};
             {| id_type := "hardcover"; id_val := PStr "dune" |}]
            "dune"
            (no_caches [ok_body (json_of_author_books
                                   [book_dune; book_messiah])])
            (PList [book_messiah])
            {| aworld := [];
               asked := [author_request_of a_client OtherBooksFromAuthor
                           "Frank Herbert"];
               _AUTHORS_CACHE := [];
               _AUTHORS_BOOKS_CACHE :=
                 [("Frank Herbert",
                   {| ce_data := PList [book_messiah];
                      ce_timestamp := fixed_clock [] |})] |}
            _ _ _ _ _ _);
    [reflexivity | left; reflexivity | reflexivity | right; left; reflexivity
    | intros cached L; cbn in L; discriminate L | reflexivity].
Defined.

(** C2 at a remote that knows no user-book and refuses the creation
    without a user-book in its reply. *)
Lemma creation_without_user_book_witness :
  exists rest,
    sent (snd (update_reading_progress script scripted_post fixed_today
                 no_int_of_string a_client by_book_id (PInt 50)
                 (start [ok_body (json_of_user_books []);
                         creation_without_user_book; accepted])))
    = ([user_book_request a_client [("hardcover-id", PInt 312460)];
        request_of a_client InsertUserBook
          (PDict [("object",
                   PDict [("book_id", PInt 312460);
                          ("edition_id", PNone);
                          ("status_id", PInt 2);
                          ("privacy_setting_id", PInt 1)])]);
        request_of a_client UpdateUserBook
          (PDict [("id", PNone); ("status_id", PInt 2)])]
       ++ rest)%list.
Proof.
  refine (creation_without_user_book_is_followed_by_a_status_change
            script scripted_post fixed_today no_int_of_string
            a_client by_book_id (PInt 50)
            (start [ok_body (json_of_user_books []);
                    creation_without_user_book; accepted])
            [("hardcover-id", PInt 312460)]
            (start [ok_body (json_of_user_books []);
                    creation_without_user_book; accepted])
            PNone
            {| world := [creation_without_user_book; accepted];
               sent := [user_book_request a_client
                          [("hardcover-id", PInt 312460)]] |}
            {| world := [accepted];
               sent := [user_book_request a_client
                          [("hardcover-id", PInt 312460)];
                        request_of a_client InsertUserBook
                          (PDict [("object",
                                   PDict [("book_id", PInt 312460);
                                          ("edition_id", PNone);
                                          ("status_id", PInt 2);
                                          ("privacy_setting_id",
                                           PInt 1)])])] |}
            _ _ _ _ _ _);
    [reflexivity | discriminate | reflexivity | reflexivity | reflexivity
    | reflexivity].
Defined.

(** The whole of that run: the status change for the missing id is the
    last request, and the call returns as if all were well. *)
Lemma creation_without_user_book_run :
  update_reading_progress script scripted_post fixed_today no_int_of_string
    a_client by_book_id (PInt 50)
    (start [ok_body (json_of_user_books []);
            creation_without_user_book; accepted])
  = (Ok tt,
     {| world := [];
        sent := [user_book_request a_client [("hardcover-id", PInt 312460)];
                 request_of a_client InsertUserBook
                   (PDict [("object",
                            PDict [("book_id", PInt 312460);
                                   ("edition_id", PNone);
                                   ("status_id", PInt 2);
                                   ("privacy_setting_id", PInt 1)])]);
                 request_of a_client UpdateUserBook
                   (PDict [("id", PNone); ("status_id", PInt 2)])] |}).
Proof. vm_compute. reflexivity. Qed.

(** An ISBN is measured in characters: one of 13 characters is sent with
    the slug also when it takes more than 13 bytes. *)
Lemma isbn_of_13_characters_is_sent :
  String.length isbn_with_an_arabic_digit = 14%nat
  /\ sent (snd (parse_identifiers script scripted_post a_client
                  (IdsSeq [{| id_type := "hardcover"; id_val := PStr "dune" |};
                           {| id_type := "isbn";
                              id_val := PStr isbn_with_an_arabic_digit |}])
                  (start [])))
     = [request_of a_client BooksBySlugIsbn
          (PDict [("slug", PStr "dune");
                  ("isbn", PStr isbn_with_an_arabic_digit)])].
Proof. split; vm_compute; reflexivity. Qed.
